(** * The transform core of dax: numeric kernel and scene-graph node

    A shallow embedding of [math/matrix.go], [math/quaternion.go] and
    [node.go].  Every Go function is translated once, generically in its
    scalar type, and then read at two scalar types:

    - [B32.t], IEEE-754 binary32 with round-to-nearest-even, which is
      what Go's [float32] computes (executable: concrete inputs are
      evaluated);
    - [R], the real numbers, which is the arithmetic the formulas are
      meant to approximate (exact: identities are proved with [field]). *)

From Stdlib Require Import ZArith QArith Qabs Reals Lra Lia List Bool String.
From Stdlib Require Import Floats.SpecFloat.
From Stdlib Require Import RNsatz.
Import ListNotations.

Set Implicit Arguments.

(** ** Scalars *)

(** The operations Go applies to a [float32].  [lit q] is the numeric
    constant [q] of the source text converted to the scalar type. *)
Class Scalar (F : Type) := {
  lit : Q -> F;
  add : F -> F -> F;
  sub : F -> F -> F;
  mul : F -> F -> F;
  div : F -> F -> F;
  neg : F -> F;
  ltb : F -> F -> bool
}.

Arguments lit {F _} q%_Q.

Declare Scope scalar_scope.
Delimit Scope scalar_scope with S.
Infix "+" := add : scalar_scope.
Infix "-" := sub : scalar_scope.
Infix "*" := mul : scalar_scope.
Infix "/" := div : scalar_scope.
Notation "- x" := (neg x) : scalar_scope.
Infix "<?" := ltb : scalar_scope.
Notation "x >? y" := (ltb y x) : scalar_scope.
Notation "0" := (lit 0) : scalar_scope.
Notation "1" := (lit 1) : scalar_scope.
Notation "2" := (lit 2) : scalar_scope.

(** [FloatEqual] lives in [math/util.go], which is not among the sources:
    it is a parameter of the code. *)
Class Approx (F : Type) := {
  FloatEqual : F -> F -> bool
}.

(** The elementary functions of [math/util.go] used by the quaternion
    code, parameters for the same reason.  [capInf x] is the value of [x]
    after the statement [if x == InfPos { x = MaxValue }], which reads the
    two constants [InfPos] and [MaxValue] of that file. *)
Class Elementary (F : Type) := {
  Sqrt : F -> F;
  Sin : F -> F;
  Cos : F -> F;
  Acos : F -> F;
  capInf : F -> F
}.

(** What "equal within a tolerance" means for a scalar type: the distance
    of the two values is at most the tolerance. *)
Class Metric (F : Type) := {
  within : Q -> F -> F -> Prop
}.

(** *** binary32 *)

Module B32.

Definition prec : Z := 24.
Definition emax : Z := 128.

Definition t : Type := spec_float.

Definition of_Z (z : Z) : t := binary_normalize prec emax z 0 false.

(** A constant [n/d] is the correctly rounded quotient of two integers
    that binary32 represents exactly (every constant of the sources has
    [n], [d] below [2^24]). *)
Definition of_Q (q : Q) : t :=
  SFdiv prec emax (of_Z (Qnum q)) (of_Z (Zpos (Qden q))).

(** The exact rational value of a finite binary32 number. *)
Definition to_Q (x : t) : option Q :=
  match x with
  | S754_zero _ => Some (0 # 1)
  | S754_finite s m e =>
      Some (Qmult (inject_Z (cond_Zopp s (Zpos m))) (Qpower (2 # 1) e))
  | S754_infinity _ | S754_nan => None
  end.

Definition withinb (eps : Q) (x y : t) : bool :=
  match to_Q x, to_Q y with
  | Some a, Some b => Qle_bool (Qabs (Qminus a b)) eps
  | _, _ => false
  end.

Definition ltb (x y : t) : bool := SFltb x y.

(** Modelled from the spec: [FloatEqual] of [math/util.go] is the spec's
    "epsilon-threshold compare": the distance is below the threshold. *)
Definition threshold_eq (eps : Q) (x y : t) : bool :=
  SFltb (SFabs (SFsub prec emax x y)) (of_Q eps).

End B32.

#[export] Instance b32_scalar : Scalar B32.t := {|
  lit := B32.of_Q;
  add := SFadd B32.prec B32.emax;
  sub := SFsub B32.prec B32.emax;
  mul := SFmul B32.prec B32.emax;
  div := SFdiv B32.prec B32.emax;
  neg := SFopp;
  ltb := B32.ltb
|}.

(** The comparison used to run the code on binary32 inputs.  The
    evaluations below compare [+Inf] and [1] with [0]: every threshold
    below [1] gives the same answers. *)
#[export] Instance b32_approx : Approx B32.t := {|
  FloatEqual := B32.threshold_eq (1 # 1000000)
|}.

#[export] Instance b32_metric : Metric B32.t := {|
  within := fun eps x y => B32.withinb eps x y = true
|}.

(** *** Real numbers *)

Module Exact.

Definition ltb (x y : R) : bool := if Rlt_dec x y then true else false.

(** Modelled from the spec: [FloatEqual] of [math/util.go] is the spec's
    "epsilon-threshold compare": the distance is below the threshold. *)
Definition threshold_eq (eps : Q) (x y : R) : bool :=
  ltb (Rabs (x - y)) (Q2R eps).

End Exact.

#[export] Instance R_scalar : Scalar R := {|
  lit := Q2R;
  add := Rplus;
  sub := Rminus;
  mul := Rmult;
  div := Rdiv;
  neg := Ropp;
  ltb := Exact.ltb
|}.


(** Modelled from the spec: [Epsilon] of [math/util.go], the threshold
    of [FloatEqual].  The file is not among the sources; the value is the
    [1e-6] the spec gives as the tolerance per element, the one taken
    for binary32 above. *)
Definition Epsilon : Q := 1 # 1000000.

(** Modelled from the spec: [FloatEqual] of [math/util.go] is the spec's
    "epsilon-threshold compare", on real numbers as on binary32: numbers
    whose distance is below [Epsilon] pass for equal. *)
#[export] Instance R_approx : Approx R := {|
  FloatEqual := Exact.threshold_eq Epsilon
|}.

(** No real number is infinite: [x == InfPos] never holds. *)
#[export] Instance R_elementary : Elementary R := {|
  Sqrt := sqrt;
  Sin := sin;
  Cos := cos;
  Acos := acos;
  capInf := fun x => x
|}.

(** ** Fixed-size arrays *)

(** Go's [Vec3], [Mat2], ... are arrays of [float32].  Where the sources
    index them with a constant, an index outside the array never reaches
    run time; an index computed at run time goes through [load_index] or
    [store_index] below, which check it.  Either way the last alternative
    of [idx] is not used. *)
Class Indexed (A F : Type) := idx : A -> nat -> F.

Notation "m .[ i ]" := (idx m i%nat)
  (at level 1, left associativity, format "m .[ i ]").

Inductive Vec3 (F : Type) : Type :=
  vec3 (x0 x1 x2 : F).

Inductive Mat2 (F : Type) : Type :=
  mat2 (e0 e1 e2 e3 : F).

Inductive Mat3 (F : Type) : Type :=
  mat3 (e0 e1 e2 e3 e4 e5 e6 e7 e8 : F).

Inductive Mat4 (F : Type) : Type :=
  mat4 (e0 e1 e2 e3 e4 e5 e6 e7 e8 e9 e10 e11 e12 e13 e14 e15 : F).

Inductive Mat2x3 (F : Type) : Type :=
  mat2x3 (e0 e1 e2 e3 e4 e5 : F).

#[export] Instance Vec3_indexed {F} : Indexed (Vec3 F) F :=
  fun v i => let 'vec3 x0 x1 x2 := v in
    match i with 0 => x0 | 1 => x1 | _ => x2 end%nat.

#[export] Instance Mat2_indexed {F} : Indexed (Mat2 F) F :=
  fun m i => let 'mat2 e0 e1 e2 e3 := m in
    match i with 0 => e0 | 1 => e1 | 2 => e2 | _ => e3 end%nat.

#[export] Instance Mat3_indexed {F} : Indexed (Mat3 F) F :=
  fun m i => let 'mat3 e0 e1 e2 e3 e4 e5 e6 e7 e8 := m in
    match i with
    | 0 => e0 | 1 => e1 | 2 => e2 | 3 => e3 | 4 => e4
    | 5 => e5 | 6 => e6 | 7 => e7 | _ => e8
    end%nat.

#[export] Instance Mat4_indexed {F} : Indexed (Mat4 F) F :=
  fun m i =>
    let 'mat4 e0 e1 e2 e3 e4 e5 e6 e7 e8 e9 e10 e11 e12 e13 e14 e15 := m in
    match i with
    | 0 => e0 | 1 => e1 | 2 => e2 | 3 => e3 | 4 => e4 | 5 => e5
    | 6 => e6 | 7 => e7 | 8 => e8 | 9 => e9 | 10 => e10 | 11 => e11
    | 12 => e12 | 13 => e13 | 14 => e14 | _ => e15
    end%nat.

#[export] Instance Mat2x3_indexed {F} : Indexed (Mat2x3 F) F :=
  fun m i => let 'mat2x3 e0 e1 e2 e3 e4 e5 := m in
    match i with
    | 0 => e0 | 1 => e1 | 2 => e2 | 3 => e3 | 4 => e4 | _ => e5
    end%nat.

Inductive Vec4 (F : Type) : Type :=
  vec4 (x0 x1 x2 x3 : F).

Inductive Mat3x4 (F : Type) : Type :=
  mat3x4 (e0 e1 e2 e3 e4 e5 e6 e7 e8 e9 e10 e11 : F).

#[export] Instance Vec4_indexed {F} : Indexed (Vec4 F) F :=
  fun v i => let 'vec4 x0 x1 x2 x3 := v in
    match i with 0 => x0 | 1 => x1 | 2 => x2 | _ => x3 end%nat.

#[export] Instance Mat3x4_indexed {F} : Indexed (Mat3x4 F) F :=
  fun m i =>
    let 'mat3x4 e0 e1 e2 e3 e4 e5 e6 e7 e8 e9 e10 e11 := m in
    match i with
    | 0 => e0 | 1 => e1 | 2 => e2 | 3 => e3 | 4 => e4 | 5 => e5
    | 6 => e6 | 7 => e7 | 8 => e8 | 9 => e9 | 10 => e10 | _ => e11
    end%nat.

(** [m1[i] = x] with a constant [i]: the array after the assignment. *)
Class Assign (A F : Type) := assign : A -> nat -> F -> A.

Notation "m .[ i <- x ]" := (assign m i%nat x)
  (at level 1, left associativity, format "m .[ i  <-  x ]").

#[export] Instance Mat2_assign {F} : Assign (Mat2 F) F :=
  fun m i x => let 'mat2 e0 e1 e2 e3 := m in
    match i with
    | 0 => mat2 x e1 e2 e3
    | 1 => mat2 e0 x e2 e3
    | 2 => mat2 e0 e1 x e3
    | _ => mat2 e0 e1 e2 x
    end%nat.

#[export] Instance Mat3_assign {F} : Assign (Mat3 F) F :=
  fun m i x => let 'mat3 e0 e1 e2 e3 e4 e5 e6 e7 e8 := m in
    match i with
    | 0 => mat3 x e1 e2 e3 e4 e5 e6 e7 e8
    | 1 => mat3 e0 x e2 e3 e4 e5 e6 e7 e8
    | 2 => mat3 e0 e1 x e3 e4 e5 e6 e7 e8
    | 3 => mat3 e0 e1 e2 x e4 e5 e6 e7 e8
    | 4 => mat3 e0 e1 e2 e3 x e5 e6 e7 e8
    | 5 => mat3 e0 e1 e2 e3 e4 x e6 e7 e8
    | 6 => mat3 e0 e1 e2 e3 e4 e5 x e7 e8
    | 7 => mat3 e0 e1 e2 e3 e4 e5 e6 x e8
    | _ => mat3 e0 e1 e2 e3 e4 e5 e6 e7 x
    end%nat.

#[export] Instance Mat4_assign {F} : Assign (Mat4 F) F :=
  fun m i x => let 'mat4 e0 e1 e2 e3 e4 e5 e6 e7 e8 e9 e10 e11 e12 e13 e14 e15 := m in
    match i with
    | 0 => mat4 x e1 e2 e3 e4 e5 e6 e7 e8 e9 e10 e11 e12 e13 e14 e15
    | 1 => mat4 e0 x e2 e3 e4 e5 e6 e7 e8 e9 e10 e11 e12 e13 e14 e15
    | 2 => mat4 e0 e1 x e3 e4 e5 e6 e7 e8 e9 e10 e11 e12 e13 e14 e15
    | 3 => mat4 e0 e1 e2 x e4 e5 e6 e7 e8 e9 e10 e11 e12 e13 e14 e15
    | 4 => mat4 e0 e1 e2 e3 x e5 e6 e7 e8 e9 e10 e11 e12 e13 e14 e15
    | 5 => mat4 e0 e1 e2 e3 e4 x e6 e7 e8 e9 e10 e11 e12 e13 e14 e15
    | 6 => mat4 e0 e1 e2 e3 e4 e5 x e7 e8 e9 e10 e11 e12 e13 e14 e15
    | 7 => mat4 e0 e1 e2 e3 e4 e5 e6 x e8 e9 e10 e11 e12 e13 e14 e15
    | 8 => mat4 e0 e1 e2 e3 e4 e5 e6 e7 x e9 e10 e11 e12 e13 e14 e15
    | 9 => mat4 e0 e1 e2 e3 e4 e5 e6 e7 e8 x e10 e11 e12 e13 e14 e15
    | 10 => mat4 e0 e1 e2 e3 e4 e5 e6 e7 e8 e9 x e11 e12 e13 e14 e15
    | 11 => mat4 e0 e1 e2 e3 e4 e5 e6 e7 e8 e9 e10 x e12 e13 e14 e15
    | 12 => mat4 e0 e1 e2 e3 e4 e5 e6 e7 e8 e9 e10 e11 x e13 e14 e15
    | 13 => mat4 e0 e1 e2 e3 e4 e5 e6 e7 e8 e9 e10 e11 e12 x e14 e15
    | 14 => mat4 e0 e1 e2 e3 e4 e5 e6 e7 e8 e9 e10 e11 e12 e13 x e15
    | _ => mat4 e0 e1 e2 e3 e4 e5 e6 e7 e8 e9 e10 e11 e12 e13 e14 x
    end%nat.

(** Go's [int] on a 64-bit target: two's complement, wrap-around. *)
Module Int.

Definition wrap (z : Z) : Z := ((z + 2 ^ 63) mod 2 ^ 64 - 2 ^ 63)%Z.

Definition add (a b : Z) : Z := wrap (a + b).

Definition mul (a b : Z) : Z := wrap (a * b).

End Int.

(** [m1[i]] with [i] computed at run time, in an array of [len] elements:
    the index is checked, and the call panics ([None]) when it is out of
    range. *)
Definition load_index {A F : Type} `{Indexed A F} (len : Z) (m1 : A) (i : Z)
  : option F :=
  if ((0 <=? i) && (i <? len))%Z then Some m1.[Z.to_nat i] else None.

(** [m1[i] = x] with [i] computed at run time. *)
Definition store_index {A F : Type} `{Assign A F} (len : Z) (m1 : A) (i : Z)
  (x : F) : option A :=
  if ((0 <=? i) && (i <? len))%Z then Some m1.[Z.to_nat i <- x] else None.

(** A pointer argument of a method is the receiver itself or points to
    another object, which the method does not write. *)
Inductive operand (A : Type) : Type :=
| Receiver
| Object (a : A).

Arguments Receiver {A}.
Arguments Object {A} a.

(** [*p], read while the receiver holds [m1]. *)
Definition deref {A : Type} (m1 : A) (p : operand A) : A :=
  match p with
  | Receiver => m1
  | Object a => a
  end.

(** ** Vectors *)

Module Vec3.
Section Defs.
Context {F : Type} `{Scalar F} `{Approx F}.
Local Open Scope scalar_scope.

(** [math/vector.go] is not among the sources.  The methods of [Vec3]
    that the quaternion code calls are the spec's "component-wise
    add/sub/scale, dot product, cross product (3-vectors only)" and
    "equality with ... epsilon-threshold comparison"; the [..Of] forms
    store into the receiver, the [..With] forms read and store the
    receiver. *)

(** Modelled from the spec: [Vec3.Add] of vector.go, component-wise
    add. *)
Definition Add (v1 v2 : Vec3 F) : Vec3 F :=
  vec3 (v1.[0] + v2.[0]) (v1.[1] + v2.[1]) (v1.[2] + v2.[2]).

(** Modelled from the spec: [Vec3.Sub] of vector.go, component-wise
    sub. *)
Definition Sub (v1 v2 : Vec3 F) : Vec3 F :=
  vec3 (v1.[0] - v2.[0]) (v1.[1] - v2.[1]) (v1.[2] - v2.[2]).

(** Modelled from the spec: [Vec3.Mul] of vector.go, component-wise
    scale. *)
Definition Mul (v1 : Vec3 F) (c : F) : Vec3 F :=
  vec3 (v1.[0] * c) (v1.[1] * c) (v1.[2] * c).

(** Modelled from the spec: [Vec3.Dot] of vector.go, dot product. *)
Definition Dot (v1 v2 : Vec3 F) : F :=
  v1.[0] * v2.[0] + v1.[1] * v2.[1] + v1.[2] * v2.[2].

(** Modelled from the spec: [Vec3.Cross] of vector.go, cross
    product. *)
Definition Cross (v1 v2 : Vec3 F) : Vec3 F :=
  vec3 (v1.[1] * v2.[2] - v1.[2] * v2.[1])
       (v1.[2] * v2.[0] - v1.[0] * v2.[2])
       (v1.[0] * v2.[1] - v1.[1] * v2.[0]).

(** Modelled from the spec: [v1.AddOf(v2, v3)] of vector.go,
    [v1 = v2 + v3]. *)
Definition AddOf (v2 v3 : Vec3 F) : Vec3 F := Add v2 v3.

(** Modelled from the spec: [v1.AddWith(v2)] of vector.go,
    [v1 += v2]. *)
Definition AddWith (v1 v2 : Vec3 F) : Vec3 F := Add v1 v2.

(** Modelled from the spec: [v1.MulOf(c, v2)] of vector.go,
    [v1 = v2 * c]. *)
Definition MulOf (c : F) (v2 : Vec3 F) : Vec3 F := Mul v2 c.

(** Modelled from the spec: [v1.CrossOf(v2, v3)] of vector.go,
    [v1 = v2 x v3]. *)
Definition CrossOf (v2 v3 : Vec3 F) : Vec3 F := Cross v2 v3.

(** Modelled from the spec: [v1.CrossWith(v2)] of vector.go,
    [v1 = v1 x v2]. *)
Definition CrossWith (v1 v2 : Vec3 F) : Vec3 F := Cross v1 v2.

(** Modelled from the spec: [v1.AddScaledVec(c, v2)] of vector.go,
    [v1 += v2 * c]. *)
Definition AddScaledVec (v1 : Vec3 F) (c : F) (v2 : Vec3 F) : Vec3 F :=
  Add v1 (Mul v2 c).

(** Modelled from the spec: [Vec3.Equal] of vector.go, [FloatEqual] on
    each pair of elements. *)
Definition Equal (v1 v2 : Vec3 F) : bool :=
  FloatEqual v1.[0] v2.[0] && FloatEqual v1.[1] v2.[1]
  && FloatEqual v1.[2] v2.[2].

End Defs.
End Vec3.

(** ** Matrices ([math/matrix.go]) *)

Module Mat2.
Section Defs.
Context {F : Type} `{Scalar F} `{Approx F}.
Local Open Scope scalar_scope.

(** [Mat2{}], the zero value of the array type. *)
Definition Zero : Mat2 F := mat2 0 0 0 0.

Definition Mul2 (m1 m2 : Mat2 F) : Mat2 F :=
  mat2
    (m1.[0] * m2.[0] + m1.[2] * m2.[1])
    (m1.[1] * m2.[0] + m1.[3] * m2.[1])
    (m1.[0] * m2.[2] + m1.[2] * m2.[3])
    (m1.[1] * m2.[2] + m1.[3] * m2.[3]).

Definition Det (m1 : Mat2 F) : F :=
  m1.[0] * m1.[3] - m1.[1] * m1.[2].

Definition Inverse (m1 : Mat2 F) : Mat2 F :=
  let det := Det m1 in
  if FloatEqual det 0 then Zero
  else
    let over := 1 / det in
    mat2 (m1.[3] * over) (-m1.[1] * over) (-m1.[2] * over) (m1.[0] * over).

Definition Mul (m1 : Mat2 F) (c : F) : Mat2 F :=
  mat2
    (m1.[0] * c)
    (m1.[1] * c)
    (m1.[2] * c)
    (m1.[3] * c).

Definition Transposed (m1 : Mat2 F) : Mat2 F :=
  mat2
    (m1.[0])
    (m1.[2])
    (m1.[1])
    (m1.[3]).

(** The methods below store into the receiver: each definition is the
    receiver after the call.  A pointer argument may be the receiver. *)

Definition MulWith (m1 : Mat2 F) (c : F) : Mat2 F :=
  let m1 := m1.[0 <- m1.[0] * c] in
  let m1 := m1.[1 <- m1.[1] * c] in
  let m1 := m1.[2 <- m1.[2] * c] in
  let m1 := m1.[3 <- m1.[3] * c] in
  m1.

Definition Mul2Of (m1 : Mat2 F) (m2 m3 : operand (Mat2 F)) : Mat2 F :=
  let m1 := m1.[0 <- (deref m1 m2).[0] * (deref m1 m3).[0] + (deref m1 m2).[2] * (deref m1 m3).[1]] in
  let m1 := m1.[1 <- (deref m1 m2).[1] * (deref m1 m3).[0] + (deref m1 m2).[3] * (deref m1 m3).[1]] in
  let m1 := m1.[2 <- (deref m1 m2).[0] * (deref m1 m3).[2] + (deref m1 m2).[2] * (deref m1 m3).[3]] in
  let m1 := m1.[3 <- (deref m1 m2).[1] * (deref m1 m3).[2] + (deref m1 m2).[3] * (deref m1 m3).[3]] in
  m1.

Definition Mul2With (m1 : Mat2 F) (m2 : operand (Mat2 F)) : Mat2 F :=
  let v0 := m1.[0] in
  let v1 := m1.[1] in
  let v2 := m1.[2] in
  let v3 := m1.[3] in
  let m1 := m1.[0 <- v0 * (deref m1 m2).[0] + v2 * (deref m1 m2).[1]] in
  let m1 := m1.[1 <- v1 * (deref m1 m2).[0] + v3 * (deref m1 m2).[1]] in
  let m1 := m1.[2 <- v0 * (deref m1 m2).[2] + v2 * (deref m1 m2).[3]] in
  let m1 := m1.[3 <- v1 * (deref m1 m2).[2] + v3 * (deref m1 m2).[3]] in
  m1.

(** A tuple assignment: the right-hand sides are read first, then the
    stores are made, left to right. *)
Definition Transpose (m1 : Mat2 F) : Mat2 F :=
  let t0 := m1.[2] in
  let t1 := m1.[1] in
  let m1 := m1.[1 <- t0] in
  let m1 := m1.[2 <- t1] in
  m1.

Definition TransposeOf (m1 : Mat2 F) (m2 : operand (Mat2 F)) : Mat2 F :=
  let t0 := (deref m1 m2).[0] in
  let t1 := (deref m1 m2).[2] in
  let t2 := (deref m1 m2).[1] in
  let t3 := (deref m1 m2).[3] in
  let m1 := m1.[0 <- t0] in
  let m1 := m1.[1 <- t1] in
  let m1 := m1.[2 <- t2] in
  let m1 := m1.[3 <- t3] in
  m1.

(** [*m1 = Mat2{...}] builds the array, then stores it. *)
Definition Invert (m1 : Mat2 F) : Mat2 F :=
  let det := Det m1 in
  if FloatEqual det 0 then Zero
  else
    let over := 1 / det in
    let m1 := mat2 (m1.[3] * over) (-m1.[1] * over) (-m1.[2] * over) (m1.[0] * over) in
    m1.

(** [m1.InverseOf(m2)] *)
Definition InverseOf (m1 : Mat2 F) (m2 : operand (Mat2 F)) : Mat2 F :=
  let det := Det (deref m1 m2) in
  if FloatEqual det 0 then Zero
  else
    let over := 1 / det in
    let m1 := mat2 ((deref m1 m2).[3] * over) (-(deref m1 m2).[1] * over) (-(deref m1 m2).[2] * over) ((deref m1 m2).[0] * over) in
    m1.

Definition Mat3 (m1 : Mat2 F) : Mat3 F :=
  mat3
    (m1.[0])
    (m1.[1])
    (0)
    (m1.[2])
    (m1.[3])
    (0)
    (0)
    (0)
    (1).

Definition Mat4 (m1 : Mat2 F) : Mat4 F :=
  mat4
    (m1.[0])
    (m1.[1])
    (0)
    (0)
    (m1.[2])
    (m1.[3])
    (0)
    (0)
    (0)
    (0)
    (1)
    (0)
    (0)
    (0)
    (0)
    (1).

End Defs.
End Mat2.

Module Mat3.
Section Defs.
Context {F : Type} `{Scalar F} `{Approx F}.
Local Open Scope scalar_scope.

Definition Zero : Mat3 F := mat3 0 0 0 0 0 0 0 0 0.

Definition Mul (m1 : Mat3 F) (c : F) : Mat3 F :=
  mat3 (m1.[0] * c) (m1.[1] * c) (m1.[2] * c) (m1.[3] * c) (m1.[4] * c)
    (m1.[5] * c) (m1.[6] * c) (m1.[7] * c) (m1.[8] * c).

Definition Mul3 (m1 m2 : Mat3 F) : Mat3 F :=
  mat3
    (m1.[0] * m2.[0] + m1.[3] * m2.[1] + m1.[6] * m2.[2])
    (m1.[1] * m2.[0] + m1.[4] * m2.[1] + m1.[7] * m2.[2])
    (m1.[2] * m2.[0] + m1.[5] * m2.[1] + m1.[8] * m2.[2])
    (m1.[0] * m2.[3] + m1.[3] * m2.[4] + m1.[6] * m2.[5])
    (m1.[1] * m2.[3] + m1.[4] * m2.[4] + m1.[7] * m2.[5])
    (m1.[2] * m2.[3] + m1.[5] * m2.[4] + m1.[8] * m2.[5])
    (m1.[0] * m2.[6] + m1.[3] * m2.[7] + m1.[6] * m2.[8])
    (m1.[1] * m2.[6] + m1.[4] * m2.[7] + m1.[7] * m2.[8])
    (m1.[2] * m2.[6] + m1.[5] * m2.[7] + m1.[8] * m2.[8]).

Definition Det (m1 : Mat3 F) : F :=
  m1.[0] * m1.[4] * m1.[8] + m1.[3] * m1.[7] * m1.[2] + m1.[6] * m1.[1] * m1.[5] -
  m1.[6] * m1.[4] * m1.[2] - m1.[3] * m1.[1] * m1.[8] - m1.[0] * m1.[7] * m1.[5].

(** The local [retMat] of [Inverse]. *)
Definition Inverse_retMat (m1 : Mat3 F) : Mat3 F :=
    mat3
      (m1.[4] * m1.[8] - m1.[5] * m1.[7])
      (m1.[2] * m1.[7] - m1.[1] * m1.[8])
      (m1.[1] * m1.[5] - m1.[2] * m1.[4])
      (m1.[5] * m1.[6] - m1.[3] * m1.[8])
      (m1.[0] * m1.[8] - m1.[2] * m1.[6])
      (m1.[2] * m1.[3] - m1.[0] * m1.[5])
      (m1.[3] * m1.[7] - m1.[4] * m1.[6])
      (m1.[1] * m1.[6] - m1.[0] * m1.[7])
      (m1.[0] * m1.[4] - m1.[1] * m1.[3]).

Definition Inverse (m1 : Mat3 F) : Mat3 F :=
  let det := Det m1 in
  if FloatEqual det 0 then Zero
  else
    let retMat := Inverse_retMat m1 in
    Mul retMat (1 / det).

Definition Transposed (m1 : Mat3 F) : Mat3 F :=
  mat3
    (m1.[0])
    (m1.[3])
    (m1.[6])
    (m1.[1])
    (m1.[4])
    (m1.[7])
    (m1.[2])
    (m1.[5])
    (m1.[8]).

Definition Mul3x1 (m1 : Mat3 F) (m2 : Vec3 F) : Vec3 F :=
  vec3
    (m1.[0] * m2.[0] + m1.[3] * m2.[1] + m1.[6] * m2.[2])
    (m1.[1] * m2.[0] + m1.[4] * m2.[1] + m1.[7] * m2.[2])
    (m1.[2] * m2.[0] + m1.[5] * m2.[1] + m1.[8] * m2.[2]).

Definition Mul3x1Transpose (m1 : Mat3 F) (v : Vec3 F) : Vec3 F :=
  vec3
    (m1.[0] * v.[0] + m1.[1] * v.[1] + m1.[2] * v.[2])
    (m1.[3] * v.[0] + m1.[4] * v.[1] + m1.[5] * v.[2])
    (m1.[6] * v.[0] + m1.[7] * v.[1] + m1.[8] * v.[2]).

(** The methods below store into the receiver: each definition is the
    receiver after the call.  A pointer argument may be the receiver. *)

Definition MulWith (m1 : Mat3 F) (c : F) : Mat3 F :=
  let m1 := m1.[0 <- m1.[0] * c] in
  let m1 := m1.[1 <- m1.[1] * c] in
  let m1 := m1.[2 <- m1.[2] * c] in
  let m1 := m1.[3 <- m1.[3] * c] in
  let m1 := m1.[4 <- m1.[4] * c] in
  let m1 := m1.[5 <- m1.[5] * c] in
  let m1 := m1.[6 <- m1.[6] * c] in
  let m1 := m1.[7 <- m1.[7] * c] in
  let m1 := m1.[8 <- m1.[8] * c] in
  m1.

Definition Mul3Of (m1 : Mat3 F) (m2 m3 : operand (Mat3 F)) : Mat3 F :=
  let m1 := m1.[0 <- (deref m1 m2).[0] * (deref m1 m3).[0] + (deref m1 m2).[3] * (deref m1 m3).[1] + (deref m1 m2).[6] * (deref m1 m3).[2]] in
  let m1 := m1.[1 <- (deref m1 m2).[1] * (deref m1 m3).[0] + (deref m1 m2).[4] * (deref m1 m3).[1] + (deref m1 m2).[7] * (deref m1 m3).[2]] in
  let m1 := m1.[2 <- (deref m1 m2).[2] * (deref m1 m3).[0] + (deref m1 m2).[5] * (deref m1 m3).[1] + (deref m1 m2).[8] * (deref m1 m3).[2]] in
  let m1 := m1.[3 <- (deref m1 m2).[0] * (deref m1 m3).[3] + (deref m1 m2).[3] * (deref m1 m3).[4] + (deref m1 m2).[6] * (deref m1 m3).[5]] in
  let m1 := m1.[4 <- (deref m1 m2).[1] * (deref m1 m3).[3] + (deref m1 m2).[4] * (deref m1 m3).[4] + (deref m1 m2).[7] * (deref m1 m3).[5]] in
  let m1 := m1.[5 <- (deref m1 m2).[2] * (deref m1 m3).[3] + (deref m1 m2).[5] * (deref m1 m3).[4] + (deref m1 m2).[8] * (deref m1 m3).[5]] in
  let m1 := m1.[6 <- (deref m1 m2).[0] * (deref m1 m3).[6] + (deref m1 m2).[3] * (deref m1 m3).[7] + (deref m1 m2).[6] * (deref m1 m3).[8]] in
  let m1 := m1.[7 <- (deref m1 m2).[1] * (deref m1 m3).[6] + (deref m1 m2).[4] * (deref m1 m3).[7] + (deref m1 m2).[7] * (deref m1 m3).[8]] in
  let m1 := m1.[8 <- (deref m1 m2).[2] * (deref m1 m3).[6] + (deref m1 m2).[5] * (deref m1 m3).[7] + (deref m1 m2).[8] * (deref m1 m3).[8]] in
  m1.

Definition Mul3With (m1 : Mat3 F) (m2 : operand (Mat3 F)) : Mat3 F :=
  let v0 := m1.[0] in
  let v1 := m1.[1] in
  let v2 := m1.[2] in
  let v3 := m1.[3] in
  let v4 := m1.[4] in
  let v5 := m1.[5] in
  let v6 := m1.[6] in
  let v7 := m1.[7] in
  let v8 := m1.[8] in
  let m1 := m1.[0 <- v0 * (deref m1 m2).[0] + v3 * (deref m1 m2).[1] + v6 * (deref m1 m2).[2]] in
  let m1 := m1.[1 <- v1 * (deref m1 m2).[0] + v4 * (deref m1 m2).[1] + v7 * (deref m1 m2).[2]] in
  let m1 := m1.[2 <- v2 * (deref m1 m2).[0] + v5 * (deref m1 m2).[1] + v8 * (deref m1 m2).[2]] in
  let m1 := m1.[3 <- v0 * (deref m1 m2).[3] + v3 * (deref m1 m2).[4] + v6 * (deref m1 m2).[5]] in
  let m1 := m1.[4 <- v1 * (deref m1 m2).[3] + v4 * (deref m1 m2).[4] + v7 * (deref m1 m2).[5]] in
  let m1 := m1.[5 <- v2 * (deref m1 m2).[3] + v5 * (deref m1 m2).[4] + v8 * (deref m1 m2).[5]] in
  let m1 := m1.[6 <- v0 * (deref m1 m2).[6] + v3 * (deref m1 m2).[7] + v6 * (deref m1 m2).[8]] in
  let m1 := m1.[7 <- v1 * (deref m1 m2).[6] + v4 * (deref m1 m2).[7] + v7 * (deref m1 m2).[8]] in
  let m1 := m1.[8 <- v2 * (deref m1 m2).[6] + v5 * (deref m1 m2).[7] + v8 * (deref m1 m2).[8]] in
  m1.

(** A tuple assignment: the right-hand sides are read first, then the
    stores are made, left to right. *)
Definition Transpose (m1 : Mat3 F) : Mat3 F :=
  let t0 := m1.[3] in
  let t1 := m1.[6] in
  let t2 := m1.[1] in
  let t3 := m1.[7] in
  let t4 := m1.[2] in
  let t5 := m1.[5] in
  let m1 := m1.[1 <- t0] in
  let m1 := m1.[2 <- t1] in
  let m1 := m1.[3 <- t2] in
  let m1 := m1.[5 <- t3] in
  let m1 := m1.[6 <- t4] in
  let m1 := m1.[7 <- t5] in
  m1.

Definition TransposeOf (m1 : Mat3 F) (m2 : operand (Mat3 F)) : Mat3 F :=
  let m1 := m1.[0 <- (deref m1 m2).[0]] in
  let m1 := m1.[1 <- (deref m1 m2).[3]] in
  let m1 := m1.[2 <- (deref m1 m2).[6]] in
  let m1 := m1.[3 <- (deref m1 m2).[1]] in
  let m1 := m1.[4 <- (deref m1 m2).[4]] in
  let m1 := m1.[5 <- (deref m1 m2).[7]] in
  let m1 := m1.[6 <- (deref m1 m2).[2]] in
  let m1 := m1.[7 <- (deref m1 m2).[5]] in
  let m1 := m1.[8 <- (deref m1 m2).[8]] in
  m1.

(** [m1.Invert()] *)
Definition Invert (m1 : Mat3 F) : Mat3 F :=
  let det := Det m1 in
  if FloatEqual det 0 then Zero
  else
    let v0 := m1.[0] in
    let v1 := m1.[1] in
    let v2 := m1.[2] in
    let v3 := m1.[3] in
    let v4 := m1.[4] in
    let v5 := m1.[5] in
    let v6 := m1.[6] in
    let v7 := m1.[7] in
    let v8 := m1.[8] in
    let m1 := m1.[0 <- v4 * v8 - v5 * v7] in
    let m1 := m1.[1 <- v2 * v7 - v1 * v8] in
    let m1 := m1.[2 <- v1 * v5 - v2 * v4] in
    let m1 := m1.[3 <- v5 * v6 - v3 * v8] in
    let m1 := m1.[4 <- v0 * v8 - v2 * v6] in
    let m1 := m1.[5 <- v2 * v3 - v0 * v5] in
    let m1 := m1.[6 <- v3 * v7 - v4 * v6] in
    let m1 := m1.[7 <- v1 * v6 - v0 * v7] in
    let m1 := m1.[8 <- v0 * v4 - v1 * v3] in
    let m1 := MulWith m1 (1 / det) in
    m1.

(** [m1.InverseOf(m2)] *)
Definition InverseOf (m1 : Mat3 F) (m2 : operand (Mat3 F)) : Mat3 F :=
  let det := Det (deref m1 m2) in
  if FloatEqual det 0 then Zero
  else
    let v0 := (deref m1 m2).[0] in
    let v1 := (deref m1 m2).[1] in
    let v2 := (deref m1 m2).[2] in
    let v3 := (deref m1 m2).[3] in
    let v4 := (deref m1 m2).[4] in
    let v5 := (deref m1 m2).[5] in
    let v6 := (deref m1 m2).[6] in
    let v7 := (deref m1 m2).[7] in
    let v8 := (deref m1 m2).[8] in
    let m1 := m1.[0 <- v4 * v8 - v5 * v7] in
    let m1 := m1.[1 <- v2 * v7 - v1 * v8] in
    let m1 := m1.[2 <- v1 * v5 - v2 * v4] in
    let m1 := m1.[3 <- v5 * v6 - v3 * v8] in
    let m1 := m1.[4 <- v0 * v8 - v2 * v6] in
    let m1 := m1.[5 <- v2 * v3 - v0 * v5] in
    let m1 := m1.[6 <- v3 * v7 - v4 * v6] in
    let m1 := m1.[7 <- v1 * v6 - v0 * v7] in
    let m1 := m1.[8 <- v0 * v4 - v1 * v3] in
    let m1 := MulWith m1 (1 / det) in
    m1.

Definition Mat2 (m1 : Mat3 F) : Mat2 F :=
  mat2
    (m1.[0])
    (m1.[1])
    (m1.[3])
    (m1.[4]).

Definition Mat4 (m1 : Mat3 F) : Mat4 F :=
  mat4
    (m1.[0])
    (m1.[1])
    (m1.[2])
    (0)
    (m1.[3])
    (m1.[4])
    (m1.[5])
    (0)
    (m1.[6])
    (m1.[7])
    (m1.[8])
    (0)
    (0)
    (0)
    (0)
    (1).

Definition Mat2x3 (m1 : Mat3 F) : Mat2x3 F :=
  mat2x3
    (m1.[0])
    (m1.[1])
    (m1.[3])
    (m1.[4])
    (m1.[6])
    (m1.[7]).

Definition Mat3x4 (m1 : Mat3 F) : Mat3x4 F :=
  mat3x4
    (m1.[0])
    (m1.[1])
    (m1.[2])
    (m1.[3])
    (m1.[4])
    (m1.[5])
    (m1.[6])
    (m1.[7])
    (m1.[8])
    (0)
    (0)
    (0).

End Defs.
End Mat3.

Module Mat4.
Section Defs.
Context {F : Type} `{Scalar F} `{Approx F}.
Local Open Scope scalar_scope.

Definition Zero : Mat4 F := mat4 0 0 0 0 0 0 0 0 0 0 0 0 0 0 0 0.

Definition Mul (m1 : Mat4 F) (c : F) : Mat4 F :=
  mat4 (m1.[0] * c) (m1.[1] * c) (m1.[2] * c) (m1.[3] * c)
    (m1.[4] * c) (m1.[5] * c) (m1.[6] * c) (m1.[7] * c)
    (m1.[8] * c) (m1.[9] * c) (m1.[10] * c) (m1.[11] * c)
    (m1.[12] * c) (m1.[13] * c) (m1.[14] * c) (m1.[15] * c).

Definition Mul4 (m1 m2 : Mat4 F) : Mat4 F :=
  mat4
    (m1.[0] * m2.[0] + m1.[4] * m2.[1] + m1.[8] * m2.[2] + m1.[12] * m2.[3])
    (m1.[1] * m2.[0] + m1.[5] * m2.[1] + m1.[9] * m2.[2] + m1.[13] * m2.[3])
    (m1.[2] * m2.[0] + m1.[6] * m2.[1] + m1.[10] * m2.[2] + m1.[14] * m2.[3])
    (m1.[3] * m2.[0] + m1.[7] * m2.[1] + m1.[11] * m2.[2] + m1.[15] * m2.[3])
    (m1.[0] * m2.[4] + m1.[4] * m2.[5] + m1.[8] * m2.[6] + m1.[12] * m2.[7])
    (m1.[1] * m2.[4] + m1.[5] * m2.[5] + m1.[9] * m2.[6] + m1.[13] * m2.[7])
    (m1.[2] * m2.[4] + m1.[6] * m2.[5] + m1.[10] * m2.[6] + m1.[14] * m2.[7])
    (m1.[3] * m2.[4] + m1.[7] * m2.[5] + m1.[11] * m2.[6] + m1.[15] * m2.[7])
    (m1.[0] * m2.[8] + m1.[4] * m2.[9] + m1.[8] * m2.[10] + m1.[12] * m2.[11])
    (m1.[1] * m2.[8] + m1.[5] * m2.[9] + m1.[9] * m2.[10] + m1.[13] * m2.[11])
    (m1.[2] * m2.[8] + m1.[6] * m2.[9] + m1.[10] * m2.[10] + m1.[14] * m2.[11])
    (m1.[3] * m2.[8] + m1.[7] * m2.[9] + m1.[11] * m2.[10] + m1.[15] * m2.[11])
    (m1.[0] * m2.[12] + m1.[4] * m2.[13] + m1.[8] * m2.[14] + m1.[12] * m2.[15])
    (m1.[1] * m2.[12] + m1.[5] * m2.[13] + m1.[9] * m2.[14] + m1.[13] * m2.[15])
    (m1.[2] * m2.[12] + m1.[6] * m2.[13] + m1.[10] * m2.[14] + m1.[14] * m2.[15])
    (m1.[3] * m2.[12] + m1.[7] * m2.[13] + m1.[11] * m2.[14] + m1.[15] * m2.[15]).

Definition Det (m1 : Mat4 F) : F :=
  m1.[0] * m1.[5] * m1.[10] * m1.[15] - m1.[0] * m1.[5] * m1.[11] * m1.[14] - m1.[0] * m1.[6] * m1.[9] * m1.[15]
  + m1.[0] * m1.[6] * m1.[11] * m1.[13] + m1.[0] * m1.[7] * m1.[9] * m1.[14] - m1.[0] * m1.[7] * m1.[10] * m1.[13]
  - m1.[1] * m1.[4] * m1.[10] * m1.[15] + m1.[1] * m1.[4] * m1.[11] * m1.[14] + m1.[1] * m1.[6] * m1.[8] * m1.[15]
  - m1.[1] * m1.[6] * m1.[11] * m1.[12] - m1.[1] * m1.[7] * m1.[8] * m1.[14] + m1.[1] * m1.[7] * m1.[10] * m1.[12]
  + m1.[2] * m1.[4] * m1.[9] * m1.[15] - m1.[2] * m1.[4] * m1.[11] * m1.[13] - m1.[2] * m1.[5] * m1.[8] * m1.[15]
  + m1.[2] * m1.[5] * m1.[11] * m1.[12] + m1.[2] * m1.[7] * m1.[8] * m1.[13] - m1.[2] * m1.[7] * m1.[9] * m1.[12]
  - m1.[3] * m1.[4] * m1.[9] * m1.[14] + m1.[3] * m1.[4] * m1.[10] * m1.[13] + m1.[3] * m1.[5] * m1.[8] * m1.[14]
  - m1.[3] * m1.[5] * m1.[10] * m1.[12] - m1.[3] * m1.[6] * m1.[8] * m1.[13] + m1.[3] * m1.[6] * m1.[9] * m1.[12].

(** The local [retMat] of [Inverse], with the copies and the products
    computed before it. *)
Definition Inverse_retMat (m1 : Mat4 F) : Mat4 F :=
    let v0 := m1.[0] in
    let v1 := m1.[1] in
    let v2 := m1.[2] in
    let v3 := m1.[3] in
    let v4 := m1.[4] in
    let v5 := m1.[5] in
    let v6 := m1.[6] in
    let v7 := m1.[7] in
    let v8 := m1.[8] in
    let v9 := m1.[9] in
    let v10 := m1.[10] in
    let v11 := m1.[11] in
    let v12 := m1.[12] in
    let v13 := m1.[13] in
    let v14 := m1.[14] in
    let v15 := m1.[15] in
    let v7v10 := v7 * v10 in
    let v6v11 := v6 * v11 in
    let v7v9 := v7 * v9 in
    let v5v11 := v5 * v11 in
    let v6v9 := v6 * v9 in
    let v5v10 := v5 * v10 in
    let v1v4 := v1 * v4 in
    let v4v9 := v4 * v9 in
    let v6v8 := v6 * v8 in
    let v5v8 := v5 * v8 in
    let v7v8 := v7 * v8 in
    let v1v12 := v1 * v12 in
    let v2v12 := v2 * v12 in
    let v2v13 := v2 * v13 in
    let v2v15 := v2 * v15 in
    let v3v12 := v3 * v12 in
    let v3v13 := v3 * v13 in
    let v3v14 := v3 * v14 in
    let v4v10 := v4 * v10 in
    let v4v11 := v4 * v11 in
    let v10v15 := v10 * v15 in
    let v7v14 := v7 * v14 in
    let v6v15 := v6 * v15 in
    let v0v11 := v0 * v11 in
    let v1v8 := v1 * v8 in
    let v0v9 := v0 * v9 in
    let v0v5 := v0 * v5 in
    let v0v13 := v0 * v13 in
    mat4
      (-v7v10 * v13 + v6v11 * v13 + v7v9 * v14 - v5v11 * v14 - v6v9 * v15 + v5v10 * v15)
      (v3v13 * v10 - v2v13 * v11 - v3v14 * v9 + v1 * v11 * v14 + v2v15 * v9 - v1 * v10v15)
      (-v3v13 * v6 + v2v13 * v7 + v3v14 * v5 - v1 * v7v14 - v2v15 * v5 + v1 * v6v15)
      (v3 * v6v9 - v2 * v7v9 - v3 * v5v10 + v1 * v7v10 + v2 * v5v11 - v1 * v6v11)
      (v7v10 * v12 - v6v11 * v12 - v7v8 * v14 + v4v11 * v14 + v6v8 * v15 - v4v10 * v15)
      (-v3v12 * v10 + v2v12 * v11 + v3v14 * v8 - v0v11 * v14 - v2v15 * v8 + v0 * v10v15)
      (v3v12 * v6 - v2v12 * v7 - v3v14 * v4 + v0 * v7v14 + v2v15 * v4 - v0 * v6v15)
      (-v3 * v6v8 + v2 * v7v8 + v3 * v4v10 - v0 * v7v10 - v2 * v4v11 + v0 * v6v11)
      (-v7v9 * v12 + v5v11 * v12 + v7v8 * v13 - v4v11 * v13 - v5v8 * v15 + v4v9 * v15)
      (v3v12 * v9 - v1v12 * v11 - v3v13 * v8 + v0v11 * v13 + v1v8 * v15 - v0v9 * v15)
      (-v3v12 * v5 + v1v12 * v7 + v3v13 * v4 - v0v13 * v7 - v1v4 * v15 + v0v5 * v15)
      (v3 * v5v8 - v1 * v7v8 - v3 * v4v9 + v0 * v7v9 + v1v4 * v11 - v0 * v5v11)
      (v6v9 * v12 - v5v10 * v12 - v6v8 * v13 + v4v10 * v13 + v5v8 * v14 - v4v9 * v14)
      (-v2v12 * v9 + v1v12 * v10 + v2v13 * v8 - v0v13 * v10 - v1v8 * v14 + v0v9 * v14)
      (v2v12 * v5 - v1v12 * v6 - v2v13 * v4 + v0v13 * v6 + v1v4 * v14 - v0v5 * v14)
      (-v2 * v5v8 + v1 * v6v8 + v2 * v4v9 - v0 * v6v9 - v1v4 * v10 + v0 * v5v10).

Definition Inverse (m1 : Mat4 F) : Mat4 F :=
  let det := Det m1 in
  if FloatEqual det 0 then Zero
  else
    let retMat := Inverse_retMat m1 in
    Mul retMat (1 / det).

Definition Transposed (m1 : Mat4 F) : Mat4 F :=
  mat4
    (m1.[0])
    (m1.[4])
    (m1.[8])
    (m1.[12])
    (m1.[1])
    (m1.[5])
    (m1.[9])
    (m1.[13])
    (m1.[2])
    (m1.[6])
    (m1.[10])
    (m1.[14])
    (m1.[3])
    (m1.[7])
    (m1.[11])
    (m1.[15]).

Definition Mul4x1 (m1 : Mat4 F) (m2 : Vec4 F) : Vec4 F :=
  vec4
    (m1.[0] * m2.[0] + m1.[4] * m2.[1] + m1.[8] * m2.[2] + m1.[12] * m2.[3])
    (m1.[1] * m2.[0] + m1.[5] * m2.[1] + m1.[9] * m2.[2] + m1.[13] * m2.[3])
    (m1.[2] * m2.[0] + m1.[6] * m2.[1] + m1.[10] * m2.[2] + m1.[14] * m2.[3])
    (m1.[3] * m2.[0] + m1.[7] * m2.[1] + m1.[11] * m2.[2] + m1.[15] * m2.[3]).

(** The methods below store into the receiver: each definition is the
    receiver after the call.  A pointer argument may be the receiver. *)

Definition MulWith (m1 : Mat4 F) (c : F) : Mat4 F :=
  let m1 := m1.[0 <- m1.[0] * c] in
  let m1 := m1.[1 <- m1.[1] * c] in
  let m1 := m1.[2 <- m1.[2] * c] in
  let m1 := m1.[3 <- m1.[3] * c] in
  let m1 := m1.[4 <- m1.[4] * c] in
  let m1 := m1.[5 <- m1.[5] * c] in
  let m1 := m1.[6 <- m1.[6] * c] in
  let m1 := m1.[7 <- m1.[7] * c] in
  let m1 := m1.[8 <- m1.[8] * c] in
  let m1 := m1.[9 <- m1.[9] * c] in
  let m1 := m1.[10 <- m1.[10] * c] in
  let m1 := m1.[11 <- m1.[11] * c] in
  let m1 := m1.[12 <- m1.[12] * c] in
  let m1 := m1.[13 <- m1.[13] * c] in
  let m1 := m1.[14 <- m1.[14] * c] in
  let m1 := m1.[15 <- m1.[15] * c] in
  m1.

Definition Mul4Of (m1 : Mat4 F) (m2 m3 : operand (Mat4 F)) : Mat4 F :=
  let m1 := m1.[0 <- (deref m1 m2).[0] * (deref m1 m3).[0] + (deref m1 m2).[4] * (deref m1 m3).[1] + (deref m1 m2).[8] * (deref m1 m3).[2] + (deref m1 m2).[12] * (deref m1 m3).[3]] in
  let m1 := m1.[1 <- (deref m1 m2).[1] * (deref m1 m3).[0] + (deref m1 m2).[5] * (deref m1 m3).[1] + (deref m1 m2).[9] * (deref m1 m3).[2] + (deref m1 m2).[13] * (deref m1 m3).[3]] in
  let m1 := m1.[2 <- (deref m1 m2).[2] * (deref m1 m3).[0] + (deref m1 m2).[6] * (deref m1 m3).[1] + (deref m1 m2).[10] * (deref m1 m3).[2] + (deref m1 m2).[14] * (deref m1 m3).[3]] in
  let m1 := m1.[3 <- (deref m1 m2).[3] * (deref m1 m3).[0] + (deref m1 m2).[7] * (deref m1 m3).[1] + (deref m1 m2).[11] * (deref m1 m3).[2] + (deref m1 m2).[15] * (deref m1 m3).[3]] in
  let m1 := m1.[4 <- (deref m1 m2).[0] * (deref m1 m3).[4] + (deref m1 m2).[4] * (deref m1 m3).[5] + (deref m1 m2).[8] * (deref m1 m3).[6] + (deref m1 m2).[12] * (deref m1 m3).[7]] in
  let m1 := m1.[5 <- (deref m1 m2).[1] * (deref m1 m3).[4] + (deref m1 m2).[5] * (deref m1 m3).[5] + (deref m1 m2).[9] * (deref m1 m3).[6] + (deref m1 m2).[13] * (deref m1 m3).[7]] in
  let m1 := m1.[6 <- (deref m1 m2).[2] * (deref m1 m3).[4] + (deref m1 m2).[6] * (deref m1 m3).[5] + (deref m1 m2).[10] * (deref m1 m3).[6] + (deref m1 m2).[14] * (deref m1 m3).[7]] in
  let m1 := m1.[7 <- (deref m1 m2).[3] * (deref m1 m3).[4] + (deref m1 m2).[7] * (deref m1 m3).[5] + (deref m1 m2).[11] * (deref m1 m3).[6] + (deref m1 m2).[15] * (deref m1 m3).[7]] in
  let m1 := m1.[8 <- (deref m1 m2).[0] * (deref m1 m3).[8] + (deref m1 m2).[4] * (deref m1 m3).[9] + (deref m1 m2).[8] * (deref m1 m3).[10] + (deref m1 m2).[12] * (deref m1 m3).[11]] in
  let m1 := m1.[9 <- (deref m1 m2).[1] * (deref m1 m3).[8] + (deref m1 m2).[5] * (deref m1 m3).[9] + (deref m1 m2).[9] * (deref m1 m3).[10] + (deref m1 m2).[13] * (deref m1 m3).[11]] in
  let m1 := m1.[10 <- (deref m1 m2).[2] * (deref m1 m3).[8] + (deref m1 m2).[6] * (deref m1 m3).[9] + (deref m1 m2).[10] * (deref m1 m3).[10] + (deref m1 m2).[14] * (deref m1 m3).[11]] in
  let m1 := m1.[11 <- (deref m1 m2).[3] * (deref m1 m3).[8] + (deref m1 m2).[7] * (deref m1 m3).[9] + (deref m1 m2).[11] * (deref m1 m3).[10] + (deref m1 m2).[15] * (deref m1 m3).[11]] in
  let m1 := m1.[12 <- (deref m1 m2).[0] * (deref m1 m3).[12] + (deref m1 m2).[4] * (deref m1 m3).[13] + (deref m1 m2).[8] * (deref m1 m3).[14] + (deref m1 m2).[12] * (deref m1 m3).[15]] in
  let m1 := m1.[13 <- (deref m1 m2).[1] * (deref m1 m3).[12] + (deref m1 m2).[5] * (deref m1 m3).[13] + (deref m1 m2).[9] * (deref m1 m3).[14] + (deref m1 m2).[13] * (deref m1 m3).[15]] in
  let m1 := m1.[14 <- (deref m1 m2).[2] * (deref m1 m3).[12] + (deref m1 m2).[6] * (deref m1 m3).[13] + (deref m1 m2).[10] * (deref m1 m3).[14] + (deref m1 m2).[14] * (deref m1 m3).[15]] in
  let m1 := m1.[15 <- (deref m1 m2).[3] * (deref m1 m3).[12] + (deref m1 m2).[7] * (deref m1 m3).[13] + (deref m1 m2).[11] * (deref m1 m3).[14] + (deref m1 m2).[15] * (deref m1 m3).[15]] in
  m1.

Definition Mul4With (m1 : Mat4 F) (m2 : operand (Mat4 F)) : Mat4 F :=
  let v0 := m1.[0] * (deref m1 m2).[0] + m1.[4] * (deref m1 m2).[1] + m1.[8] * (deref m1 m2).[2] + m1.[12] * (deref m1 m2).[3] in
  let v1 := m1.[1] * (deref m1 m2).[0] + m1.[5] * (deref m1 m2).[1] + m1.[9] * (deref m1 m2).[2] + m1.[13] * (deref m1 m2).[3] in
  let v2 := m1.[2] * (deref m1 m2).[0] + m1.[6] * (deref m1 m2).[1] + m1.[10] * (deref m1 m2).[2] + m1.[14] * (deref m1 m2).[3] in
  let v3 := m1.[3] * (deref m1 m2).[0] + m1.[7] * (deref m1 m2).[1] + m1.[11] * (deref m1 m2).[2] + m1.[15] * (deref m1 m2).[3] in
  let v4 := m1.[0] * (deref m1 m2).[4] + m1.[4] * (deref m1 m2).[5] + m1.[8] * (deref m1 m2).[6] + m1.[12] * (deref m1 m2).[7] in
  let v5 := m1.[1] * (deref m1 m2).[4] + m1.[5] * (deref m1 m2).[5] + m1.[9] * (deref m1 m2).[6] + m1.[13] * (deref m1 m2).[7] in
  let v6 := m1.[2] * (deref m1 m2).[4] + m1.[6] * (deref m1 m2).[5] + m1.[10] * (deref m1 m2).[6] + m1.[14] * (deref m1 m2).[7] in
  let v7 := m1.[3] * (deref m1 m2).[4] + m1.[7] * (deref m1 m2).[5] + m1.[11] * (deref m1 m2).[6] + m1.[15] * (deref m1 m2).[7] in
  let v8 := m1.[0] * (deref m1 m2).[8] + m1.[4] * (deref m1 m2).[9] + m1.[8] * (deref m1 m2).[10] + m1.[12] * (deref m1 m2).[11] in
  let v9 := m1.[1] * (deref m1 m2).[8] + m1.[5] * (deref m1 m2).[9] + m1.[9] * (deref m1 m2).[10] + m1.[13] * (deref m1 m2).[11] in
  let v10 := m1.[2] * (deref m1 m2).[8] + m1.[6] * (deref m1 m2).[9] + m1.[10] * (deref m1 m2).[10] + m1.[14] * (deref m1 m2).[11] in
  let v11 := m1.[3] * (deref m1 m2).[8] + m1.[7] * (deref m1 m2).[9] + m1.[11] * (deref m1 m2).[10] + m1.[15] * (deref m1 m2).[11] in
  let v12 := m1.[0] * (deref m1 m2).[12] + m1.[4] * (deref m1 m2).[13] + m1.[8] * (deref m1 m2).[14] + m1.[12] * (deref m1 m2).[15] in
  let v13 := m1.[1] * (deref m1 m2).[12] + m1.[5] * (deref m1 m2).[13] + m1.[9] * (deref m1 m2).[14] + m1.[13] * (deref m1 m2).[15] in
  let v14 := m1.[2] * (deref m1 m2).[12] + m1.[6] * (deref m1 m2).[13] + m1.[10] * (deref m1 m2).[14] + m1.[14] * (deref m1 m2).[15] in
  let v15 := m1.[3] * (deref m1 m2).[12] + m1.[7] * (deref m1 m2).[13] + m1.[11] * (deref m1 m2).[14] + m1.[15] * (deref m1 m2).[15] in
  let m1 := m1.[0 <- v0] in
  let m1 := m1.[1 <- v1] in
  let m1 := m1.[2 <- v2] in
  let m1 := m1.[3 <- v3] in
  let m1 := m1.[4 <- v4] in
  let m1 := m1.[5 <- v5] in
  let m1 := m1.[6 <- v6] in
  let m1 := m1.[7 <- v7] in
  let m1 := m1.[8 <- v8] in
  let m1 := m1.[9 <- v9] in
  let m1 := m1.[10 <- v10] in
  let m1 := m1.[11 <- v11] in
  let m1 := m1.[12 <- v12] in
  let m1 := m1.[13 <- v13] in
  let m1 := m1.[14 <- v14] in
  let m1 := m1.[15 <- v15] in
  m1.

(** A tuple assignment: the right-hand sides are read first, then the
    stores are made, left to right. *)
Definition Transpose (m1 : Mat4 F) : Mat4 F :=
  let t0 := m1.[4] in
  let t1 := m1.[8] in
  let t2 := m1.[12] in
  let t3 := m1.[1] in
  let t4 := m1.[9] in
  let t5 := m1.[13] in
  let t6 := m1.[2] in
  let t7 := m1.[6] in
  let t8 := m1.[14] in
  let t9 := m1.[3] in
  let t10 := m1.[7] in
  let t11 := m1.[11] in
  let m1 := m1.[1 <- t0] in
  let m1 := m1.[2 <- t1] in
  let m1 := m1.[3 <- t2] in
  let m1 := m1.[4 <- t3] in
  let m1 := m1.[6 <- t4] in
  let m1 := m1.[7 <- t5] in
  let m1 := m1.[8 <- t6] in
  let m1 := m1.[9 <- t7] in
  let m1 := m1.[11 <- t8] in
  let m1 := m1.[12 <- t9] in
  let m1 := m1.[13 <- t10] in
  let m1 := m1.[14 <- t11] in
  m1.

Definition TransposeOf (m1 : Mat4 F) (m2 : operand (Mat4 F)) : Mat4 F :=
  let m1 := m1.[0 <- (deref m1 m2).[0]] in
  let m1 := m1.[1 <- (deref m1 m2).[4]] in
  let m1 := m1.[2 <- (deref m1 m2).[8]] in
  let m1 := m1.[3 <- (deref m1 m2).[12]] in
  let m1 := m1.[4 <- (deref m1 m2).[1]] in
  let m1 := m1.[5 <- (deref m1 m2).[5]] in
  let m1 := m1.[6 <- (deref m1 m2).[9]] in
  let m1 := m1.[7 <- (deref m1 m2).[13]] in
  let m1 := m1.[8 <- (deref m1 m2).[2]] in
  let m1 := m1.[9 <- (deref m1 m2).[6]] in
  let m1 := m1.[10 <- (deref m1 m2).[10]] in
  let m1 := m1.[11 <- (deref m1 m2).[14]] in
  let m1 := m1.[12 <- (deref m1 m2).[3]] in
  let m1 := m1.[13 <- (deref m1 m2).[7]] in
  let m1 := m1.[14 <- (deref m1 m2).[11]] in
  let m1 := m1.[15 <- (deref m1 m2).[15]] in
  m1.

(** [m1.Invert()] *)
Definition Invert (m1 : Mat4 F) : Mat4 F :=
  let det := Det m1 in
  if FloatEqual det 0 then Zero
  else
    let v0 := m1.[0] in
    let v1 := m1.[1] in
    let v2 := m1.[2] in
    let v3 := m1.[3] in
    let v4 := m1.[4] in
    let v5 := m1.[5] in
    let v6 := m1.[6] in
    let v7 := m1.[7] in
    let v8 := m1.[8] in
    let v9 := m1.[9] in
    let v10 := m1.[10] in
    let v11 := m1.[11] in
    let v12 := m1.[12] in
    let v13 := m1.[13] in
    let v14 := m1.[14] in
    let v15 := m1.[15] in
    let v7v10 := v7 * v10 in
    let v6v11 := v6 * v11 in
    let v7v9 := v7 * v9 in
    let v5v11 := v5 * v11 in
    let v6v9 := v6 * v9 in
    let v5v10 := v5 * v10 in
    let v1v4 := v1 * v4 in
    let v4v9 := v4 * v9 in
    let v6v8 := v6 * v8 in
    let v5v8 := v5 * v8 in
    let v7v8 := v7 * v8 in
    let v1v12 := v1 * v12 in
    let v2v12 := v2 * v12 in
    let v2v13 := v2 * v13 in
    let v2v15 := v2 * v15 in
    let v3v12 := v3 * v12 in
    let v3v13 := v3 * v13 in
    let v3v14 := v3 * v14 in
    let v4v10 := v4 * v10 in
    let v4v11 := v4 * v11 in
    let v10v15 := v10 * v15 in
    let v7v14 := v7 * v14 in
    let v6v15 := v6 * v15 in
    let v0v11 := v0 * v11 in
    let v1v8 := v1 * v8 in
    let v0v9 := v0 * v9 in
    let v0v5 := v0 * v5 in
    let v0v13 := v0 * v13 in
    let m1 := m1.[0 <- -v7v10 * v13 + v6v11 * v13 + v7v9 * v14 - v5v11 * v14 - v6v9 * v15 + v5v10 * v15] in
    let m1 := m1.[1 <- v3v13 * v10 - v2v13 * v11 - v3v14 * v9 + v1 * v11 * v14 + v2v15 * v9 - v1 * v10v15] in
    let m1 := m1.[2 <- -v3v13 * v6 + v2v13 * v7 + v3v14 * v5 - v1 * v7v14 - v2v15 * v5 + v1 * v6v15] in
    let m1 := m1.[3 <- v3 * v6v9 - v2 * v7v9 - v3 * v5v10 + v1 * v7v10 + v2 * v5v11 - v1 * v6v11] in
    let m1 := m1.[4 <- v7v10 * v12 - v6v11 * v12 - v7v8 * v14 + v4v11 * v14 + v6v8 * v15 - v4v10 * v15] in
    let m1 := m1.[5 <- -v3v12 * v10 + v2v12 * v11 + v3v14 * v8 - v0v11 * v14 - v2v15 * v8 + v0 * v10v15] in
    let m1 := m1.[6 <- v3v12 * v6 - v2v12 * v7 - v3v14 * v4 + v0 * v7v14 + v2v15 * v4 - v0 * v6v15] in
    let m1 := m1.[7 <- -v3 * v6v8 + v2 * v7v8 + v3 * v4v10 - v0 * v7v10 - v2 * v4v11 + v0 * v6v11] in
    let m1 := m1.[8 <- -v7v9 * v12 + v5v11 * v12 + v7v8 * v13 - v4v11 * v13 - v5v8 * v15 + v4v9 * v15] in
    let m1 := m1.[9 <- v3v12 * v9 - v1v12 * v11 - v3v13 * v8 + v0v11 * v13 + v1v8 * v15 - v0v9 * v15] in
    let m1 := m1.[10 <- -v3v12 * v5 + v1v12 * v7 + v3v13 * v4 - v0v13 * v7 - v1v4 * v15 + v0v5 * v15] in
    let m1 := m1.[11 <- v3 * v5v8 - v1 * v7v8 - v3 * v4v9 + v0 * v7v9 + v1v4 * v11 - v0 * v5v11] in
    let m1 := m1.[12 <- v6v9 * v12 - v5v10 * v12 - v6v8 * v13 + v4v10 * v13 + v5v8 * v14 - v4v9 * v14] in
    let m1 := m1.[13 <- -v2v12 * v9 + v1v12 * v10 + v2v13 * v8 - v0v13 * v10 - v1v8 * v14 + v0v9 * v14] in
    let m1 := m1.[14 <- v2v12 * v5 - v1v12 * v6 - v2v13 * v4 + v0v13 * v6 + v1v4 * v14 - v0v5 * v14] in
    let m1 := m1.[15 <- -v2 * v5v8 + v1 * v6v8 + v2 * v4v9 - v0 * v6v9 - v1v4 * v10 + v0 * v5v10] in
    let m1 := MulWith m1 (1 / det) in
    m1.

(** [m1.InverseOf(m2)] *)
Definition InverseOf (m1 : Mat4 F) (m2 : operand (Mat4 F)) : Mat4 F :=
  let det := Det (deref m1 m2) in
  if FloatEqual det 0 then Zero
  else
    let v0 := (deref m1 m2).[0] in
    let v1 := (deref m1 m2).[1] in
    let v2 := (deref m1 m2).[2] in
    let v3 := (deref m1 m2).[3] in
    let v4 := (deref m1 m2).[4] in
    let v5 := (deref m1 m2).[5] in
    let v6 := (deref m1 m2).[6] in
    let v7 := (deref m1 m2).[7] in
    let v8 := (deref m1 m2).[8] in
    let v9 := (deref m1 m2).[9] in
    let v10 := (deref m1 m2).[10] in
    let v11 := (deref m1 m2).[11] in
    let v12 := (deref m1 m2).[12] in
    let v13 := (deref m1 m2).[13] in
    let v14 := (deref m1 m2).[14] in
    let v15 := (deref m1 m2).[15] in
    let v7v10 := v7 * v10 in
    let v6v11 := v6 * v11 in
    let v7v9 := v7 * v9 in
    let v5v11 := v5 * v11 in
    let v6v9 := v6 * v9 in
    let v5v10 := v5 * v10 in
    let v1v4 := v1 * v4 in
    let v4v9 := v4 * v9 in
    let v6v8 := v6 * v8 in
    let v5v8 := v5 * v8 in
    let v7v8 := v7 * v8 in
    let v1v12 := v1 * v12 in
    let v2v12 := v2 * v12 in
    let v2v13 := v2 * v13 in
    let v2v15 := v2 * v15 in
    let v3v12 := v3 * v12 in
    let v3v13 := v3 * v13 in
    let v3v14 := v3 * v14 in
    let v4v10 := v4 * v10 in
    let v4v11 := v4 * v11 in
    let v10v15 := v10 * v15 in
    let v7v14 := v7 * v14 in
    let v6v15 := v6 * v15 in
    let v0v11 := v0 * v11 in
    let v1v8 := v1 * v8 in
    let v0v9 := v0 * v9 in
    let v0v5 := v0 * v5 in
    let v0v13 := v0 * v13 in
    let m1 := m1.[0 <- -v7v10 * v13 + v6v11 * v13 + v7v9 * v14 - v5v11 * v14 - v6v9 * v15 + v5v10 * v15] in
    let m1 := m1.[1 <- v3v13 * v10 - v2v13 * v11 - v3v14 * v9 + v1 * v11 * v14 + v2v15 * v9 - v1 * v10v15] in
    let m1 := m1.[2 <- -v3v13 * v6 + v2v13 * v7 + v3v14 * v5 - v1 * v7v14 - v2v15 * v5 + v1 * v6v15] in
    let m1 := m1.[3 <- v3 * v6v9 - v2 * v7v9 - v3 * v5v10 + v1 * v7v10 + v2 * v5v11 - v1 * v6v11] in
    let m1 := m1.[4 <- v7v10 * v12 - v6v11 * v12 - v7v8 * v14 + v4v11 * v14 + v6v8 * v15 - v4v10 * v15] in
    let m1 := m1.[5 <- -v3v12 * v10 + v2v12 * v11 + v3v14 * v8 - v0v11 * v14 - v2v15 * v8 + v0 * v10v15] in
    let m1 := m1.[6 <- v3v12 * v6 - v2v12 * v7 - v3v14 * v4 + v0 * v7v14 + v2v15 * v4 - v0 * v6v15] in
    let m1 := m1.[7 <- -v3 * v6v8 + v2 * v7v8 + v3 * v4v10 - v0 * v7v10 - v2 * v4v11 + v0 * v6v11] in
    let m1 := m1.[8 <- -v7v9 * v12 + v5v11 * v12 + v7v8 * v13 - v4v11 * v13 - v5v8 * v15 + v4v9 * v15] in
    let m1 := m1.[9 <- v3v12 * v9 - v1v12 * v11 - v3v13 * v8 + v0v11 * v13 + v1v8 * v15 - v0v9 * v15] in
    let m1 := m1.[10 <- -v3v12 * v5 + v1v12 * v7 + v3v13 * v4 - v0v13 * v7 - v1v4 * v15 + v0v5 * v15] in
    let m1 := m1.[11 <- v3 * v5v8 - v1 * v7v8 - v3 * v4v9 + v0 * v7v9 + v1v4 * v11 - v0 * v5v11] in
    let m1 := m1.[12 <- v6v9 * v12 - v5v10 * v12 - v6v8 * v13 + v4v10 * v13 + v5v8 * v14 - v4v9 * v14] in
    let m1 := m1.[13 <- -v2v12 * v9 + v1v12 * v10 + v2v13 * v8 - v0v13 * v10 - v1v8 * v14 + v0v9 * v14] in
    let m1 := m1.[14 <- v2v12 * v5 - v1v12 * v6 - v2v13 * v4 + v0v13 * v6 + v1v4 * v14 - v0v5 * v14] in
    let m1 := m1.[15 <- -v2 * v5v8 + v1 * v6v8 + v2 * v4v9 - v0 * v6v9 - v1v4 * v10 + v0 * v5v10] in
    let m1 := MulWith m1 (1 / det) in
    m1.

(** Elements by row and column; the arrays are column-major.  [None] is
    a run-time panic, index out of range. *)

Definition Index (row col : Z) : Z := Int.add (Int.mul col 4) row.

Definition At (m1 : Mat4 F) (row col : Z) : option F :=
  load_index 16 m1 (Int.add (Int.mul col 4) row).

(** [Set]; the name is a keyword here. *)
Definition Set_ (m1 : Mat4 F) (row col : Z) (value : F) : option (Mat4 F) :=
  store_index 16 m1 (Int.add (Int.mul col 4) row) value.

Definition Row (m1 : Mat4 F) (row : Z) : option (Vec4 F) :=
  match load_index 16 m1 (Int.add row 0) with None => None | Some x0 =>
  match load_index 16 m1 (Int.add row 4) with None => None | Some x1 =>
  match load_index 16 m1 (Int.add row 8) with None => None | Some x2 =>
  match load_index 16 m1 (Int.add row 12) with None => None | Some x3 =>
  Some (vec4 x0 x1 x2 x3)
  end end end end.

Definition Col (m1 : Mat4 F) (col : Z) : option (Vec4 F) :=
  match load_index 16 m1 (Int.add (Int.mul col 4) 0) with None => None | Some x0 =>
  match load_index 16 m1 (Int.add (Int.mul col 4) 1) with None => None | Some x1 =>
  match load_index 16 m1 (Int.add (Int.mul col 4) 2) with None => None | Some x2 =>
  match load_index 16 m1 (Int.add (Int.mul col 4) 3) with None => None | Some x3 =>
  Some (vec4 x0 x1 x2 x3)
  end end end end.

(** [Mat4FromRows] *)
Definition FromRows (row0 row1 row2 row3 : Vec4 F) : Mat4 F :=
  mat4
    (row0.[0])
    (row1.[0])
    (row2.[0])
    (row3.[0])
    (row0.[1])
    (row1.[1])
    (row2.[1])
    (row3.[1])
    (row0.[2])
    (row1.[2])
    (row2.[2])
    (row3.[2])
    (row0.[3])
    (row1.[3])
    (row2.[3])
    (row3.[3]).

(** [Mat4FromCols] *)
Definition FromCols (col0 col1 col2 col3 : Vec4 F) : Mat4 F :=
  mat4
    (col0.[0])
    (col0.[1])
    (col0.[2])
    (col0.[3])
    (col1.[0])
    (col1.[1])
    (col1.[2])
    (col1.[3])
    (col2.[0])
    (col2.[1])
    (col2.[2])
    (col2.[3])
    (col3.[0])
    (col3.[1])
    (col3.[2])
    (col3.[3]).

Definition Rows (m1 : Mat4 F) : option (Vec4 F * Vec4 F * Vec4 F * Vec4 F) :=
  match Row m1 0 with None => None | Some v0 =>
  match Row m1 1 with None => None | Some v1 =>
  match Row m1 2 with None => None | Some v2 =>
  match Row m1 3 with None => None | Some v3 =>
  Some (v0, v1, v2, v3)
  end end end end.

Definition Cols (m1 : Mat4 F) : option (Vec4 F * Vec4 F * Vec4 F * Vec4 F) :=
  match Col m1 0 with None => None | Some v0 =>
  match Col m1 1 with None => None | Some v1 =>
  match Col m1 2 with None => None | Some v2 =>
  match Col m1 3 with None => None | Some v3 =>
  Some (v0, v1, v2, v3)
  end end end end.

Definition Mat2 (m1 : Mat4 F) : Mat2 F :=
  mat2
    (m1.[0])
    (m1.[1])
    (m1.[4])
    (m1.[5]).

Definition Mat3 (m1 : Mat4 F) : Mat3 F :=
  mat3
    (m1.[0])
    (m1.[1])
    (m1.[2])
    (m1.[4])
    (m1.[5])
    (m1.[6])
    (m1.[8])
    (m1.[9])
    (m1.[10]).

Definition Mat3x4 (m1 : Mat4 F) : Mat3x4 F :=
  mat3x4
    (m1.[0])
    (m1.[1])
    (m1.[2])
    (m1.[4])
    (m1.[5])
    (m1.[6])
    (m1.[8])
    (m1.[9])
    (m1.[10])
    (m1.[12])
    (m1.[13])
    (m1.[14]).

End Defs.
End Mat4.

Module Mat2x3.
Section Defs.
Context {F : Type} `{Scalar F} `{Approx F}.
Local Open Scope scalar_scope.

Definition Zero : Mat2x3 F := mat2x3 0 0 0 0 0 0.

(** [Mat3] returns a [Mat3] with the last row as [0 0 1]. *)
Definition Mat3 (m1 : Mat2x3 F) : Mat3 F :=
  mat3
    (m1.[0])
    (m1.[1])
    (0)
    (m1.[2])
    (m1.[3])
    (0)
    (m1.[4])
    (m1.[5])
    (1).

Definition Mul (m1 : Mat2x3 F) (c : F) : Mat2x3 F :=
  mat2x3 (m1.[0] * c) (m1.[1] * c) (m1.[2] * c) (m1.[3] * c) (m1.[4] * c)
    (m1.[5] * c).

Definition Mul2x3 (m1 m2 : Mat2x3 F) : Mat2x3 F :=
  mat2x3
    (m1.[0] * m2.[0] + m1.[2] * m2.[1])
    (m1.[1] * m2.[0] + m1.[3] * m2.[1])
    (m1.[0] * m2.[2] + m1.[2] * m2.[3])
    (m1.[1] * m2.[2] + m1.[3] * m2.[3])
    (m1.[0] * m2.[4] + m1.[2] * m2.[5] + m1.[4])
    (m1.[1] * m2.[4] + m1.[3] * m2.[5] + m1.[5]).

Definition Det (m1 : Mat2x3 F) : F :=
  m1.[0] * m1.[3] - m1.[2] * m1.[1].

Definition Inverse (m1 : Mat2x3 F) : Mat2x3 F :=
  let det := Det m1 in
  if FloatEqual det 0 then Zero
  else
    let retMat := mat2x3
      (m1.[3])
      (-m1.[1])
      (-m1.[1])
      (m1.[0])
      (m1.[1] * m1.[5] - m1.[3] * m1.[4])
      (m1.[1] * m1.[4] - m1.[0] * m1.[5]) in
    Mul retMat (1 / det).

Definition Mat2 (m1 : Mat2x3 F) : Mat2 F :=
  mat2
    (m1.[0])
    (m1.[1])
    (m1.[2])
    (m1.[3]).

End Defs.
End Mat2x3.

Section Identities.
Context {F : Type} `{Scalar F}.
Local Open Scope scalar_scope.

Definition Ident2 : Mat2 F := mat2 1 0 0 1.

Definition Ident3 : Mat3 F := mat3 1 0 0 0 1 0 0 0 1.

Definition Ident4 : Mat4 F := mat4 1 0 0 0 0 1 0 0 0 0 1 0 0 0 0 1.

End Identities.

(** ** Quaternions ([math/quaternion.go]) *)

Record Quaternion (F : Type) : Type := quat {
  W : F;
  V : Vec3 F
}.

Arguments quat {F} W V.
Arguments W {F} q.
Arguments V {F} q.

(** A call either returns or panics with a message. *)
Inductive result (A : Type) : Type :=
| Return (a : A)
| Panic (msg : string).

Arguments Return {A} a.
Arguments Panic {A} msg.

(** [RotationOrder] is an [int]; the constants are numbered by [iota]. *)
Definition RotationOrder : Type := Z.

Definition XYX : RotationOrder := 0%Z.
Definition XYZ : RotationOrder := 1%Z.
Definition XZX : RotationOrder := 2%Z.
Definition XZY : RotationOrder := 3%Z.
Definition YXY : RotationOrder := 4%Z.
Definition YXZ : RotationOrder := 5%Z.
Definition YZY : RotationOrder := 6%Z.
Definition YZX : RotationOrder := 7%Z.
Definition ZYZ : RotationOrder := 8%Z.
Definition ZYX : RotationOrder := 9%Z.
Definition ZXZ : RotationOrder := 10%Z.
Definition ZXY : RotationOrder := 11%Z.

Module Quaternion.
Section Defs.
Context {F : Type} `{Scalar F} `{Approx F} `{Elementary F}.
Local Open Scope scalar_scope.

Definition QuatIdent : Quaternion F := quat 1 (vec3 0 0 0).

(** Modelled from the spec: [Clamp] of [math/util.go] is not among the
    sources.  It saturates its first argument into [[low, high]]: its
    call in [QuatSlerp] is "here for precision errors". *)
Definition Clamp (a low high : F) : F :=
  if a <? low then low else if a >? high then high else a.

(** Modelled from the spec: [Sincos] of [math/util.go] is not among the
    sources.  It returns the sine and the cosine of its argument. *)
Definition Sincos (x : F) : F * F := (Sin x, Cos x).

Definition QuatRotate (angle : F) (axis : Vec3 F) : Quaternion F :=
  let s := Sin (angle * lit 0.5) in
  let c := Cos (angle * lit 0.5) in
  quat c (Vec3.Mul axis s).

(** [q1.Iden()]: [q1] after the call. *)
Definition Iden (q1 : Quaternion F) : Quaternion F :=
  quat 1 (vec3 0 0 0).

Definition Add (q1 q2 : Quaternion F) : Quaternion F :=
  quat (W q1 + W q2) (Vec3.Add (V q1) (V q2)).

Definition Sub (q1 q2 : Quaternion F) : Quaternion F :=
  quat (W q1 - W q2) (Vec3.Sub (V q1) (V q2)).

Definition Mul (q1 q2 : Quaternion F) : Quaternion F :=
  let c := Vec3.CrossOf (V q1) (V q2) in
  let m1 := Vec3.MulOf (W q1) (V q2) in
  let m2 := Vec3.MulOf (W q2) (V q1) in
  let a1 := Vec3.AddOf c m1 in
  quat (W q1 * W q2 - Vec3.Dot (V q1) (V q2)) (Vec3.Add a1 m2).

(** [q1.MulWith(q2)]: [q1] after the call.  [q1.V] is a [Vec3], so the
    two [AddScaledVec] calls are the vector's. *)
Definition MulWith (q1 q2 : Quaternion F) : Quaternion F :=
  let w := W q1 in
  let v := V q1 in
  let q1_W := w * W q2 - Vec3.Dot v (V q2) in
  let q1_V := Vec3.CrossOf v (V q2) in
  let q1_V := Vec3.AddScaledVec q1_V w (V q2) in
  let q1_V := Vec3.AddScaledVec q1_V (W q2) v in
  quat q1_W q1_V.

Definition Scale (q1 : Quaternion F) (c : F) : Quaternion F :=
  quat (W q1 * c) (vec3 ((V q1).[0] * c) ((V q1).[1] * c) ((V q1).[2] * c)).

Definition Conjugated (q1 : Quaternion F) : Quaternion F :=
  quat (W q1) (Vec3.Mul (V q1) (lit (-1))).

Definition Len (q1 : Quaternion F) : F :=
  Sqrt (W q1 * W q1 + (V q1).[0] * (V q1).[0] + (V q1).[1] * (V q1).[1]
        + (V q1).[2] * (V q1).[2]).

Definition Normalized (q1 : Quaternion F) : Quaternion F :=
  let length := Len q1 in
  if FloatEqual 1 length then q1
  else if FloatEqual length 0 then QuatIdent
  else
    let length := capInf length in
    let il := 1 / length in
    quat (W q1 * il) (Vec3.Mul (V q1) il).

Definition Rotate (q1 : Quaternion F) (v : Vec3 F) : Vec3 F :=
  let cross := Vec3.CrossOf (V q1) v in
  let mul2 := Vec3.MulOf 2 (V q1) in
  let mul2 := Vec3.CrossWith mul2 cross in
  let w2 := Vec3.MulOf (2 * W q1) cross in
  let out := Vec3.AddOf v w2 in
  let out := Vec3.AddWith out mul2 in
  out.

Definition Mat4 (q1 : Quaternion F) : Mat4 F :=
  let w := W q1 in
  let x := (V q1).[0] in
  let y := (V q1).[1] in
  let z := (V q1).[2] in
  mat4
    (1 - 2 * y * y - 2 * z * z) (2 * x * y + 2 * w * z) (2 * x * z - 2 * w * y) 0
    (2 * x * y - 2 * w * z) (1 - 2 * x * x - 2 * z * z) (2 * y * z + 2 * w * x) 0
    (2 * x * z + 2 * w * y) (2 * y * z - 2 * w * x) (1 - 2 * x * x - 2 * y * y) 0
    0 0 0 1.

Definition Dot (q1 q2 : Quaternion F) : F :=
  W q1 * W q2 + (V q1).[0] * (V q2).[0] + (V q1).[1] * (V q2).[1]
  + (V q1).[2] * (V q2).[2].

Definition Equal (q1 q2 : Quaternion F) : bool :=
  FloatEqual (W q1) (W q2) && Vec3.Equal (V q1) (V q2).

Definition QuatLerp (q1 q2 : Quaternion F) (amount : F) : Quaternion F :=
  let var1 := Sub q2 q1 in
  let var2 := Scale var1 amount in
  Add q1 var2.

Definition QuatNlerp (q1 q2 : Quaternion F) (amount : F) : Quaternion F :=
  let l := QuatLerp q1 q2 amount in
  Normalized l.

Definition QuatSlerp (q1 q2 : Quaternion F) (amount : F) : Quaternion F :=
  let epsilon := lit 0.9995 in
  let n1 := Normalized q1 in
  let n2 := Normalized q2 in
  let dot := Dot n1 n2 in
  if dot >? epsilon then QuatNlerp n1 n2 amount
  else
    let dot := Clamp dot (lit (-1)) 1 in
    let theta := Acos dot * amount in
    let c := Cos theta in
    let s := Sin theta in
    let n1dot := Scale n1 dot in
    let n2n1dot := Sub n2 n1dot in
    let rel := Normalized n2n1dot in
    let rel := Scale rel s in
    let n1c := Scale n1 c in
    Add n1c rel.

Definition AnglesToQuat (angle1 angle2 angle3 : F) (order : RotationOrder)
  : result (Quaternion F) :=
  let '(s0, c0) := Sincos (angle1 / 2) in
  let '(s1, c1) := Sincos (angle2 / 2) in
  let '(s2, c2) := Sincos (angle3 / 2) in
  let order_is (k : RotationOrder) := Z.eqb order k in
  if order_is ZYX then
    Return (quat (c0 * c1 * c2 + s0 * s1 * s2)
      (vec3 (c0 * c1 * s2 - s0 * s1 * c2)
            (c0 * s1 * c2 + s0 * c1 * s2)
            (s0 * c1 * c2 - c0 * s1 * s2)))
  else
  if order_is ZYZ then
    Return (quat (c0 * c1 * c2 - s0 * c1 * s2)
      (vec3 (c0 * s1 * s2 - s0 * s1 * c2)
            (c0 * s1 * c2 + s0 * s1 * s2)
            (s0 * c1 * c2 + c0 * c1 * s2)))
  else
  if order_is ZXY then
    Return (quat (c0 * c1 * c2 - s0 * s1 * s2)
      (vec3 (c0 * s1 * c2 - s0 * c1 * s2)
            (c0 * c1 * s2 + s0 * s1 * c2)
            (c0 * s1 * s2 + s0 * c1 * c2)))
  else
  if order_is ZXZ then
    Return (quat (c0 * c1 * c2 - s0 * c1 * s2)
      (vec3 (c0 * s1 * c2 + s0 * s1 * s2)
            (s0 * s1 * c2 - c0 * s1 * s2)
            (c0 * c1 * s2 + s0 * c1 * c2)))
  else
  if order_is YXZ then
    Return (quat (c0 * c1 * c2 + s0 * s1 * s2)
      (vec3 (c0 * s1 * c2 + s0 * c1 * s2)
            (s0 * c1 * c2 - c0 * s1 * s2)
            (c0 * c1 * s2 - s0 * s1 * c2)))
  else
  if order_is YXY then
    Return (quat (c0 * c1 * c2 - s0 * c1 * s2)
      (vec3 (c0 * s1 * c2 + s0 * s1 * s2)
            (s0 * c1 * c2 + c0 * c1 * s2)
            (c0 * s1 * s2 - s0 * s1 * c2)))
  else
  if order_is YZX then
    Return (quat (c0 * c1 * c2 - s0 * s1 * s2)
      (vec3 (c0 * c1 * s2 + s0 * s1 * c2)
            (c0 * s1 * s2 + s0 * c1 * c2)
            (c0 * s1 * c2 - s0 * c1 * s2)))
  else
  if order_is YZY then
    Return (quat (c0 * c1 * c2 - s0 * c1 * s2)
      (vec3 (s0 * s1 * c2 - c0 * s1 * s2)
            (c0 * c1 * s2 + s0 * c1 * c2)
            (c0 * s1 * c2 + s0 * s1 * s2)))
  else
  if order_is XYZ then
    Return (quat (c0 * c1 * c2 - s0 * s1 * s2)
      (vec3 (c0 * s1 * s2 + s0 * c1 * c2)
            (c0 * s1 * c2 - s0 * c1 * s2)
            (c0 * c1 * s2 + s0 * s1 * c2)))
  else
  if order_is XYX then
    Return (quat (c0 * c1 * c2 - s0 * c1 * s2)
      (vec3 (c0 * c1 * s2 + s0 * c1 * c2)
            (c0 * s1 * c2 + s0 * s1 * s2)
            (s0 * s1 * c2 - c0 * s1 * s2)))
  else
  if order_is XZY then
    Return (quat (c0 * c1 * c2 + s0 * s1 * s2)
      (vec3 (s0 * c1 * c2 - c0 * s1 * s2)
            (c0 * c1 * s2 - s0 * s1 * c2)
            (c0 * s1 * c2 + s0 * c1 * s2)))
  else
  if order_is XZX then
    Return (quat (c0 * c1 * c2 - s0 * c1 * s2)
      (vec3 (c0 * c1 * s2 + s0 * c1 * c2)
            (c0 * s1 * s2 - s0 * s1 * c2)
            (c0 * s1 * c2 + s0 * s1 * s2)))
  else
    Panic "Unsupported rotation order".

Definition Inverse (q1 : Quaternion F) : Quaternion F :=
  let c := Conjugated q1 in
  Scale c (1 / Dot q1 q1).

Definition Mat3 (q1 : Quaternion F) : Mat3 F :=
  let w := W q1 in
  let x := (V q1).[0] in
  let y := (V q1).[1] in
  let z := (V q1).[2] in
  mat3
    (1 - 2 * y * y - 2 * z * z) (2 * x * y + 2 * w * z) (2 * x * z - 2 * w * y)
    (2 * x * y - 2 * w * z) (1 - 2 * x * x - 2 * z * z) (2 * y * z + 2 * w * x)
    (2 * x * z + 2 * w * y) (2 * y * z - 2 * w * x) (1 - 2 * x * x - 2 * y * y).

End Defs.
End Quaternion.

Module Mat3x4.
Section Defs.
Context {F : Type} `{Scalar F} `{Approx F}.
Local Open Scope scalar_scope.

Definition Zero : Mat3x4 F := mat3x4 0 0 0 0 0 0 0 0 0 0 0 0.

Definition Mul (m1 : Mat3x4 F) (c : F) : Mat3x4 F :=
  mat3x4
    (m1.[0] * c)
    (m1.[1] * c)
    (m1.[2] * c)
    (m1.[3] * c)
    (m1.[4] * c)
    (m1.[5] * c)
    (m1.[6] * c)
    (m1.[7] * c)
    (m1.[8] * c)
    (m1.[9] * c)
    (m1.[10] * c)
    (m1.[11] * c).

Definition Mul4x1 (m1 : Mat3x4 F) (v1 : Vec4 F) : Vec3 F :=
  vec3
    (m1.[0] * v1.[0] + m1.[3] * v1.[1] + m1.[6] * v1.[2] + m1.[9] * v1.[3])
    (m1.[1] * v1.[0] + m1.[4] * v1.[1] + m1.[7] * v1.[2] + m1.[10] * v1.[3])
    (m1.[2] * v1.[0] + m1.[5] * v1.[1] + m1.[8] * v1.[2] + m1.[11] * v1.[3]).

Definition Mul3x1 (m1 : Mat3x4 F) (v1 : Vec3 F) : Vec3 F :=
  vec3
    (m1.[0] * v1.[0] + m1.[3] * v1.[1] + m1.[6] * v1.[2] + m1.[9])
    (m1.[1] * v1.[0] + m1.[4] * v1.[1] + m1.[7] * v1.[2] + m1.[10])
    (m1.[2] * v1.[0] + m1.[5] * v1.[1] + m1.[8] * v1.[2] + m1.[11]).

Definition Mul3x4 (m1 m2 : Mat3x4 F) : Mat3x4 F :=
  mat3x4
    (m1.[0] * m2.[0] + m1.[3] * m2.[1] + m1.[6] * m2.[2])
    (m1.[1] * m2.[0] + m1.[4] * m2.[1] + m1.[7] * m2.[2])
    (m1.[2] * m2.[0] + m1.[5] * m2.[1] + m1.[8] * m2.[2])
    (m1.[0] * m2.[3] + m1.[3] * m2.[4] + m1.[6] * m2.[5])
    (m1.[1] * m2.[3] + m1.[4] * m2.[4] + m1.[7] * m2.[5])
    (m1.[2] * m2.[3] + m1.[5] * m2.[4] + m1.[8] * m2.[5])
    (m1.[0] * m2.[6] + m1.[3] * m2.[7] + m1.[6] * m2.[8])
    (m1.[1] * m2.[6] + m1.[4] * m2.[7] + m1.[7] * m2.[8])
    (m1.[2] * m2.[6] + m1.[5] * m2.[7] + m1.[8] * m2.[8])
    (m1.[0] * m2.[9] + m1.[3] * m2.[10] + m1.[6] * m2.[11] + m1.[9])
    (m1.[1] * m2.[9] + m1.[4] * m2.[10] + m1.[7] * m2.[11] + m1.[10])
    (m1.[2] * m2.[9] + m1.[5] * m2.[10] + m1.[8] * m2.[11] + m1.[11]).

Definition Mul4 (m1 : Mat3x4 F) (m2 : Mat4 F) : Mat3x4 F :=
  mat3x4
    (m1.[0] * m2.[0] + m1.[3] * m2.[1] + m1.[6] * m2.[2] + m1.[9] * m2.[3])
    (m1.[1] * m2.[0] + m1.[4] * m2.[1] + m1.[7] * m2.[2] + m1.[10] * m2.[3])
    (m1.[2] * m2.[0] + m1.[5] * m2.[1] + m1.[8] * m2.[2] + m1.[11] * m2.[3])
    (m1.[0] * m2.[4] + m1.[3] * m2.[5] + m1.[6] * m2.[6] + m1.[9] * m2.[7])
    (m1.[1] * m2.[4] + m1.[4] * m2.[5] + m1.[7] * m2.[6] + m1.[10] * m2.[7])
    (m1.[2] * m2.[4] + m1.[5] * m2.[5] + m1.[8] * m2.[6] + m1.[11] * m2.[7])
    (m1.[0] * m2.[8] + m1.[3] * m2.[9] + m1.[6] * m2.[10] + m1.[9] * m2.[11])
    (m1.[1] * m2.[8] + m1.[4] * m2.[9] + m1.[7] * m2.[10] + m1.[10] * m2.[11])
    (m1.[2] * m2.[8] + m1.[5] * m2.[9] + m1.[8] * m2.[10] + m1.[11] * m2.[11])
    (m1.[0] * m2.[12] + m1.[3] * m2.[13] + m1.[6] * m2.[14] + m1.[9] * m2.[15])
    (m1.[1] * m2.[12] + m1.[4] * m2.[13] + m1.[7] * m2.[14] + m1.[10] * m2.[15])
    (m1.[2] * m2.[12] + m1.[5] * m2.[13] + m1.[8] * m2.[14] + m1.[11] * m2.[15]).

Definition Det (m1 : Mat3x4 F) : F :=
  m1.[0] * m1.[4] * m1.[8] - m1.[0] * m1.[5] * m1.[7] - m1.[1] * m1.[3] * m1.[8] + m1.[1] * m1.[5] * m1.[6] + m1.[2] * m1.[3] * m1.[7] - m1.[2] * m1.[4] * m1.[6].

Definition Inverse (m1 : Mat3x4 F) : Mat3x4 F :=
  let det := Det m1 in
  if FloatEqual det 0 then Zero
  else
    let retMat := mat3x4
      (m1.[4] * m1.[8] - m1.[5] * m1.[7])
      (m1.[2] * m1.[7] - m1.[1] * m1.[8])
      (m1.[1] * m1.[5] - m1.[2] * m1.[4])
      (m1.[5] * m1.[6] - m1.[3] * m1.[8])
      (m1.[0] * m1.[8] - m1.[2] * m1.[6])
      (m1.[2] * m1.[3] - m1.[0] * m1.[5])
      (m1.[3] * m1.[7] - m1.[4] * m1.[6])
      (m1.[1] * m1.[6] - m1.[0] * m1.[7])
      (m1.[0] * m1.[4] - m1.[1] * m1.[3])
      (m1.[5] * m1.[7] * m1.[9] - m1.[4] * m1.[8] * m1.[9] - m1.[5] * m1.[6] * m1.[10] + m1.[3] * m1.[8] * m1.[10] + m1.[4] * m1.[6] * m1.[11] - m1.[3] * m1.[7] * m1.[11])
      (-m1.[2] * m1.[9] * m1.[7] + m1.[1] * m1.[9] * m1.[8] + m1.[2] * m1.[10] * m1.[6] - m1.[0] * m1.[10] * m1.[8] - m1.[1] * m1.[6] * m1.[11] + m1.[0] * m1.[7] * m1.[11])
      (m1.[2] * m1.[9] * m1.[4] - m1.[1] * m1.[9] * m1.[5] - m1.[2] * m1.[10] * m1.[3] + m1.[0] * m1.[10] * m1.[5] + m1.[1] * m1.[3] * m1.[11] - m1.[0] * m1.[4] * m1.[11]) in
    Mul retMat (1 / det).

(** [m1.SetOrientationAndPos(q1, v1)]: [m1] after the call; the twelve
    stores, in order, set every element. *)
Definition SetOrientationAndPos (m1 : Mat3x4 F) (q1 : Quaternion F)
  (v1 : Vec3 F) : Mat3x4 F :=
  let w := W q1 in
  let x := (V q1).[0] in
  let y := (V q1).[1] in
  let z := (V q1).[2] in
  mat3x4
    (1 - 2 * y * y - 2 * z * z)
    (2 * x * y + 2 * w * z)
    (2 * x * z - 2 * w * y)
    (2 * x * y - 2 * w * z)
    (1 - 2 * x * x - 2 * z * z)
    (2 * y * z + 2 * w * x)
    (2 * x * z + 2 * w * y)
    (2 * y * z - 2 * w * x)
    (1 - 2 * x * x - 2 * y * y)
    (v1.[0])
    (v1.[1])
    (v1.[2]).

Definition Transform (m1 : Mat3x4 F) (v1 : Vec3 F) : Vec3 F :=
  Mul3x1 m1 v1.

Definition TransformInverse (m1 : Mat3x4 F) (v1 : Vec3 F) : Vec3 F :=
  let x := v1.[0] - m1.[9] in
  let y := v1.[1] - m1.[10] in
  let z := v1.[2] - m1.[11] in
  vec3
    (x * m1.[0] + y * m1.[1] + z * m1.[2])
    (x * m1.[3] + y * m1.[4] + z * m1.[5])
    (x * m1.[6] + y * m1.[7] + z * m1.[8]).

Definition TransformDirection (m1 : Mat3x4 F) (v1 : Vec3 F) : Vec3 F :=
  vec3
    (v1.[0] * m1.[0] + v1.[1] * m1.[3] + v1.[2] * m1.[6])
    (v1.[0] * m1.[1] + v1.[1] * m1.[4] + v1.[2] * m1.[7])
    (v1.[0] * m1.[2] + v1.[1] * m1.[5] + v1.[2] * m1.[8]).

Definition TransformInverseDirection (m1 : Mat3x4 F) (v1 : Vec3 F) : Vec3 F :=
  vec3
    (v1.[0] * m1.[0] + v1.[1] * m1.[1] + v1.[2] * m1.[2])
    (v1.[0] * m1.[3] + v1.[1] * m1.[4] + v1.[2] * m1.[5])
    (v1.[0] * m1.[6] + v1.[1] * m1.[7] + v1.[2] * m1.[8]).

(** [Mat4] returns a [Mat4] with the last row as [0 0 0 1]. *)
Definition Mat4 (m1 : Mat3x4 F) : Mat4 F :=
  mat4
    (m1.[0])
    (m1.[1])
    (m1.[2])
    (0)
    (m1.[3])
    (m1.[4])
    (m1.[5])
    (0)
    (m1.[6])
    (m1.[7])
    (m1.[8])
    (0)
    (m1.[9])
    (m1.[10])
    (m1.[11])
    (1).

End Defs.
End Mat3x4.

Section Conversions.
Context {F : Type} `{Scalar F} `{Elementary F}.
Local Open Scope scalar_scope.

(** [Mat4ToQuat] converts a pure rotation matrix into a quaternion. *)
Definition Mat4ToQuat (m : Mat4 F) : Quaternion F :=
  let tr := m.[0] + m.[5] + m.[10] in
  if tr >? 0 then
    let s := lit 0.5 / Sqrt (tr + 1) in
    quat (lit 0.25 / s)
      (vec3 ((m.[6] - m.[9]) * s)
            ((m.[8] - m.[2]) * s)
            ((m.[1] - m.[4]) * s))
  else
  if (m.[0] >? m.[5]) && (m.[0] >? m.[10]) then
    let s := 2 * Sqrt (1 + m.[0] - m.[5] - m.[10]) in
    quat ((m.[6] - m.[9]) / s)
      (vec3 (lit 0.25 * s)
            ((m.[4] + m.[1]) / s)
            ((m.[8] + m.[2]) / s))
  else
  if m.[5] >? m.[10] then
    let s := 2 * Sqrt (1 + m.[5] - m.[0] - m.[10]) in
    quat ((m.[8] - m.[2]) / s)
      (vec3 ((m.[4] + m.[1]) / s)
            (lit 0.25 * s)
            ((m.[9] + m.[6]) / s))
  else
    let s := 2 * Sqrt (1 + m.[10] - m.[0] - m.[5]) in
    quat ((m.[1] - m.[4]) / s)
      (vec3 ((m.[8] + m.[2]) / s)
            ((m.[9] + m.[6]) / s)
            (lit 0.25 * s)).

End Conversions.

Section Identities34.
Context {F : Type} `{Scalar F}.
Local Open Scope scalar_scope.

(** [Ident3x4] returns the 3x4 fake identity matrix. *)
Definition Ident3x4 : Mat3x4 F := mat3x4 1 0 0 0 1 0 0 0 1 0 0 0.

(** [Ident2x3] returns the 2x3 fake identity matrix. *)
Definition Ident2x3 : Mat2x3 F := mat2x3 1 0 0 1 0 0.

End Identities34.

(** ** The transform composer ([math/transform.go]) *)

Module Transform.
Section Defs.
Context {F : Type} `{Scalar F}.
Local Open Scope scalar_scope.

(** [math/transform.go] is not among the sources.  A [Transform] is a
    [Mat4] (node.go converts the pointer).  The three methods
    [getTransform] calls are the steps of the spec's section 4.2: "the
    matrix is built by starting from identity, setting the translation
    column from [position], then multiplying in the rotation derived from
    the quaternion, then multiplying in the scale".  Each definition is
    the receiver after the call. *)

(** Modelled from the spec: [Transform.SetTranslateVec3] of transform.go,
    "starting from identity, setting the translation column from
    [position]". *)
Definition SetTranslateVec3 (t : Mat4 F) (v : Vec3 F) : Mat4 F :=
  mat4 1 0 0 0
       0 1 0 0
       0 0 1 0
       v.[0] v.[1] v.[2] 1.

(** Modelled from the spec: [Transform.RotateQuat] of transform.go,
    "multiplying in the rotation derived from the quaternion". *)
Definition RotateQuat (t : Mat4 F) (q : Quaternion F) : Mat4 F :=
  Mat4.Mul4 t (Quaternion.Mat4 q).

(** Modelled from the spec: [Transform.ScaleVec3] of transform.go,
    "multiplying in the scale". *)
Definition ScaleVec3 (t : Mat4 F) (s : Vec3 F) : Mat4 F :=
  Mat4.Mul4 t (mat4 s.[0] 0 0 0
                    0 s.[1] 0 0
                    0 0 s.[2] 0
                    0 0 0 1).

End Defs.
End Transform.

(** ** Nodes ([node.go]) *)

(** A [Grapher] value held by a node is a reference to another object. *)
Definition handle : Type := nat.

Record Node (F : Type) : Type := mkNode {
  parent : option handle;
  children : list handle;
  position : Vec3 F;
  rotation : Quaternion F;
  scale : Vec3 F;
  transformValid : bool;
  transform : Mat4 F
}.

Arguments mkNode {F}.
Arguments parent {F} n.
Arguments children {F} n.
Arguments position {F} n.
Arguments rotation {F} n.
Arguments scale {F} n.
Arguments transformValid {F} n.
Arguments transform {F} n.

(** A pointer to a field of the receiver, as returned by [GetPosition],
    [GetRotation], [GetScale] and [getTransform]: it aliases the node's
    storage, reads and writes through it act on the node. *)
Inductive ptr (F : Type) : Type -> Type :=
| addr_position : ptr F (Vec3 F)
| addr_rotation : ptr F (Quaternion F)
| addr_scale : ptr F (Vec3 F)
| addr_transform : ptr F (Mat4 F).

Arguments addr_position {F}.
Arguments addr_rotation {F}.
Arguments addr_scale {F}.
Arguments addr_transform {F}.

Module Node.
Section Defs.
Context {F : Type} `{Scalar F} `{Elementary F}.
Local Open Scope scalar_scope.

Definition with_position (n : Node F) (v : Vec3 F) : Node F :=
  mkNode (parent n) (children n) v (rotation n) (scale n)
         (transformValid n) (transform n).

Definition with_rotation (n : Node F) (q : Quaternion F) : Node F :=
  mkNode (parent n) (children n) (position n) q (scale n)
         (transformValid n) (transform n).

Definition with_scale (n : Node F) (v : Vec3 F) : Node F :=
  mkNode (parent n) (children n) (position n) (rotation n) v
         (transformValid n) (transform n).

Definition with_transformValid (n : Node F) (b : bool) : Node F :=
  mkNode (parent n) (children n) (position n) (rotation n) (scale n)
         b (transform n).

Definition with_transform (n : Node F) (t : Mat4 F) : Node F :=
  mkNode (parent n) (children n) (position n) (rotation n) (scale n)
         (transformValid n) t.

(** [*p] *)
Definition load {A : Type} (p : ptr F A) (n : Node F) : A :=
  match p in ptr _ A return A with
  | addr_position => position n
  | addr_rotation => rotation n
  | addr_scale => scale n
  | addr_transform => transform n
  end.

(** [*p = a] *)
Definition store {A : Type} (p : ptr F A) (a : A) (n : Node F) : Node F :=
  match p in ptr _ A return A -> Node F with
  | addr_position => with_position n
  | addr_rotation => with_rotation n
  | addr_scale => with_scale n
  | addr_transform => with_transform n
  end a.

(** [new(Node)]: every field has its zero value. *)
Definition zero : Node F :=
  mkNode None [] (vec3 0 0 0) (quat 0 (vec3 0 0 0)) (vec3 0 0 0)
         false Mat4.Zero.

Definition Init (n : Node F) : Node F :=
  let n := with_rotation n (Quaternion.Iden (rotation n)) in
  with_scale n (vec3 1 1 1).

Definition NewNode : Node F := Init zero.

Definition GetPosition (n : Node F) : ptr F (Vec3 F) := addr_position.

Definition SetPosition (n : Node F) (x y z : F) : Node F :=
  let n := with_position n (vec3 x y z) in
  with_transformValid n false.

Definition SetPositionV (n : Node F) (position : Vec3 F) : Node F :=
  let n := with_position n position in
  with_transformValid n false.

Definition TranslateX (n : Node F) (tx : F) : Node F :=
  let p := position n in
  let n := with_position n (vec3 (p.[0] + tx) p.[1] p.[2]) in
  with_transformValid n false.

Definition TranslateY (n : Node F) (ty : F) : Node F :=
  let p := position n in
  let n := with_position n (vec3 p.[0] (p.[1] + ty) p.[2]) in
  with_transformValid n false.

Definition TranslateZ (n : Node F) (tz : F) : Node F :=
  let p := position n in
  let n := with_position n (vec3 p.[0] p.[1] (p.[2] + tz)) in
  with_transformValid n false.

Definition GetRotation (n : Node F) : ptr F (Quaternion F) := addr_rotation.

Definition SetRotation (n : Node F) (q : Quaternion F) : Node F :=
  let n := with_rotation n q in
  with_transformValid n false.

Definition RotateAroundAxis (n : Node F) (axis : Vec3 F) (angle : F)
  : Node F :=
  let q := Quaternion.QuatRotate angle axis in
  let n := with_rotation n (Quaternion.MulWith (rotation n) q) in
  with_transformValid n false.

Definition RotateX (n : Node F) (angle : F) : Node F :=
  let n := RotateAroundAxis n (vec3 1 0 0) angle in
  with_transformValid n false.

Definition RotateY (n : Node F) (angle : F) : Node F :=
  let n := RotateAroundAxis n (vec3 0 1 0) angle in
  with_transformValid n false.

Definition RotateZ (n : Node F) (angle : F) : Node F :=
  let n := RotateAroundAxis n (vec3 0 0 1) angle in
  with_transformValid n false.

Definition GetScale (n : Node F) : ptr F (Vec3 F) := addr_scale.

Definition SetScale (n : Node F) (sx sy sz : F) : Node F :=
  let n := with_scale n (vec3 sx sy sz) in
  with_transformValid n false.

Definition SetScaleV (n : Node F) (s : Vec3 F) : Node F :=
  let n := with_scale n s in
  with_transformValid n false.

Definition ScaleX (n : Node F) (sx : F) : Node F :=
  let s := scale n in
  let n := with_scale n (vec3 (s.[0] * sx) s.[1] s.[2]) in
  with_transformValid n false.

Definition ScaleY (n : Node F) (sy : F) : Node F :=
  let s := scale n in
  let n := with_scale n (vec3 s.[0] (s.[1] * sy) s.[2]) in
  with_transformValid n false.

Definition ScaleZ (n : Node F) (sz : F) : Node F :=
  let s := scale n in
  let n := with_scale n (vec3 s.[0] s.[1] (s.[2] * sz)) in
  with_transformValid n false.

(** The node after the call and the pointer returned. *)
Definition getTransform (n : Node F) : Node F * ptr F (Mat4 F) :=
  if transformValid n then (n, addr_transform)
  else
    let n := with_transform n
               (Transform.SetTranslateVec3 (transform n) (position n)) in
    let n := with_transform n
               (Transform.RotateQuat (transform n) (rotation n)) in
    let n := with_transform n
               (Transform.ScaleVec3 (transform n) (scale n)) in
    let n := with_transformValid n true in
    (n, addr_transform).

Definition GetTransform (n : Node F) : Node F * ptr F (Mat4 F) :=
  getTransform n.

Definition GetParent (n : Node F) : option handle := parent n.

Definition SetParent (n : Node F) (parent : option handle) : Node F :=
  mkNode parent (children n) (position n) (rotation n) (scale n)
         (transformValid n) (transform n).

Definition GetChildren (n : Node F) : list handle := children n.

End Defs.
End Node.

(** ** The scene graph ([node.go], the [Grapher] implementation) *)

(** The objects of a program, by address.  A [Grapher] held by a node is
    a [*Node]: [Node] is the implementation of the interface among the
    sources. *)
Definition heap (F : Type) : Type := handle -> Node F.

Module Graph.
Section Defs.
Context {F : Type}.

(** [*a = n] *)
Definition update (h : heap F) (a : handle) (n : Node F) : heap F :=
  fun b => if Nat.eqb b a then n else h b.

Definition with_children (n : Node F) (cs : list handle) : Node F :=
  mkNode (parent n) cs (position n) (rotation n) (scale n)
         (transformValid n) (transform n).

(** The methods of the node at address [n]. *)

Definition GetParent (h : heap F) (n : handle) : option handle :=
  Node.GetParent (h n).

Definition SetParent (h : heap F) (n : handle) (parent : option handle)
  : heap F :=
  update h n (Node.SetParent (h n) parent).

(** [n.AddChild(child)]: the heap after the call.  A nil [child] has no
    [SetParent] to call: the call panics. *)
Definition AddChild (h : heap F) (n : handle) (child : option handle)
  : result (heap F) :=
  match child with
  | None => Panic "invalid memory address or nil pointer dereference"
  | Some c =>
      let h := SetParent h c (Some n) in
      let h := update h n (with_children (h n) (children (h n) ++ [c])) in
      Return h
  end.

Definition GetChildren (h : heap F) (n : handle) : list handle :=
  Node.GetChildren (h n).

End Defs.
End Graph.

(** ** What the specification says *)

Section Statements.
Context {F : Type} `{Scalar F} `{Approx F} `{Elementary F} `{Metric F}.
Local Open Scope scalar_scope.

(** *** The node and its cache *)

(** The TRS mutators of a node. *)
Inductive Mutator : Type :=
| SetPosition (x y z : F)
| SetPositionV (position : Vec3 F)
| TranslateX (tx : F)
| TranslateY (ty : F)
| TranslateZ (tz : F)
| SetRotation (q : Quaternion F)
| RotateAroundAxis (axis : Vec3 F) (angle : F)
| RotateX (angle : F)
| RotateY (angle : F)
| RotateZ (angle : F)
| SetScale (sx sy sz : F)
| SetScaleV (s : Vec3 F)
| ScaleX (sx : F)
| ScaleY (sy : F)
| ScaleZ (sz : F).

Definition mutate (m : Mutator) (n : Node F) : Node F :=
  match m with
  | SetPosition x y z => Node.SetPosition n x y z
  | SetPositionV position => Node.SetPositionV n position
  | TranslateX tx => Node.TranslateX n tx
  | TranslateY ty => Node.TranslateY n ty
  | TranslateZ tz => Node.TranslateZ n tz
  | SetRotation q => Node.SetRotation n q
  | RotateAroundAxis axis angle => Node.RotateAroundAxis n axis angle
  | RotateX angle => Node.RotateX n angle
  | RotateY angle => Node.RotateY n angle
  | RotateZ angle => Node.RotateZ n angle
  | SetScale sx sy sz => Node.SetScale n sx sy sz
  | SetScaleV s => Node.SetScaleV n s
  | ScaleX sx => Node.ScaleX n sx
  | ScaleY sy => Node.ScaleY n sy
  | ScaleZ sz => Node.ScaleZ n sz
  end.

(** A use of the node: a mutator call or a transform query. *)
Inductive Call : Type :=
| Mutate (m : Mutator)
| Query.

Definition call (n : Node F) (c : Call) : Node F :=
  match c with
  | Mutate m => mutate m n
  | Query => fst (Node.getTransform n)
  end.

(** The node after a sequence of calls, first call first. *)
Definition run (cs : list Call) (n : Node F) : Node F :=
  fold_left call cs n.

(** The matrix a transform query returns: the value behind the returned
    pointer, read in the node as the call left it. *)
Definition localTransform (n : Node F) : Mat4 F :=
  let '(n', p) := Node.getTransform n in Node.load p n'.

(** [T(position)]: identity with the translation column set. *)
Definition Translation (p : Vec3 F) : Mat4 F :=
  mat4 1 0 0 0  0 1 0 0  0 0 1 0  p.[0] p.[1] p.[2] 1.

(** [S(scale)] *)
Definition Scaling (s : Vec3 F) : Mat4 F :=
  mat4 s.[0] 0 0 0  0 s.[1] 0 0  0 0 s.[2] 0  0 0 0 1.

(** [T(position) * R(rotation) * S(scale)] *)
Definition TRS (p : Vec3 F) (q : Quaternion F) (s : Vec3 F) : Mat4 F :=
  Mat4.Mul4 (Mat4.Mul4 (Translation p) (Quaternion.Mat4 q)) (Scaling s).

Inductive CacheState : Type := Dirty | Clean.

Definition cache_state (n : Node F) : CacheState :=
  if transformValid n then Clean else Dirty.

(** The cache invariant of the data model: a valid cache holds the
    composition of the node's position, rotation and scale. *)
Definition coherent (n : Node F) : Prop :=
  transformValid n = true ->
  transform n = TRS (position n) (rotation n) (scale n).

(** C3 as the specification words it: the new quaternion on the left. *)
Definition rotation_premultiplied : Prop :=
  forall (n : Node F) (axis : Vec3 F) (angle : F),
    rotation (Node.RotateAroundAxis n axis angle)
    = Quaternion.Mul (Quaternion.QuatRotate angle axis) (rotation n).

(** *** Equality within a tolerance, element by element *)

Definition Vec3_within (eps : Q) (a b : Vec3 F) : Prop :=
  within eps a.[0] b.[0] /\ within eps a.[1] b.[1]
  /\ within eps a.[2] b.[2].


Definition Mat2_within (eps : Q) (a b : Mat2 F) : Prop :=
  within eps a.[0] b.[0] /\ within eps a.[1] b.[1]
  /\ within eps a.[2] b.[2] /\ within eps a.[3] b.[3].

Definition Mat3_within (eps : Q) (a b : Mat3 F) : Prop :=
  within eps a.[0] b.[0] /\ within eps a.[1] b.[1]
  /\ within eps a.[2] b.[2] /\ within eps a.[3] b.[3]
  /\ within eps a.[4] b.[4] /\ within eps a.[5] b.[5]
  /\ within eps a.[6] b.[6] /\ within eps a.[7] b.[7]
  /\ within eps a.[8] b.[8].

Definition Mat4_within (eps : Q) (a b : Mat4 F) : Prop :=
  within eps a.[0] b.[0] /\ within eps a.[1] b.[1]
  /\ within eps a.[2] b.[2] /\ within eps a.[3] b.[3]
  /\ within eps a.[4] b.[4] /\ within eps a.[5] b.[5]
  /\ within eps a.[6] b.[6] /\ within eps a.[7] b.[7]
  /\ within eps a.[8] b.[8] /\ within eps a.[9] b.[9]
  /\ within eps a.[10] b.[10] /\ within eps a.[11] b.[11]
  /\ within eps a.[12] b.[12] /\ within eps a.[13] b.[13]
  /\ within eps a.[14] b.[14] /\ within eps a.[15] b.[15].

(** *** Matrix inverse *)

(** C4 as the specification words it, with its tolerance. *)
Definition inverse_roundtrip (eps : Q) : Prop :=
  (forall m : Mat2 F, FloatEqual (Mat2.Det m) 0 = false ->
     Mat2_within eps (Mat2.Mul2 m (Mat2.Inverse m)) Ident2)
  /\ (forall m : Mat3 F, FloatEqual (Mat3.Det m) 0 = false ->
        Mat3_within eps (Mat3.Mul3 m (Mat3.Inverse m)) Ident3)
  /\ (forall m : Mat4 F, FloatEqual (Mat4.Det m) 0 = false ->
        Mat4_within eps (Mat4.Mul4 m (Mat4.Inverse m)) Ident4).

(** C6: a [Mat2x3] read as the affine 3x3 matrix it stands for. *)
Definition affine_inverse (eps : Q) : Prop :=
  forall m : Mat2x3 F, FloatEqual (Mat2x3.Det m) 0 = false ->
    Mat3_within eps (Mat2x3.Mat3 (Mat2x3.Mul2x3 m (Mat2x3.Inverse m)))
                Ident3.

(** *** Quaternions *)

(** A unit quaternion: its norm is one. *)
Definition unit (q : Quaternion F) : Prop := Quaternion.Dot q q = 1.



(** The vector part of [q * Quaternion{0, v} * conjugate(q)]. *)
Definition sandwich (q : Quaternion F) (v : Vec3 F) : Vec3 F :=
  V (Quaternion.Mul (Quaternion.Mul q (quat 0 v)) (Quaternion.Conjugated q)).

(** C8 as the specification words it. *)
Definition rotate_is_sandwich (eps : Q) : Prop :=
  forall (q : Quaternion F) (v : Vec3 F),
    unit q -> Vec3_within eps (Quaternion.Rotate q v) (sandwich q v).

(** The twelve rotation orders. *)
Definition valid_orders : list RotationOrder :=
  [XYX; XYZ; XZX; XZY; YXY; YXZ; YZY; YZX; ZYZ; ZYX; ZXZ; ZXY].

End Statements.

Arguments Mutator : clear implicits.
Arguments Call : clear implicits.

Section GraphStatements.
Context {F : Type}.

(** The two directions of a link agree: a node listed among the children
    of [p] has [p] as its parent. *)
Definition linked (h : heap F) : Prop :=
  forall p c : handle,
    In c (Graph.GetChildren h p) -> Graph.GetParent h c = Some p.

(** The position, rotation, scale and cached matrix of a node. *)
Definition placement (n : Node F)
  : Vec3 F * Quaternion F * Vec3 F * bool * Mat4 F :=
  (position n, rotation n, scale n, transformValid n, transform n).

End GraphStatements.

Section Orders.
Context {F : Type} `{Scalar F} `{Approx F} `{Elementary F}.
Local Open Scope scalar_scope.

(** The rotation about the first, then the second, then the third of
    three axes, as a product of axis rotations. *)
Definition euler (angle1 angle2 angle3 : F) (axis1 axis2 axis3 : Vec3 F)
  : Quaternion F :=
  Quaternion.Mul
    (Quaternion.Mul (Quaternion.QuatRotate angle1 axis1)
                    (Quaternion.QuatRotate angle2 axis2))
    (Quaternion.QuatRotate angle3 axis3).

Definition X_axis : Vec3 F := vec3 1 0 0.

Definition Y_axis : Vec3 F := vec3 0 1 0.

Definition Z_axis : Vec3 F := vec3 0 0 1.

End Orders.

Section NodeStatements.
Context {F : Type} `{Scalar F} `{Approx F} `{Elementary F}.
Local Open Scope scalar_scope.

(** The calls that cannot take a node from a unit rotation to another
    one: all but a [SetRotation] to a quaternion that is not a unit and a
    [RotateAroundAxis] about an axis whose length is not one. *)
Definition keeps_unit (c : Call F) : Prop :=
  match c with
  | Mutate (SetRotation q) => unit q
  | Mutate (RotateAroundAxis axis _) => Vec3.Dot axis axis = 1
  | _ => True
  end.

End NodeStatements.

(** * Theorems *)

Unset Implicit Arguments.

(** ** The node cache, for every scalar type *)

Section NodeCache.
Context {F : Type} `{Scalar F} `{Elementary F}.

Lemma getTransform_valid (n : Node F) :
  transformValid n = true -> Node.getTransform n = (n, addr_transform).
Proof. intros E. unfold Node.getTransform. now rewrite E. Qed.

Lemma getTransform_invalid (n : Node F) :
  transformValid n = false ->
  Node.getTransform n
  = (mkNode (parent n) (children n) (position n) (rotation n) (scale n)
            true (TRS (position n) (rotation n) (scale n)),
     addr_transform).
Proof. intros E. unfold Node.getTransform. now rewrite E. Qed.

Lemma mutate_invalidates (m : Mutator F) (n : Node F) :
  transformValid (mutate m n) = false.
Proof. destruct m; reflexivity. Qed.

Lemma coherent_NewNode : coherent (Node.NewNode (F := F)).
Proof. intros E. discriminate E. Qed.

Lemma coherent_mutate (m : Mutator F) (n : Node F) : coherent (mutate m n).
Proof. intros E. rewrite mutate_invalidates in E. discriminate E. Qed.

Lemma coherent_query (n : Node F) :
  coherent n -> coherent (fst (Node.getTransform n)).
Proof.
  intros Hn. destruct (transformValid n) eqn:E.
  - now rewrite getTransform_valid.
  - rewrite getTransform_invalid by assumption. intros _. reflexivity.
Qed.

Lemma coherent_call (n : Node F) (c : Call F) :
  coherent n -> coherent (call n c).
Proof.
  destruct c as [m|]; intros Hn.
  - apply coherent_mutate.
  - now apply coherent_query.
Qed.

Lemma coherent_run (cs : list (Call F)) (n : Node F) :
  coherent n -> coherent (run cs n).
Proof.
  revert n. induction cs as [|c cs IH]; intros n Hn.
  - exact Hn.
  - apply IH. now apply coherent_call.
Qed.

Lemma localTransform_coherent (n : Node F) :
  coherent n ->
  localTransform n = TRS (position n) (rotation n) (scale n).
Proof.
  intros Hn. unfold localTransform. destruct (transformValid n) eqn:E.
  - rewrite getTransform_valid by assumption. now apply Hn.
  - now rewrite getTransform_invalid.
Qed.

(** C1. After any sequence of calls on a new node (TRS mutators, with
    transform queries anywhere between them), and after any sequence of
    calls that starts with a TRS mutator on any node whatever, the matrix
    a transform query returns is [T(position) * R(rotation) * S(scale)]
    of the node's current position, rotation and scale. *)
Theorem getTransform_is_TRS :
  (forall cs : list (Call F),
     let n := run cs Node.NewNode in
     localTransform n = TRS (position n) (rotation n) (scale n))
  /\ (forall (n0 : Node F) (m : Mutator F) (cs : list (Call F)),
        let n := run cs (mutate m n0) in
        localTransform n = TRS (position n) (rotation n) (scale n)).
Proof.
  split.
  - intros cs n.
    apply localTransform_coherent, coherent_run, coherent_NewNode.
  - intros n0 m cs n.
    apply localTransform_coherent, coherent_run, coherent_mutate.
Qed.

(** C2. The cache is the machine [{Dirty, Clean}]: a new node is
    [Dirty]; every TRS mutator leaves the node [Dirty]; a query leaves it
    [Clean]; on a [Dirty] node a query recomposes the matrix and sets the
    flag; on a [Clean] node a query changes nothing in the node and
    returns the stored matrix, so a second query returns the matrix of
    the first. *)
Theorem cache_state_machine :
  cache_state (Node.NewNode (F := F)) = Dirty
  /\ (forall (m : Mutator F) (n : Node F), cache_state (mutate m n) = Dirty)
  /\ (forall n : Node F, cache_state (fst (Node.getTransform n)) = Clean)
  /\ (forall n : Node F, cache_state n = Dirty ->
        localTransform n = TRS (position n) (rotation n) (scale n)
        /\ transform (fst (Node.getTransform n)) = localTransform n)
  /\ (forall n : Node F, cache_state n = Clean ->
        Node.getTransform n = (n, addr_transform)
        /\ localTransform n = transform n)
  /\ (forall n : Node F,
        let n1 := fst (Node.getTransform n) in
        Node.getTransform n1 = (n1, addr_transform)
        /\ localTransform n1 = localTransform n).
Proof.
  unfold cache_state. split; [reflexivity|].
  split; [intros m n; now rewrite mutate_invalidates|].
  split.
  { intros n. destruct (transformValid n) eqn:E.
    - rewrite getTransform_valid by assumption. cbn [fst]. now rewrite E.
    - now rewrite getTransform_invalid. }
  split.
  { intros n Hd. destruct (transformValid n) eqn:E; [discriminate|].
    unfold localTransform. rewrite getTransform_invalid by assumption.
    split; reflexivity. }
  split.
  { intros n Hc. destruct (transformValid n) eqn:E; [|discriminate].
    unfold localTransform. rewrite getTransform_valid by assumption.
    split; reflexivity. }
  intros n. cbv zeta. unfold localTransform.
  destruct (transformValid n) eqn:E.
  - rewrite !(getTransform_valid n E). cbn [fst].
    rewrite !(getTransform_valid n E). split; reflexivity.
  - rewrite !(getTransform_invalid n E). split; reflexivity.
Qed.

(** C3, amended.  [RotateAroundAxis] multiplies the node's rotation by the
    axis-angle quaternion on the right, and marks the cache invalid. *)
Theorem RotateAroundAxis_multiplies_on_the_right
  (n : Node F) (axis : Vec3 F) (angle : F) :
  rotation (Node.RotateAroundAxis n axis angle)
  = Quaternion.Mul (rotation n) (Quaternion.QuatRotate angle axis)
  /\ transformValid (Node.RotateAroundAxis n axis angle) = false.
Proof. split; reflexivity. Qed.

End NodeCache.

(** ** The numeric kernel, for every scalar type *)

Section Kernel.
Context {F : Type} `{Scalar F} `{Approx F} `{Elementary F}.
Local Open Scope scalar_scope.

(** C5. [Inverse] of a 2x2, 3x3 or 4x4 matrix is a total function: when
    the determinant is numerically zero it returns the all-zero matrix,
    and otherwise it returns the scaled cofactor matrix, not the zero
    matrix of the first branch. *)
Theorem Inverse_of_singular_is_zero :
  (forall m : Mat2 F,
     Mat2.Inverse m
     = if FloatEqual (Mat2.Det m) 0 then mat2 0 0 0 0
       else mat2 (m.[3] * (1 / Mat2.Det m)) (- m.[1] * (1 / Mat2.Det m))
                 (- m.[2] * (1 / Mat2.Det m)) (m.[0] * (1 / Mat2.Det m)))
  /\ (forall m : Mat3 F,
        Mat3.Inverse m
        = if FloatEqual (Mat3.Det m) 0 then mat3 0 0 0 0 0 0 0 0 0
          else Mat3.Mul (Mat3.Inverse_retMat m) (1 / Mat3.Det m))
  /\ (forall m : Mat4 F,
        Mat4.Inverse m
        = if FloatEqual (Mat4.Det m) 0
          then mat4 0 0 0 0 0 0 0 0 0 0 0 0 0 0 0 0
          else Mat4.Mul (Mat4.Inverse_retMat m) (1 / Mat4.Det m)).
Proof. repeat split. Qed.

Lemma order_cases (order : RotationOrder) :
  In order valid_orders
  \/ ((order =? ZYX) = false /\ (order =? ZYZ) = false
      /\ (order =? ZXY) = false /\ (order =? ZXZ) = false
      /\ (order =? YXZ) = false /\ (order =? YXY) = false
      /\ (order =? YZX) = false /\ (order =? YZY) = false
      /\ (order =? XYZ) = false /\ (order =? XYX) = false
      /\ (order =? XZY) = false /\ (order =? XZX) = false)%Z.
Proof.
  unfold valid_orders.
  destruct (Z.eqb_spec order ZYX); [left; subst; cbn; tauto|].
  destruct (Z.eqb_spec order ZYZ); [left; subst; cbn; tauto|].
  destruct (Z.eqb_spec order ZXY); [left; subst; cbn; tauto|].
  destruct (Z.eqb_spec order ZXZ); [left; subst; cbn; tauto|].
  destruct (Z.eqb_spec order YXZ); [left; subst; cbn; tauto|].
  destruct (Z.eqb_spec order YXY); [left; subst; cbn; tauto|].
  destruct (Z.eqb_spec order YZX); [left; subst; cbn; tauto|].
  destruct (Z.eqb_spec order YZY); [left; subst; cbn; tauto|].
  destruct (Z.eqb_spec order XYZ); [left; subst; cbn; tauto|].
  destruct (Z.eqb_spec order XYX); [left; subst; cbn; tauto|].
  destruct (Z.eqb_spec order XZY); [left; subst; cbn; tauto|].
  destruct (Z.eqb_spec order XZX); [left; subst; cbn; tauto|].
  right. tauto.
Qed.

Lemma AnglesToQuat_invalid (a1 a2 a3 : F) (order : RotationOrder) :
  ~ In order valid_orders ->
  Quaternion.AnglesToQuat a1 a2 a3 order = Panic "Unsupported rotation order".
Proof.
  intros Hn. destruct (order_cases order) as [Hin | Hne]; [contradiction|].
  unfold Quaternion.AnglesToQuat, Quaternion.Sincos.
  destruct Hne as (E1 & E2 & E3 & E4 & E5 & E6 & E7 & E8 & E9 & E10 & E11 & E12).
  now rewrite E1, E2, E3, E4, E5, E6, E7, E8, E9, E10, E11, E12.
Qed.

Lemma AnglesToQuat_valid (a1 a2 a3 : F) (order : RotationOrder) :
  In order valid_orders ->
  exists q, Quaternion.AnglesToQuat a1 a2 a3 order = Return q.
Proof.
  unfold valid_orders. cbn [In]. intros Hin.
  repeat (destruct Hin as [<- | Hin]; [eexists; reflexivity|]).
  contradiction.
Qed.

Example AnglesToQuat_order_12 (a1 a2 a3 : F) :
  Quaternion.AnglesToQuat a1 a2 a3 12%Z
  = Panic "Unsupported rotation order".
Proof. reflexivity. Qed.

Example AnglesToQuat_order_ZXY (a1 a2 a3 : F) :
  exists q, Quaternion.AnglesToQuat a1 a2 a3 ZXY = Return q.
Proof. eexists. reflexivity. Qed.

(** C9. [AnglesToQuat] panics exactly when the order is none of the
    twelve rotation orders, and returns a quaternion for each of the
    twelve. *)
Theorem AnglesToQuat_panics_iff_invalid_order
  (a1 a2 a3 : F) (order : RotationOrder) :
  ((exists msg, Quaternion.AnglesToQuat a1 a2 a3 order = Panic msg)
   <-> ~ In order valid_orders)
  /\ ((exists q, Quaternion.AnglesToQuat a1 a2 a3 order = Return q)
      <-> In order valid_orders).
Proof.
  split; split.
  - intros [msg Hp] Hin.
    destruct (AnglesToQuat_valid a1 a2 a3 order Hin) as [q Hq].
    rewrite Hq in Hp. discriminate Hp.
  - intros Hn. eexists. now apply AnglesToQuat_invalid.
  - intros [q Hq]. destruct (order_cases order) as [Hin | Hne]; [exact Hin|].
    rewrite AnglesToQuat_invalid in Hq; [discriminate Hq|].
    intros Hin. unfold valid_orders in Hin. cbn [In] in Hin.
    destruct Hne as (E1 & E2 & E3 & E4 & E5 & E6 & E7 & E8 & E9 & E10 & E11 & E12).
    repeat (destruct Hin as [<- | Hin]; [discriminate|]). contradiction.
  - apply AnglesToQuat_valid.
Qed.

End Kernel.

(** ** The memory friendly methods, for every scalar type *)

Section InPlace.
Context {F : Type} `{Scalar F} `{Approx F}.

Lemma Mat2_Invert_Inverse (m1 : Mat2 F) : Mat2.Invert m1 = Mat2.Inverse m1.
Proof. reflexivity. Qed.

Lemma Mat2_InverseOf_Inverse (m1 : Mat2 F) (m2 : operand (Mat2 F)) :
  Mat2.InverseOf m1 m2 = Mat2.Inverse (deref m1 m2).
Proof. reflexivity. Qed.

Lemma Mat3_Invert_Inverse (m1 : Mat3 F) : Mat3.Invert m1 = Mat3.Inverse m1.
Proof.
  unfold Mat3.Invert, Mat3.Inverse.
  destruct (FloatEqual _ _); [reflexivity|]. destruct m1. reflexivity.
Qed.

Lemma Mat3_InverseOf_Inverse (m1 : Mat3 F) (m2 : operand (Mat3 F)) :
  Mat3.InverseOf m1 m2 = Mat3.Inverse (deref m1 m2).
Proof.
  unfold Mat3.InverseOf, Mat3.Inverse.
  destruct (FloatEqual _ _); [reflexivity|].
  destruct m2 as [|a]; [destruct m1 | destruct m1, a]; reflexivity.
Qed.

Lemma Mat4_Invert_Inverse (m1 : Mat4 F) : Mat4.Invert m1 = Mat4.Inverse m1.
Proof.
  unfold Mat4.Invert, Mat4.Inverse.
  destruct (FloatEqual _ _); [reflexivity|]. destruct m1. reflexivity.
Qed.

Lemma Mat4_InverseOf_Inverse (m1 : Mat4 F) (m2 : operand (Mat4 F)) :
  Mat4.InverseOf m1 m2 = Mat4.Inverse (deref m1 m2).
Proof.
  unfold Mat4.InverseOf, Mat4.Inverse.
  destruct (FloatEqual _ _); [reflexivity|].
  destruct m2 as [|a]; [destruct m1 | destruct m1, a]; reflexivity.
Qed.

(** X1.  [Invert] and [InverseOf] leave in the receiver exactly what
    [Inverse] returns, bit for bit in every scalar type: the same
    determinant test, the same formulas in the same order.  [InverseOf]
    copies its argument before it stores, so the argument may be the
    receiver. *)
Theorem Invert_and_InverseOf_compute_Inverse :
  (forall m1 : Mat2 F, Mat2.Invert m1 = Mat2.Inverse m1)
  /\ (forall (m1 : Mat2 F) (m2 : operand (Mat2 F)),
        Mat2.InverseOf m1 m2 = Mat2.Inverse (deref m1 m2))
  /\ (forall m1 : Mat3 F, Mat3.Invert m1 = Mat3.Inverse m1)
  /\ (forall (m1 : Mat3 F) (m2 : operand (Mat3 F)),
        Mat3.InverseOf m1 m2 = Mat3.Inverse (deref m1 m2))
  /\ (forall m1 : Mat4 F, Mat4.Invert m1 = Mat4.Inverse m1)
  /\ (forall (m1 : Mat4 F) (m2 : operand (Mat4 F)),
        Mat4.InverseOf m1 m2 = Mat4.Inverse (deref m1 m2)).
Proof.
  repeat match goal with |- _ /\ _ => split end.
  - exact Mat2_Invert_Inverse.
  - exact Mat2_InverseOf_Inverse.
  - exact Mat3_Invert_Inverse.
  - exact Mat3_InverseOf_Inverse.
  - exact Mat4_Invert_Inverse.
  - exact Mat4_InverseOf_Inverse.
Qed.

(** X2.  The memory friendly products agree with the pure ones when
    their arguments are objects other than the receiver: [MulNOf] then
    leaves the product of its arguments, [MulNWith] the product of the
    receiver and its argument, and the scalar [MulWith] what [Mul]
    returns.  [Mul4With] computes all sixteen sums before it stores the
    first, so its argument may even be the receiver: [m.Mul4With(&m)]
    squares [m]. *)
Theorem memory_friendly_products :
  (forall m1 a b : Mat2 F,
     Mat2.Mul2Of m1 (Object a) (Object b) = Mat2.Mul2 a b
     /\ Mat2.Mul2With m1 (Object b) = Mat2.Mul2 m1 b)
  /\ (forall m1 a b : Mat3 F,
        Mat3.Mul3Of m1 (Object a) (Object b) = Mat3.Mul3 a b
        /\ Mat3.Mul3With m1 (Object b) = Mat3.Mul3 m1 b)
  /\ (forall m1 a b : Mat4 F,
        Mat4.Mul4Of m1 (Object a) (Object b) = Mat4.Mul4 a b)
  /\ (forall (m1 : Mat4 F) (m2 : operand (Mat4 F)),
        Mat4.Mul4With m1 m2 = Mat4.Mul4 m1 (deref m1 m2))
  /\ (forall (m1 : Mat2 F) (c : F), Mat2.MulWith m1 c = Mat2.Mul m1 c)
  /\ (forall (m1 : Mat3 F) (c : F), Mat3.MulWith m1 c = Mat3.Mul m1 c)
  /\ (forall (m1 : Mat4 F) (c : F), Mat4.MulWith m1 c = Mat4.Mul m1 c).
Proof.
  repeat match goal with |- _ /\ _ => split end.
  - intros m1 a b. destruct m1. split; reflexivity.
  - intros m1 a b. destruct m1. split; reflexivity.
  - intros m1 a b. destruct m1. reflexivity.
  - intros m1 m2. destruct m2; destruct m1; reflexivity.
  - intros m1 c. destruct m1. reflexivity.
  - intros m1 c. destruct m1. reflexivity.
  - intros m1 c. destruct m1. reflexivity.
Qed.

(** X3.  [Transpose] leaves what [Transposed] returns, and so does
    [TransposeOf] of an object other than the receiver.  [Mat2.TransposeOf]
    is one tuple assignment and also transposes the receiver itself; the
    3x3 and 4x4 [TransposeOf] store element by element, and
    [m.TransposeOf(&m)] leaves the transpose exactly when [m] is
    symmetric (it copies the elements above the diagonal over those
    below). *)
Theorem Transpose_and_TransposeOf :
  (forall m1 : Mat2 F, Mat2.Transpose m1 = Mat2.Transposed m1)
  /\ (forall m1 : Mat3 F, Mat3.Transpose m1 = Mat3.Transposed m1)
  /\ (forall m1 : Mat4 F, Mat4.Transpose m1 = Mat4.Transposed m1)
  /\ (forall (m1 : Mat2 F) (m2 : operand (Mat2 F)),
        Mat2.TransposeOf m1 m2 = Mat2.Transposed (deref m1 m2))
  /\ (forall m1 a : Mat3 F,
        Mat3.TransposeOf m1 (Object a) = Mat3.Transposed a)
  /\ (forall m1 a : Mat4 F,
        Mat4.TransposeOf m1 (Object a) = Mat4.Transposed a)
  /\ (forall m1 : Mat3 F,
        Mat3.TransposeOf m1 Receiver = Mat3.Transposed m1
        <-> Mat3.Transposed m1 = m1)
  /\ (forall m1 : Mat4 F,
        Mat4.TransposeOf m1 Receiver = Mat4.Transposed m1
        <-> Mat4.Transposed m1 = m1).
Proof.
  repeat match goal with |- _ /\ _ => split end.
  - intros m1. destruct m1. reflexivity.
  - intros m1. destruct m1. reflexivity.
  - intros m1. destruct m1. reflexivity.
  - intros m1 m2. destruct m2; destruct m1; reflexivity.
  - intros m1 a. destruct m1. reflexivity.
  - intros m1 a. destruct m1. reflexivity.
  - intros m1. destruct m1. unfold Mat3.TransposeOf, Mat3.Transposed. cbn.
    split; intros E; injection E; intros; subst; reflexivity.
  - intros m1. destruct m1. unfold Mat4.TransposeOf, Mat4.Transposed. cbn.
    split; intros E; injection E; intros; subst; reflexivity.
Qed.

End InPlace.

(** ** Conversions between the matrix types, for every scalar type *)

Section Shapes.
Context {F : Type} `{Scalar F} `{Approx F} `{Elementary F}.

(** X4.  Widening a matrix and narrowing it again gives the matrix back,
    for each pair of conversions; widening in two steps is widening in
    one; and the rotation matrices of a quaternion agree: [q.Mat4()] is
    [q.Mat3()] widened, and it is the rotation part that
    [SetOrientationAndPos] stores. *)
Theorem conversions_round_trip :
  (forall m : Mat2 F, Mat3.Mat2 (Mat2.Mat3 m) = m)
  /\ (forall m : Mat2 F, Mat4.Mat2 (Mat2.Mat4 m) = m)
  /\ (forall m : Mat3 F, Mat4.Mat3 (Mat3.Mat4 m) = m)
  /\ (forall m : Mat2x3 F, Mat3.Mat2x3 (Mat2x3.Mat3 m) = m)
  /\ (forall m : Mat3x4 F, Mat4.Mat3x4 (Mat3x4.Mat4 m) = m)
  /\ (forall m : Mat2 F, Mat3.Mat4 (Mat2.Mat3 m) = Mat2.Mat4 m)
  /\ (forall m : Mat3 F, Mat4.Mat3x4 (Mat3.Mat4 m) = Mat3.Mat3x4 m)
  /\ (forall m : Mat2x3 F, Mat3.Mat2 (Mat2x3.Mat3 m) = Mat2x3.Mat2 m)
  /\ (forall q : Quaternion F, Mat3.Mat4 (Quaternion.Mat3 q) = Quaternion.Mat4 q)
  /\ (forall (m : Mat3x4 F) (q : Quaternion F) (p : Vec3 F),
        Mat4.Mat3 (Mat3x4.Mat4 (Mat3x4.SetOrientationAndPos m q p))
        = Quaternion.Mat3 q).
Proof.
  repeat match goal with |- _ /\ _ => split end;
    intros m; try (destruct m; reflexivity); reflexivity.
Qed.

End Shapes.

(** ** The scene graph, for every scalar type *)

Section SceneGraph.
Context {F : Type}.

Lemma update_same (h : heap F) (a : handle) (n : Node F) :
  Graph.update h a n a = n.
Proof. unfold Graph.update. now rewrite Nat.eqb_refl. Qed.

Lemma update_other (h : heap F) (a b : handle) (n : Node F) :
  b <> a -> Graph.update h a n b = h b.
Proof.
  intros Hb. unfold Graph.update.
  now destruct (Nat.eqb_spec b a).
Qed.

(** The heap [n.AddChild(c)] leaves. *)
Lemma AddChild_heap (h : heap F) (n c : handle) :
  exists h' : heap F,
    Graph.AddChild h n (Some c) = Return h'
    /\ Graph.GetParent h' c = Some n
    /\ Graph.GetChildren h' n = Graph.GetChildren h n ++ [c]
    /\ (forall m, m <> n -> Graph.GetChildren h' m = Graph.GetChildren h m)
    /\ (forall m, m <> c -> Graph.GetParent h' m = Graph.GetParent h m)
    /\ (forall m, placement (h' m) = placement (h m)).
Proof.
  eexists. split; [reflexivity|].
  unfold Graph.GetParent, Graph.GetChildren, Graph.SetParent, Node.GetParent,
    Node.GetChildren, Node.SetParent, Graph.with_children, placement.
  repeat split.
  - destruct (Nat.eq_dec c n) as [-> | Hc].
    + rewrite update_same. cbn. now rewrite update_same.
    + rewrite update_other by exact Hc. now rewrite update_same.
  - rewrite !update_same. cbn.
    destruct (Nat.eq_dec n c) as [-> | Hc].
    + now rewrite update_same.
    + now rewrite update_other by exact Hc.
  - intros m Hm. rewrite update_other by exact Hm.
    destruct (Nat.eq_dec m c) as [-> | Hc].
    + now rewrite update_same.
    + now rewrite update_other by exact Hc.
  - intros m Hm.
    destruct (Nat.eq_dec m n) as [-> | Hn].
    + rewrite !update_same. cbn. now rewrite update_other by exact Hm.
    + rewrite update_other by exact Hn. now rewrite update_other by exact Hm.
  - intros m.
    destruct (Nat.eq_dec m n) as [-> | Hn].
    + rewrite !update_same. cbn.
      destruct (Nat.eq_dec n c) as [-> | Hc].
      * now rewrite update_same.
      * now rewrite update_other by exact Hc.
    + rewrite update_other by exact Hn.
      destruct (Nat.eq_dec m c) as [-> | Hc].
      * now rewrite update_same.
      * now rewrite update_other by exact Hc.
Qed.

(** X5.  [n.AddChild(c)] with a non-nil [c] always returns.  Afterwards
    [c]'s parent is [n] and [c] is the last of [n]'s children; no other
    parent link and no other children list changes, and no node's
    position, rotation, scale or cached matrix changes.  Nothing is
    checked: [c] may be [n] itself, or already a child of [n]. *)
Theorem AddChild_links_and_frames (h : heap F) (n c : handle) :
  exists h' : heap F,
    Graph.AddChild h n (Some c) = Return h'
    /\ Graph.GetParent h' c = Some n
    /\ Graph.GetChildren h' n = Graph.GetChildren h n ++ [c]
    /\ (forall m, m <> n -> Graph.GetChildren h' m = Graph.GetChildren h m)
    /\ (forall m, m <> c -> Graph.GetParent h' m = Graph.GetParent h m)
    /\ (forall m, placement (h' m) = placement (h m)).
Proof. apply AddChild_heap. Qed.

(** X6.  Adding a node that no children list holds keeps the two
    directions of the links in agreement: if every listed child had its
    lister as parent before the call, it has after. *)
Theorem AddChild_of_unlisted_keeps_linked (h h' : heap F) (n c : handle) :
  linked h ->
  (forall p, ~ In c (Graph.GetChildren h p)) ->
  Graph.AddChild h n (Some c) = Return h' ->
  linked h'.
Proof.
  intros Hl Hc E.
  destruct (AddChild_heap h n c) as (h'' & E' & Hp & Hn & Hch & Hpa & _).
  rewrite E in E'. injection E' as <-.
  intros p x Hin.
  destruct (Nat.eq_dec x c) as [-> | Hx].
  - destruct (Nat.eq_dec p n) as [-> | Hpn]; [exact Hp|].
    rewrite Hch in Hin by exact Hpn. now apply Hc in Hin.
  - rewrite Hpa by exact Hx. apply Hl.
    destruct (Nat.eq_dec p n) as [-> | Hpn].
    + rewrite Hn in Hin. apply in_app_or in Hin.
      destruct Hin as [Hin | [<- | []]]; [exact Hin | contradiction].
    + now rewrite Hch in Hin by exact Hpn.
Qed.

(** X7.  [AddChild] never detaches: a node that is a child of [p] and is
    added to another node [n] is afterwards in the children lists of
    both, with [n] as its parent, so the links no longer agree. *)
Theorem AddChild_does_not_detach (h h' : heap F) (p n c : handle) :
  In c (Graph.GetChildren h p) ->
  p <> n ->
  Graph.AddChild h n (Some c) = Return h' ->
  In c (Graph.GetChildren h' p)
  /\ In c (Graph.GetChildren h' n)
  /\ Graph.GetParent h' c = Some n
  /\ ~ linked h'.
Proof.
  intros Hin Hpn E.
  destruct (AddChild_heap h n c) as (h'' & E' & Hp & Hn & Hch & _).
  rewrite E in E'. injection E' as <-.
  assert (Hin' : In c (Graph.GetChildren h' p)) by now rewrite Hch.
  repeat split; trivial.
  - rewrite Hn. apply in_or_app. right. now left.
  - intros Hl. apply Hl in Hin'. rewrite Hp in Hin'. congruence.
Qed.

End SceneGraph.

(** X6 for a heap of new nodes: node [1] is added to node [0]. *)
Lemma AddChild_of_unlisted_keeps_linked_witness :
  exists h' : heap R,
    Graph.AddChild (fun _ => Node.NewNode) 0%nat (Some 1%nat) = Return h'
    /\ linked h'.
Proof.
  eexists. split; [reflexivity|].
  apply (AddChild_of_unlisted_keeps_linked (fun _ => Node.NewNode) _
           0%nat 1%nat).
  - intros p c Hin. destruct Hin.
  - intros p Hin. destruct Hin.
  - reflexivity.
Defined.

(** X7 for a heap where node [2] is a child of node [0], and is added to
    node [1]. *)
Lemma AddChild_does_not_detach_witness :
  exists h' : heap R,
    Graph.AddChild
      (Graph.update (fun _ => Node.NewNode) 0%nat
         (Graph.with_children Node.NewNode [2%nat]))
      1%nat (Some 2%nat) = Return h'
    /\ In 2%nat (Graph.GetChildren h' 0%nat)
    /\ In 2%nat (Graph.GetChildren h' 1%nat)
    /\ Graph.GetParent h' 2%nat = Some 1%nat
    /\ ~ linked h'.
Proof.
  eexists. split; [reflexivity|].
  apply (AddChild_does_not_detach
           (Graph.update (fun _ => Node.NewNode) 0%nat
              (Graph.with_children Node.NewNode [2%nat]))
           _ 0%nat 1%nat 2%nat).
  - left. reflexivity.
  - discriminate.
  - reflexivity.
Defined.

(** ** Elements by row and column, for every scalar type *)

Section Elements.
Context {F : Type} `{Scalar F} `{Approx F}.
Local Open Scope Z_scope.

Lemma wrap_small (z : Z) : - 2 ^ 63 <= z < 2 ^ 63 -> Int.wrap z = z.
Proof.
  intros Hz. unfold Int.wrap.
  rewrite Z.mod_small by lia. lia.
Qed.

Lemma Index_small (row col : Z) :
  - 2 ^ 60 <= row < 2 ^ 60 -> - 2 ^ 60 <= col < 2 ^ 60 ->
  Mat4.Index row col = 4 * col + row.
Proof.
  intros Hr Hc. unfold Mat4.Index, Int.add, Int.mul.
  rewrite (wrap_small (col * 4)) by lia. rewrite wrap_small by lia. lia.
Qed.

Lemma load_index_Some {A : Type} `{Indexed A F} (len : Z) (m : A) (i : Z) :
  load_index len m i <> None <-> 0 <= i < len.
Proof.
  unfold load_index.
  destruct (Z.leb_spec 0 i), (Z.ltb_spec i len); cbn; split;
    intros; try lia; try congruence.
Qed.

Lemma load_index_None {A : Type} `{Indexed A F} (len : Z) (m : A) (i : Z) :
  ~ 0 <= i < len -> load_index len m i = None.
Proof.
  intros Hi. destruct (load_index len m i) eqn:E; [|reflexivity].
  exfalso. apply Hi. apply (load_index_Some len m i). congruence.
Qed.

Lemma Mat4_assign_same (m : Mat4 F) (i : Z) (x : F) :
  0 <= i < 16 -> (m.[Z.to_nat i <- x]).[Z.to_nat i] = x.
Proof.
  intros Hi. destruct m.
  assert (Hc : i = 0 \/ i = 1 \/ i = 2 \/ i = 3 \/ i = 4 \/ i = 5 \/ i = 6
               \/ i = 7 \/ i = 8 \/ i = 9 \/ i = 10 \/ i = 11 \/ i = 12
               \/ i = 13 \/ i = 14 \/ i = 15) by lia.
  repeat (destruct Hc as [-> | Hc]; [reflexivity|]). now subst.
Qed.

Lemma Mat4_assign_other (m : Mat4 F) (i j : Z) (x : F) :
  0 <= i < 16 -> 0 <= j < 16 -> j <> i ->
  (m.[Z.to_nat i <- x]).[Z.to_nat j] = m.[Z.to_nat j].
Proof.
  intros Hi Hj Hij. destruct m.
  assert (Hc : i = 0 \/ i = 1 \/ i = 2 \/ i = 3 \/ i = 4 \/ i = 5 \/ i = 6
               \/ i = 7 \/ i = 8 \/ i = 9 \/ i = 10 \/ i = 11 \/ i = 12
               \/ i = 13 \/ i = 14 \/ i = 15) by lia.
  assert (Hd : j = 0 \/ j = 1 \/ j = 2 \/ j = 3 \/ j = 4 \/ j = 5 \/ j = 6
               \/ j = 7 \/ j = 8 \/ j = 9 \/ j = 10 \/ j = 11 \/ j = 12
               \/ j = 13 \/ j = 14 \/ j = 15) by lia.
  repeat (destruct Hc as [-> | Hc]);
    repeat (destruct Hd as [-> | Hd]); try reflexivity; try lia; subst;
    try reflexivity; lia.
Qed.

Lemma Mat4_Row_in_range (m : Mat4 F) (row : Z) :
  0 <= row < 4 ->
  Mat4.Row m row
  = Some (vec4 m.[Z.to_nat row] m.[Z.to_nat (row + 4)]
               m.[Z.to_nat (row + 8)] m.[Z.to_nat (row + 12)]).
Proof.
  intros Hr.
  assert (Hc : row = 0 \/ row = 1 \/ row = 2 \/ row = 3) by lia.
  destruct Hc as [-> | [-> | [-> | ->]]]; reflexivity.
Qed.

Lemma Mat4_Col_in_range (m : Mat4 F) (col : Z) :
  0 <= col < 4 ->
  Mat4.Col m col
  = Some (vec4 m.[Z.to_nat (4 * col)] m.[Z.to_nat (4 * col + 1)]
               m.[Z.to_nat (4 * col + 2)] m.[Z.to_nat (4 * col + 3)]).
Proof.
  intros Hr.
  assert (Hc : col = 0 \/ col = 1 \/ col = 2 \/ col = 3) by lia.
  destruct Hc as [-> | [-> | [-> | ->]]]; reflexivity.
Qed.

(** X8.  [At] checks the index into the array, not the row and the
    column: for rows and columns of 32 bits it returns exactly when
    [0 <= 4 * col + row < 16], and a row four too large reads the next
    column, [m.At(row + 4, col) = m.At(row, col + 1)], where a bounds
    check on the row would panic. *)
Theorem Mat4_At_checks_the_index_only (m : Mat4 F) (row col : Z) :
  - 2 ^ 32 <= row < 2 ^ 32 -> - 2 ^ 32 <= col < 2 ^ 32 ->
  (Mat4.At m row col <> None <-> 0 <= 4 * col + row < 16)
  /\ Mat4.At m (row + 4) col = Mat4.At m row (col + 1).
Proof.
  intros Hr Hc. unfold Mat4.At.
  change (Int.add (Int.mul ?c 4) ?r) with (Mat4.Index r c).
  split.
  - rewrite load_index_Some. rewrite Index_small by lia. reflexivity.
  - rewrite !Index_small by lia. f_equal. lia.
Qed.

(** X9.  When [Set] returns, [At] at the same row and column returns
    the value stored, and [At] at every row and column of another index
    returns what it returned before. *)
Theorem Mat4_Set_then_At (m m' : Mat4 F) (row col : Z) (value : F) :
  Mat4.Set_ m row col value = Some m' ->
  Mat4.At m' row col = Some value
  /\ (forall row' col' : Z,
        Mat4.Index row' col' <> Mat4.Index row col ->
        Mat4.At m' row' col' = Mat4.At m row' col').
Proof.
  unfold Mat4.Set_, Mat4.At, store_index, load_index.
  change (Int.add (Int.mul col 4) row) with (Mat4.Index row col).
  destruct (Z.leb_spec 0 (Mat4.Index row col)); [|discriminate].
  destruct (Z.ltb_spec (Mat4.Index row col) 16); [|discriminate].
  cbn [andb]. intros [= <-]. split.
  - f_equal. apply Mat4_assign_same. lia.
  - intros row' col'.
    change (Int.add (Int.mul col' 4) row') with (Mat4.Index row' col').
    intros Hne.
    destruct (Z.leb_spec 0 (Mat4.Index row' col')); [|reflexivity].
    destruct (Z.ltb_spec (Mat4.Index row' col') 16); [|reflexivity].
    cbn [andb]. f_equal. apply Mat4_assign_other; lia.
Qed.

(** X10.  [Row] and [Col] return exactly for the rows and columns
    [0 .. 3], and panic for every other argument (of absolute value
    below [2^60]): unlike [At], they read elements that bound the row or
    the column.  [Rows] and [Cols] always return, [Mat4FromRows] and
    [Mat4FromCols] rebuild the matrix from what they return, and the
    matrix built from rows is the transpose of the matrix built from the
    same vectors as columns. *)
Theorem Mat4_Rows_and_Cols (m : Mat4 F) :
  (forall k : Z, - 2 ^ 60 <= k < 2 ^ 60 ->
     (Mat4.Row m k <> None <-> 0 <= k < 4)
     /\ (Mat4.Col m k <> None <-> 0 <= k < 4))
  /\ (exists r0 r1 r2 r3 : Vec4 F,
        Mat4.Rows m = Some (r0, r1, r2, r3) /\ Mat4.FromRows r0 r1 r2 r3 = m)
  /\ (exists c0 c1 c2 c3 : Vec4 F,
        Mat4.Cols m = Some (c0, c1, c2, c3) /\ Mat4.FromCols c0 c1 c2 c3 = m)
  /\ (forall a b c d : Vec4 F,
        Mat4.FromRows a b c d = Mat4.Transposed (Mat4.FromCols a b c d)).
Proof.
  split; [|split; [|split]].
  - intros k Hk. split; split.
    + intros Hn. destruct (Z_lt_dec k 0) as [Hneg | Hpos].
      * exfalso. apply Hn. unfold Mat4.Row.
        rewrite load_index_None; [reflexivity|].
        unfold Int.add. rewrite wrap_small by lia. lia.
      * destruct (Z_lt_dec k 4) as [Hlt | Hge]; [lia|].
        exfalso. apply Hn. unfold Mat4.Row.
        destruct (load_index 16 m (Int.add k 0)); [|reflexivity].
        destruct (load_index 16 m (Int.add k 4)); [|reflexivity].
        destruct (load_index 16 m (Int.add k 8)); [|reflexivity].
        rewrite load_index_None; [reflexivity|].
        unfold Int.add. rewrite wrap_small by lia. lia.
    + intros Hr. now rewrite Mat4_Row_in_range.
    + intros Hn. destruct (Z_lt_dec k 0) as [Hneg | Hpos].
      * exfalso. apply Hn. unfold Mat4.Col.
        rewrite load_index_None; [reflexivity|].
        unfold Int.add, Int.mul. rewrite (wrap_small (k * 4)) by lia.
        rewrite wrap_small by lia. lia.
      * destruct (Z_lt_dec k 4) as [Hlt | Hge]; [lia|].
        exfalso. apply Hn. unfold Mat4.Col.
        rewrite load_index_None; [reflexivity|].
        unfold Int.add, Int.mul. rewrite (wrap_small (k * 4)) by lia.
        rewrite wrap_small by lia. lia.
    + intros Hr. now rewrite Mat4_Col_in_range.
  - destruct m. do 4 eexists. split; reflexivity.
  - destruct m. do 4 eexists. split; reflexivity.
  - intros a b c d. reflexivity.
Qed.

End Elements.

(** X8 at row [3], column [1] of the identity. *)
Lemma Mat4_At_checks_the_index_only_witness :
  (Mat4.At (@Ident4 R _) 3 1 <> None <-> (0 <= 4 * 1 + 3 < 16)%Z)
  /\ Mat4.At (@Ident4 R _) (3 + 4) 1 = Mat4.At (@Ident4 R _) 3 (1 + 1).
Proof.
  apply (Mat4_At_checks_the_index_only (@Ident4 R _) 3 1); lia.
Defined.

(** X9 for a store at row [1], column [2] of the identity. *)
Lemma Mat4_Set_then_At_witness :
  exists m' : Mat4 R,
    Mat4.Set_ Ident4 1 2 (lit 2) = Some m'
    /\ Mat4.At m' 1 2 = Some (lit 2)
    /\ (forall row' col' : Z,
          Mat4.Index row' col' <> Mat4.Index 1 2 ->
          Mat4.At m' row' col' = Mat4.At Ident4 row' col').
Proof.
  eexists. split; [reflexivity|].
  apply (Mat4_Set_then_At Ident4 _ 1 2 (lit 2)). reflexivity.
Defined.

(** X10 at row and column [2] of the identity. *)
Lemma Mat4_Rows_and_Cols_witness :
  (Mat4.Row (@Ident4 R _) 2 <> None <-> (0 <= 2 < 4)%Z)
  /\ (Mat4.Col (@Ident4 R _) 2 <> None <-> (0 <= 2 < 4)%Z).
Proof.
  apply (proj1 (Mat4_Rows_and_Cols (@Ident4 R _)) 2%Z). lia.
Defined.

(** ** Exact arithmetic *)

(** Equality of arrays, element by element. *)
Lemma vec3_eq {A : Type} (a0 a1 a2 b0 b1 b2 : A) :
  a0 = b0 ->
  a1 = b1 ->
  a2 = b2 ->
  vec3 a0 a1 a2 = vec3 b0 b1 b2.
Proof. intros; subst; reflexivity. Qed.

Lemma mat2_eq {A : Type} (a0 a1 a2 a3 b0 b1 b2 b3 : A) :
  a0 = b0 ->
  a1 = b1 ->
  a2 = b2 ->
  a3 = b3 ->
  mat2 a0 a1 a2 a3 = mat2 b0 b1 b2 b3.
Proof. intros; subst; reflexivity. Qed.

Lemma mat3_eq {A : Type} (a0 a1 a2 a3 a4 a5 a6 a7 a8 b0 b1 b2 b3 b4 b5 b6 b7 b8 : A) :
  a0 = b0 ->
  a1 = b1 ->
  a2 = b2 ->
  a3 = b3 ->
  a4 = b4 ->
  a5 = b5 ->
  a6 = b6 ->
  a7 = b7 ->
  a8 = b8 ->
  mat3 a0 a1 a2 a3 a4 a5 a6 a7 a8 = mat3 b0 b1 b2 b3 b4 b5 b6 b7 b8.
Proof. intros; subst; reflexivity. Qed.

Lemma mat4_eq {A : Type} (a0 a1 a2 a3 a4 a5 a6 a7 a8 a9 a10 a11 a12 a13 a14 a15 b0 b1 b2 b3 b4 b5 b6 b7 b8 b9 b10 b11 b12 b13 b14 b15 : A) :
  a0 = b0 ->
  a1 = b1 ->
  a2 = b2 ->
  a3 = b3 ->
  a4 = b4 ->
  a5 = b5 ->
  a6 = b6 ->
  a7 = b7 ->
  a8 = b8 ->
  a9 = b9 ->
  a10 = b10 ->
  a11 = b11 ->
  a12 = b12 ->
  a13 = b13 ->
  a14 = b14 ->
  a15 = b15 ->
  mat4 a0 a1 a2 a3 a4 a5 a6 a7 a8 a9 a10 a11 a12 a13 a14 a15 = mat4 b0 b1 b2 b3 b4 b5 b6 b7 b8 b9 b10 b11 b12 b13 b14 b15.
Proof. intros; subst; reflexivity. Qed.

Section ExactArithmetic.
Local Open Scope R_scope.

Lemma lit_0 : Q2R 0 = 0.
Proof. unfold Q2R; cbn; lra. Qed.

Lemma lit_1 : Q2R 1 = 1.
Proof. unfold Q2R; cbn; lra. Qed.

Lemma lit_2 : Q2R 2 = 2.
Proof. unfold Q2R; cbn; lra. Qed.

Lemma lit_m1 : Q2R (-1) = -1.
Proof. unfold Q2R; cbn; lra. Qed.

Lemma lit_half : Q2R 0.5 = / 2.
Proof. unfold Q2R; cbn; lra. Qed.

Lemma ltb_true (x y : R) : Exact.ltb x y = true <-> x < y.
Proof.
  unfold Exact.ltb. destruct (Rlt_dec x y); split; try congruence; tauto.
Qed.

Lemma ltb_false (x y : R) : Exact.ltb x y = false <-> y <= x.
Proof.
  unfold Exact.ltb. destruct (Rlt_dec x y); split; try congruence; lra.
Qed.

(** [FloatEqual] on real numbers: the distance is below [Epsilon]. *)
Lemma Epsilon_value : Q2R Epsilon = / 1000000.
Proof. unfold Epsilon, Q2R; cbn. lra. Qed.

Lemma FloatEqual_true (x y : R) :
  FloatEqual x y = true <-> Rabs (x - y) < Q2R Epsilon.
Proof. apply ltb_true. Qed.

Lemma FloatEqual_false (x y : R) :
  FloatEqual x y = false <-> Q2R Epsilon <= Rabs (x - y).
Proof. apply ltb_false. Qed.

Lemma FloatEqual_refl (x : R) : FloatEqual x x = true.
Proof.
  apply FloatEqual_true. replace (x - x) with 0 by ring.
  rewrite Rabs_R0, Epsilon_value. lra.
Qed.

(** What the code's test tells apart is different. *)
Lemma FloatEqual_apart (x y : R) : FloatEqual x y = false -> x <> y.
Proof.
  intros H E. subst y. rewrite FloatEqual_refl in H. discriminate.
Qed.

Ltac literals :=
  repeat match goal with
         | |- context [@lit R _ ?q] => change (@lit R _ q) with (Q2R q)
         end;
  rewrite ?lit_0, ?lit_1, ?lit_2, ?lit_m1, ?lit_half.

Create HintDb kernel discriminated.

#[local] Hint Unfold Vec3.Add Vec3.Sub Vec3.Mul Vec3.Dot Vec3.Cross Vec3.AddOf
  Vec3.AddWith Vec3.MulOf Vec3.CrossOf Vec3.CrossWith Vec3.AddScaledVec
  Quaternion.Add Quaternion.Sub Quaternion.Scale Quaternion.Mul
  Quaternion.MulWith Quaternion.Conjugated Quaternion.Dot
  Quaternion.QuatIdent Quaternion.QuatLerp : kernel.

Ltac kernel := autounfold with kernel; cbn; literals.

Lemma Mat2_Inverse_exact (m : Mat2 R) :
  FloatEqual (Mat2.Det m) (lit 0) = false ->
  Mat2.Mul2 m (Mat2.Inverse m) = Ident2.
Proof.
  intros Hd. unfold Mat2.Inverse. rewrite Hd.
  apply FloatEqual_apart in Hd. destruct m as [a b c d].
  remember (Mat2.Det _) as det eqn:Ed.
  cbn in Hd. rewrite lit_0 in Hd.
  assert (Hi : det * (1 / det) = 1) by (field; exact Hd).
  unfold Mat2.Mul2, Ident2. cbn. literals.
  remember (1 / det) as over eqn:Eo. clear Eo.
  unfold Mat2.Det in Ed; cbn in Ed.
  apply mat2_eq.
  all: try (transitivity (det * over); [rewrite Ed; ring | exact Hi]).
  all: ring.
Qed.

Lemma Mat3_Inverse_exact (m : Mat3 R) :
  FloatEqual (Mat3.Det m) (lit 0) = false ->
  Mat3.Mul3 m (Mat3.Inverse m) = Ident3.
Proof.
  intros Hd. unfold Mat3.Inverse. rewrite Hd.
  apply FloatEqual_apart in Hd. destruct m.
  remember (Mat3.Det _) as det eqn:Ed.
  cbn in Hd. rewrite lit_0 in Hd.
  assert (Hi : det * (1 / det) = 1) by (field; exact Hd).
  unfold Mat3.Mul3, Mat3.Mul, Mat3.Inverse_retMat, Ident3. cbn. literals.
  remember (1 / det) as over eqn:Eo. clear Eo.
  unfold Mat3.Det in Ed; cbn in Ed.
  apply mat3_eq.
  all: try (transitivity (det * over); [rewrite Ed; ring | exact Hi]).
  all: ring.
Qed.

Lemma Mat4_Inverse_exact (m : Mat4 R) :
  FloatEqual (Mat4.Det m) (lit 0) = false ->
  Mat4.Mul4 m (Mat4.Inverse m) = Ident4.
Proof.
  intros Hd. unfold Mat4.Inverse. rewrite Hd.
  apply FloatEqual_apart in Hd. destruct m.
  remember (Mat4.Det _) as det eqn:Ed.
  cbn in Hd. rewrite lit_0 in Hd.
  assert (Hi : det * (1 / det) = 1) by (field; exact Hd).
  unfold Mat4.Mul4, Mat4.Mul, Mat4.Inverse_retMat, Ident4. cbn. literals.
  remember (1 / det) as over eqn:Eo. clear Eo.
  unfold Mat4.Det in Ed; cbn in Ed.
  apply mat4_eq.
  all: try (transitivity (det * over); [rewrite Ed; ring | exact Hi]).
  all: ring.
Qed.

(** C4, amended.  In exact arithmetic the product of a 2x2, 3x3 or 4x4
    matrix whose determinant passes the test of the code (it is not
    [FloatEqual] to zero) with its [Inverse] is the identity. *)
Theorem Inverse_is_inverse_in_exact_arithmetic :
  (forall m : Mat2 R, FloatEqual (Mat2.Det m) (lit 0) = false ->
     Mat2.Mul2 m (Mat2.Inverse m) = Ident2)
  /\ (forall m : Mat3 R, FloatEqual (Mat3.Det m) (lit 0) = false ->
        Mat3.Mul3 m (Mat3.Inverse m) = Ident3)
  /\ (forall m : Mat4 R, FloatEqual (Mat4.Det m) (lit 0) = false ->
        Mat4.Mul4 m (Mat4.Inverse m) = Ident4).
Proof.
  split; [exact Mat2_Inverse_exact|].
  split; [exact Mat3_Inverse_exact | exact Mat4_Inverse_exact].
Qed.

Lemma unit_exact (q : Quaternion R) :
  unit q <-> W q * W q + (V q).[0] * (V q).[0] + (V q).[1] * (V q).[1]
             + (V q).[2] * (V q).[2] = 1.
Proof. unfold unit, Quaternion.Dot. cbn. now rewrite lit_1. Qed.

(** C8, amended.  In exact arithmetic, for a unit quaternion [q], the
    double-cross-product [Rotate] is the vector part of
    [q * Quaternion{0, v} * conjugate(q)]. *)
Theorem Rotate_is_sandwich_in_exact_arithmetic
  (q : Quaternion R) (v : Vec3 R) :
  unit q -> Quaternion.Rotate q v = sandwich q v.
Proof.
  intros Hq. apply unit_exact in Hq.
  destruct q as [w [x y z]]. destruct v as [a b c]. cbn in Hq.
  unfold Quaternion.Rotate, sandwich. kernel. apply vec3_eq.
  - match goal with |- _ = ?r =>
      transitivity (r + (1 - (w * w + x * x + y * y + z * z)) * a);
        [ring | rewrite Hq; ring] end.
  - match goal with |- _ = ?r =>
      transitivity (r + (1 - (w * w + x * x + y * y + z * z)) * b);
        [ring | rewrite Hq; ring] end.
  - match goal with |- _ = ?r =>
      transitivity (r + (1 - (w * w + x * x + y * y + z * z)) * c);
        [ring | rewrite Hq; ring] end.
Qed.

(** C3 as worded fails: with rotation [i] and a half-turn about the
    second axis, the code leaves [i * j = k] in the node where the claim
    expects [j * i = -k]. *)
Lemma rotation_premultiplied_fails : ~ @rotation_premultiplied R _ _.
Proof.
  intros Hc.
  specialize (Hc (Node.SetRotation Node.NewNode (quat 0 (vec3 1 0 0)))
                 (vec3 0 1 0) PI).
  apply (f_equal (fun q => (V q).[2])) in Hc.
  unfold Node.RotateAroundAxis, Node.SetRotation, Quaternion.QuatRotate in Hc.
  autounfold with kernel in Hc. cbn in Hc. rewrite lit_half in Hc.
  replace (PI * / 2) with (PI / 2) in Hc by lra.
  rewrite sin_PI2, cos_PI2 in Hc. lra.
Qed.

(** *** Quaternion algebra over the reals *)

Lemma quat_eq (w1 w2 x1 x2 y1 y2 z1 z2 : R) :
  w1 = w2 -> x1 = x2 -> y1 = y2 -> z1 = z2 ->
  quat w1 (vec3 x1 y1 z1) = quat w2 (vec3 x2 y2 z2).
Proof. intros; subst; reflexivity. Qed.

Lemma Len_Dot (q : Quaternion R) : Quaternion.Len q = sqrt (Quaternion.Dot q q).
Proof. reflexivity. Qed.

Lemma Dot_nonneg (q : Quaternion R) : 0 <= Quaternion.Dot q q.
Proof. destruct q as [w [x y z]]. kernel. nra. Qed.

Lemma unit_Dot (q : Quaternion R) : unit q <-> Quaternion.Dot q q = 1.
Proof. unfold unit. cbn. now rewrite lit_1. Qed.

Lemma Len_unit (q : Quaternion R) : unit q -> Quaternion.Len q = 1.
Proof. intros Hq. apply unit_Dot in Hq. rewrite Len_Dot, Hq. apply sqrt_1. Qed.



Lemma Dot_zero (q : Quaternion R) :
  Quaternion.Dot q q = 0 -> q = quat 0 (vec3 0 0 0).
Proof.
  destruct q as [w [x y z]]. kernel. intros E.
  apply quat_eq; nra.
Qed.

Lemma Dot_lincomb (a b : Quaternion R) (c s : R) :
  Quaternion.Dot (Quaternion.Add (Quaternion.Scale a c) (Quaternion.Scale b s))
                 (Quaternion.Add (Quaternion.Scale a c) (Quaternion.Scale b s))
  = c * c * Quaternion.Dot a a + s * s * Quaternion.Dot b b
    + 2 * c * s * Quaternion.Dot a b.
Proof.
  destruct a as [w [x y z]], b as [w' [x' y' z']]. kernel. ring.
Qed.



(** The part of [q2] orthogonal to [q1]. *)
Lemma Dot_rejection (q1 q2 : Quaternion R) :
  unit q1 -> unit q2 ->
  let dot := Quaternion.Dot q1 q2 in
  let d := Quaternion.Sub q2 (Quaternion.Scale q1 dot) in
  Quaternion.Dot d d = 1 - dot * dot /\ Quaternion.Dot q1 d = 0.
Proof.
  intros H1 H2. apply unit_Dot in H1, H2. cbv zeta.
  destruct q1 as [w [x y z]], q2 as [w' [x' y' z']].
  revert H1 H2. kernel. intros H1 H2.
  set (dot := w * w' + x * x' + y * y' + z * z').
  set (n1 := w * w + x * x + y * y + z * z) in *.
  set (n2 := w' * w' + x' * x' + y' * y' + z' * z') in *.
  split.
  - transitivity (n2 - 2 * dot * dot + dot * dot * n1);
      [unfold dot, n1, n2; ring | rewrite H1, H2; ring].
  - transitivity (dot - dot * n1);
      [unfold dot, n1; ring | rewrite H1; ring].
Qed.

Lemma Cauchy_Schwarz (q1 q2 : Quaternion R) :
  unit q1 -> unit q2 -> -1 <= Quaternion.Dot q1 q2 <= 1.
Proof.
  intros H1 H2.
  destruct (Dot_rejection q1 q2 H1 H2) as [Hd _].
  pose proof (Dot_nonneg
    (Quaternion.Sub q2 (Quaternion.Scale q1 (Quaternion.Dot q1 q2)))) as Hn.
  rewrite Hd in Hn. nra.
Qed.

(** *** [Normalized] over the reals *)


(** The three ways out of [Normalized]. *)
Lemma Normalized_near (q : Quaternion R) :
  FloatEqual (lit 1) (Quaternion.Len q) = true -> Quaternion.Normalized q = q.
Proof. intros E. unfold Quaternion.Normalized. now rewrite E. Qed.

Lemma Normalized_small (q : Quaternion R) :
  FloatEqual (lit 1) (Quaternion.Len q) = false ->
  FloatEqual (Quaternion.Len q) (lit 0) = true ->
  Quaternion.Normalized q = quat 1 (vec3 0 0 0).
Proof.
  intros E1 E0. unfold Quaternion.Normalized. rewrite E1, E0.
  unfold Quaternion.QuatIdent. cbn. now rewrite lit_0, lit_1.
Qed.


Lemma Normalized_of_unit (q : Quaternion R) :
  unit q -> Quaternion.Normalized q = q.
Proof.
  intros Hq. apply Normalized_near. literals.
  rewrite (Len_unit q Hq). apply FloatEqual_refl.
Qed.



(** *** [QuatSlerp] over the reals *)

Lemma Clamp_inside (x : R) :
  -1 <= x <= 1 -> Quaternion.Clamp x (lit (-1)) (lit 1) = x.
Proof.
  intros Hx. unfold Quaternion.Clamp. literals.
  replace (ltb x (-1)) with false by (symmetry; apply ltb_false; lra).
  replace (ltb 1 x) with false by (symmetry; apply ltb_false; lra).
  reflexivity.
Qed.

(** On unit quaternions [QuatSlerp] normalises nothing, and clamps
    nothing. *)
Lemma QuatSlerp_of_units (q1 q2 : Quaternion R) (t : R) :
  unit q1 -> unit q2 ->
  let dot := Quaternion.Dot q1 q2 in
  Quaternion.QuatSlerp q1 q2 t
  = if ltb (lit 0.9995) dot then Quaternion.QuatNlerp q1 q2 t
    else
      let rel := Quaternion.Normalized
                   (Quaternion.Sub q2 (Quaternion.Scale q1 dot)) in
      Quaternion.Add (Quaternion.Scale q1 (cos (acos dot * t)))
                     (Quaternion.Scale rel (sin (acos dot * t))).
Proof.
  intros H1 H2. cbv zeta. unfold Quaternion.QuatSlerp.
  rewrite !Normalized_of_unit by assumption.
  destruct (ltb (lit 0.9995) (Quaternion.Dot q1 q2)); [reflexivity|].
  rewrite Clamp_inside by now apply Cauchy_Schwarz.
  reflexivity.
Qed.




(** *** Equality within [Epsilon] *)









(** Where [FloatEqual] takes the norm of the part of [q2] orthogonal to
    [q1] for zero, [Normalized] falls back to [QuatIdent], and the result
    is in general not a unit: its squared norm is off by
    [2 * cos theta * sin theta * q1.W]. *)
Lemma QuatSlerp_fallback (q1 q2 : Quaternion R) (t : R) :
  unit q1 -> unit q2 ->
  Quaternion.Dot q1 q2 <= Q2R 0.9995 ->
  FloatEqual
    (Quaternion.Len
       (Quaternion.Sub q2 (Quaternion.Scale q1 (Quaternion.Dot q1 q2))))
    (lit 0) = true ->
  Quaternion.Dot (Quaternion.QuatSlerp q1 q2 t) (Quaternion.QuatSlerp q1 q2 t)
  = 1 + 2 * cos (acos (Quaternion.Dot q1 q2) * t)
          * sin (acos (Quaternion.Dot q1 q2) * t) * W q1.
Proof.
  intros H1 H2 Hle E0. rewrite QuatSlerp_of_units by assumption. cbv zeta.
  replace (ltb (lit 0.9995) (Quaternion.Dot q1 q2)) with false
    by (symmetry; apply ltb_false; exact Hle).
  set (dot := Quaternion.Dot q1 q2) in *.
  set (d := Quaternion.Sub q2 (Quaternion.Scale q1 dot)) in *.
  assert (E1 : FloatEqual (lit 1) (Quaternion.Len d) = false).
  { revert E0. literals. intros E0. apply FloatEqual_true in E0.
    apply FloatEqual_false. rewrite Epsilon_value in *.
    apply Rabs_def2 in E0. rewrite Rabs_right; lra. }
  rewrite Normalized_small by assumption.
  rewrite Dot_lincomb. apply unit_Dot in H1. rewrite H1.
  set (th := acos dot * t).
  pose proof (sin2_cos2 th) as Hsc. unfold Rsqr in Hsc.
  replace (Quaternion.Dot (quat 1 (vec3 0 0 0)) (quat 1 (vec3 0 0 0))) with 1
    by (kernel; ring).
  replace (Quaternion.Dot q1 (quat 1 (vec3 0 0 0))) with (W q1)
    by (destruct q1 as [w [x y z]]; kernel; ring).
  lra.
Qed.




(** *** Matrix algebra over the reals *)

Lemma vec4_eq {A : Type} (a0 a1 a2 a3 b0 b1 b2 b3 : A) :
  a0 = b0 -> a1 = b1 -> a2 = b2 -> a3 = b3 ->
  vec4 a0 a1 a2 a3 = vec4 b0 b1 b2 b3.
Proof. intros; subst; reflexivity. Qed.

Lemma Mat2_Mul2_assoc (a b c : Mat2 R) :
  Mat2.Mul2 (Mat2.Mul2 a b) c = Mat2.Mul2 a (Mat2.Mul2 b c).
Proof. destruct a, b, c. unfold Mat2.Mul2. cbn. apply mat2_eq; ring. Qed.

Lemma Mat3_Mul3_assoc (a b c : Mat3 R) :
  Mat3.Mul3 (Mat3.Mul3 a b) c = Mat3.Mul3 a (Mat3.Mul3 b c).
Proof. destruct a, b, c. unfold Mat3.Mul3. cbn. apply mat3_eq; ring. Qed.

Lemma Mat4_Mul4_assoc (a b c : Mat4 R) :
  Mat4.Mul4 (Mat4.Mul4 a b) c = Mat4.Mul4 a (Mat4.Mul4 b c).
Proof. destruct a, b, c. unfold Mat4.Mul4. cbn. apply mat4_eq; ring. Qed.

Lemma Mat2_Mul2_Ident (m : Mat2 R) :
  Mat2.Mul2 m Ident2 = m /\ Mat2.Mul2 Ident2 m = m.
Proof.
  destruct m. unfold Mat2.Mul2, Ident2. cbn. literals.
  split; apply mat2_eq; ring.
Qed.

Lemma Mat3_Mul3_Ident (m : Mat3 R) :
  Mat3.Mul3 m Ident3 = m /\ Mat3.Mul3 Ident3 m = m.
Proof.
  destruct m. unfold Mat3.Mul3, Ident3. cbn. literals.
  split; apply mat3_eq; ring.
Qed.

Lemma Mat4_Mul4_Ident (m : Mat4 R) :
  Mat4.Mul4 m Ident4 = m /\ Mat4.Mul4 Ident4 m = m.
Proof.
  destruct m. unfold Mat4.Mul4, Ident4. cbn. literals.
  split; apply mat4_eq; ring.
Qed.

Lemma Mat2_Det_Mul2 (a b : Mat2 R) :
  Mat2.Det (Mat2.Mul2 a b) = Mat2.Det a * Mat2.Det b.
Proof. destruct a, b. unfold Mat2.Det, Mat2.Mul2. cbn. ring. Qed.

Lemma Mat3_Det_Mul3 (a b : Mat3 R) :
  Mat3.Det (Mat3.Mul3 a b) = Mat3.Det a * Mat3.Det b.
Proof. destruct a, b. unfold Mat3.Det, Mat3.Mul3. cbn. ring. Qed.

Lemma Mat4_Det_Mul4 (a b : Mat4 R) :
  Mat4.Det (Mat4.Mul4 a b) = Mat4.Det a * Mat4.Det b.
Proof. destruct a, b. unfold Mat4.Det, Mat4.Mul4. cbn. ring. Qed.

Lemma Mat2_Inverse_left (m : Mat2 R) :
  FloatEqual (Mat2.Det m) (lit 0) = false ->
  Mat2.Mul2 (Mat2.Inverse m) m = Ident2.
Proof.
  intros Hd. unfold Mat2.Inverse. rewrite Hd.
  apply FloatEqual_apart in Hd. destruct m as [a b c d].
  remember (Mat2.Det _) as det eqn:Ed.
  cbn in Hd. rewrite lit_0 in Hd.
  assert (Hi : det * (1 / det) = 1) by (field; exact Hd).
  unfold Mat2.Mul2, Ident2. cbn. literals.
  remember (1 / det) as over eqn:Eo. clear Eo.
  unfold Mat2.Det in Ed; cbn in Ed.
  apply mat2_eq.
  all: try (transitivity (det * over); [rewrite Ed; ring | exact Hi]).
  all: ring.
Qed.

Lemma Mat3_Inverse_left (m : Mat3 R) :
  FloatEqual (Mat3.Det m) (lit 0) = false ->
  Mat3.Mul3 (Mat3.Inverse m) m = Ident3.
Proof.
  intros Hd. unfold Mat3.Inverse. rewrite Hd.
  apply FloatEqual_apart in Hd. destruct m.
  remember (Mat3.Det _) as det eqn:Ed.
  cbn in Hd. rewrite lit_0 in Hd.
  assert (Hi : det * (1 / det) = 1) by (field; exact Hd).
  unfold Mat3.Mul3, Mat3.Mul, Mat3.Inverse_retMat, Ident3. cbn. literals.
  remember (1 / det) as over eqn:Eo. clear Eo.
  unfold Mat3.Det in Ed; cbn in Ed.
  apply mat3_eq.
  all: try (transitivity (det * over); [rewrite Ed; ring | exact Hi]).
  all: ring.
Qed.

Lemma Mat4_Inverse_left (m : Mat4 R) :
  FloatEqual (Mat4.Det m) (lit 0) = false ->
  Mat4.Mul4 (Mat4.Inverse m) m = Ident4.
Proof.
  intros Hd. unfold Mat4.Inverse. rewrite Hd.
  apply FloatEqual_apart in Hd. destruct m.
  remember (Mat4.Det _) as det eqn:Ed.
  cbn in Hd. rewrite lit_0 in Hd.
  assert (Hi : det * (1 / det) = 1) by (field; exact Hd).
  unfold Mat4.Mul4, Mat4.Mul, Mat4.Inverse_retMat, Ident4. cbn. literals.
  remember (1 / det) as over eqn:Eo. clear Eo.
  unfold Mat4.Det in Ed; cbn in Ed.
  apply mat4_eq.
  all: try (transitivity (det * over); [rewrite Ed; ring | exact Hi]).
  all: ring.
Qed.

Lemma Mat2_Det_Ident : Mat2.Det (@Ident2 R _) = 1.
Proof. unfold Mat2.Det, Ident2. cbn. literals. ring. Qed.

Lemma Mat3_Det_Ident : Mat3.Det (@Ident3 R _) = 1.
Proof. unfold Mat3.Det, Ident3. cbn. literals. ring. Qed.

Lemma Mat4_Det_Ident : Mat4.Det (@Ident4 R _) = 1.
Proof. unfold Mat4.Det, Ident4. cbn. literals. ring. Qed.

(** Inverses in a monoid: what follows from associativity, the neutral
    element, a multiplicative determinant and [inv] being a two-sided
    inverse of the elements that pass a test [ok], which only elements
    of nonzero determinant pass. *)
Section Invertible.
Variables (M : Type) (mul : M -> M -> M) (one : M) (inv : M -> M)
  (det : M -> R) (ok : M -> Prop).
Hypothesis mul_assoc : forall a b c, mul (mul a b) c = mul a (mul b c).
Hypothesis mul_one : forall a, mul a one = a /\ mul one a = a.
Hypothesis det_mul : forall a b, det (mul a b) = det a * det b.
Hypothesis det_one : det one = 1.
Hypothesis ok_det : forall a, ok a -> det a <> 0.
Hypothesis inv_r : forall a, ok a -> mul a (inv a) = one.
Hypothesis inv_l : forall a, ok a -> mul (inv a) a = one.

Lemma det_inv (a : M) : ok a -> det (inv a) = / det a.
Proof.
  intros Ha. pose proof (inv_r a Ha) as E. apply ok_det in Ha.
  apply (f_equal det) in E. rewrite det_mul, det_one in E.
  apply Rmult_eq_reg_l with (det a); [|exact Ha].
  rewrite E. field. exact Ha.
Qed.

Lemma inverse_unique (a b : M) : ok a -> mul a b = one -> b = inv a.
Proof.
  intros Ha E.
  destruct (mul_one b) as [_ <-].
  rewrite <- (inv_l a Ha), mul_assoc, E.
  now destruct (mul_one (inv a)) as [-> _].
Qed.

(** Inverting twice gives the element back when its inverse passes the
    test too. *)
Lemma inv_inv (a : M) : ok a -> ok (inv a) -> inv (inv a) = a.
Proof.
  intros Ha Hi. symmetry.
  apply inverse_unique; [exact Hi | now apply inv_l].
Qed.

(** The inverse of a product, when the product passes the test too. *)
Lemma inv_mul (a b : M) :
  ok a -> ok b -> ok (mul a b) -> inv (mul a b) = mul (inv b) (inv a).
Proof.
  intros Ha Hb Hab. symmetry. apply inverse_unique; [exact Hab|].
  rewrite mul_assoc, <- (mul_assoc b), (inv_r b Hb).
  destruct (mul_one (inv a)) as [_ ->]. now apply inv_r.
Qed.

End Invertible.

(** The test of [Inverse]: a determinant passes when it is at least
    [Epsilon] away from zero. *)
Lemma FloatEqual_zero (d : R) :
  FloatEqual d (lit 0) = false <-> Q2R Epsilon <= Rabs d.
Proof.
  literals. rewrite FloatEqual_false. now replace (d - 0) with d by ring.
Qed.

Lemma FloatEqual_zero_apart (d : R) : FloatEqual d (lit 0) = false -> d <> 0.
Proof. intros Hd. apply FloatEqual_apart in Hd. revert Hd. now literals. Qed.


Lemma mat3x4_eq {A : Type}
  (a0 a1 a2 a3 a4 a5 a6 a7 a8 a9 a10 a11 b0 b1 b2 b3 b4 b5 b6 b7 b8 b9 b10 b11 : A) :
  a0 = b0 -> a1 = b1 -> a2 = b2 -> a3 = b3 -> a4 = b4 -> a5 = b5 ->
  a6 = b6 -> a7 = b7 -> a8 = b8 -> a9 = b9 -> a10 = b10 -> a11 = b11 ->
  mat3x4 a0 a1 a2 a3 a4 a5 a6 a7 a8 a9 a10 a11
  = mat3x4 b0 b1 b2 b3 b4 b5 b6 b7 b8 b9 b10 b11.
Proof. intros; subst; reflexivity. Qed.

Lemma mat2x3_eq {A : Type} (a0 a1 a2 a3 a4 a5 b0 b1 b2 b3 b4 b5 : A) :
  a0 = b0 -> a1 = b1 -> a2 = b2 -> a3 = b3 -> a4 = b4 -> a5 = b5 ->
  mat2x3 a0 a1 a2 a3 a4 a5 = mat2x3 b0 b1 b2 b3 b4 b5.
Proof. intros; subst; reflexivity. Qed.

Lemma Mat2_Transposed_Mul2 (a b : Mat2 R) :
  Mat2.Transposed (Mat2.Mul2 a b)
  = Mat2.Mul2 (Mat2.Transposed b) (Mat2.Transposed a).
Proof.
  destruct a, b. unfold Mat2.Transposed, Mat2.Mul2. cbn.
  apply mat2_eq; ring.
Qed.

Lemma Mat3_Transposed_Mul3 (a b : Mat3 R) :
  Mat3.Transposed (Mat3.Mul3 a b)
  = Mat3.Mul3 (Mat3.Transposed b) (Mat3.Transposed a).
Proof.
  destruct a, b. unfold Mat3.Transposed, Mat3.Mul3. cbn.
  apply mat3_eq; ring.
Qed.

Lemma Mat4_Transposed_Mul4 (a b : Mat4 R) :
  Mat4.Transposed (Mat4.Mul4 a b)
  = Mat4.Mul4 (Mat4.Transposed b) (Mat4.Transposed a).
Proof.
  destruct a, b. unfold Mat4.Transposed, Mat4.Mul4. cbn.
  apply mat4_eq; ring.
Qed.

Lemma Det_Transposed :
  (forall m : Mat2 R, Mat2.Det (Mat2.Transposed m) = Mat2.Det m)
  /\ (forall m : Mat3 R, Mat3.Det (Mat3.Transposed m) = Mat3.Det m)
  /\ (forall m : Mat4 R, Mat4.Det (Mat4.Transposed m) = Mat4.Det m).
Proof.
  split; [|split]; intros m; destruct m.
  - unfold Mat2.Det, Mat2.Transposed. cbn. ring.
  - unfold Mat3.Det, Mat3.Transposed. cbn. ring.
  - unfold Mat4.Det, Mat4.Transposed. cbn. ring.
Qed.

Lemma Mat3_Mul3x1_Mul3 (a b : Mat3 R) (v : Vec3 R) :
  Mat3.Mul3x1 (Mat3.Mul3 a b) v = Mat3.Mul3x1 a (Mat3.Mul3x1 b v).
Proof.
  destruct a, b, v. unfold Mat3.Mul3x1, Mat3.Mul3. cbn.
  apply vec3_eq; ring.
Qed.

Lemma Mat4_Mul4x1_Mul4 (a b : Mat4 R) (v : Vec4 R) :
  Mat4.Mul4x1 (Mat4.Mul4 a b) v = Mat4.Mul4x1 a (Mat4.Mul4x1 b v).
Proof.
  destruct a, b, v. unfold Mat4.Mul4x1, Mat4.Mul4. cbn.
  apply vec4_eq; ring.
Qed.

Lemma Mat3x4_Mul3x1_Mul3x4 (a b : Mat3x4 R) (v : Vec3 R) :
  Mat3x4.Mul3x1 (Mat3x4.Mul3x4 a b) v = Mat3x4.Mul3x1 a (Mat3x4.Mul3x1 b v).
Proof.
  destruct a, b, v. unfold Mat3x4.Mul3x1, Mat3x4.Mul3x4. cbn.
  apply vec3_eq; ring.
Qed.

Lemma Mat2_Mat3_Mul2 (a b : Mat2 R) :
  Mat2.Mat3 (Mat2.Mul2 a b) = Mat3.Mul3 (Mat2.Mat3 a) (Mat2.Mat3 b).
Proof.
  destruct a, b. unfold Mat2.Mat3, Mat2.Mul2, Mat3.Mul3. cbn. literals.
  apply mat3_eq; ring.
Qed.

Lemma Mat3_Mat4_Mul3 (a b : Mat3 R) :
  Mat3.Mat4 (Mat3.Mul3 a b) = Mat4.Mul4 (Mat3.Mat4 a) (Mat3.Mat4 b).
Proof.
  destruct a, b. unfold Mat3.Mat4, Mat3.Mul3, Mat4.Mul4. cbn. literals.
  apply mat4_eq; ring.
Qed.

Lemma Mat2_Mat4_Mul2 (a b : Mat2 R) :
  Mat2.Mat4 (Mat2.Mul2 a b) = Mat4.Mul4 (Mat2.Mat4 a) (Mat2.Mat4 b).
Proof.
  destruct a, b. unfold Mat2.Mat4, Mat2.Mul2, Mat4.Mul4. cbn. literals.
  apply mat4_eq; ring.
Qed.

Lemma Det_embedding :
  (forall m : Mat2 R, Mat3.Det (Mat2.Mat3 m) = Mat2.Det m)
  /\ (forall m : Mat2 R, Mat4.Det (Mat2.Mat4 m) = Mat2.Det m)
  /\ (forall m : Mat3 R, Mat4.Det (Mat3.Mat4 m) = Mat3.Det m).
Proof.
  split; [|split]; intros m; destruct m.
  - unfold Mat3.Det, Mat2.Det, Mat2.Mat3. cbn. literals. ring.
  - unfold Mat4.Det, Mat2.Det, Mat2.Mat4. cbn. literals. ring.
  - unfold Mat4.Det, Mat3.Det, Mat3.Mat4. cbn. literals. ring.
Qed.

Lemma Mat3x4_Mat4_Mul3x4 (a b : Mat3x4 R) :
  Mat3x4.Mat4 (Mat3x4.Mul3x4 a b)
  = Mat4.Mul4 (Mat3x4.Mat4 a) (Mat3x4.Mat4 b).
Proof.
  destruct a, b. unfold Mat3x4.Mat4, Mat3x4.Mul3x4, Mat4.Mul4. cbn. literals.
  apply mat4_eq; ring.
Qed.

Lemma Mat3x4_Mul4_Mat4 (a b : Mat3x4 R) :
  Mat3x4.Mul4 a (Mat3x4.Mat4 b) = Mat3x4.Mul3x4 a b.
Proof.
  destruct a, b. unfold Mat3x4.Mat4, Mat3x4.Mul3x4, Mat3x4.Mul4. cbn. literals.
  apply mat3x4_eq; ring.
Qed.

Lemma Mat3x4_Det_Mat4 (m : Mat3x4 R) :
  Mat4.Det (Mat3x4.Mat4 m) = Mat3x4.Det m.
Proof.
  destruct m. unfold Mat4.Det, Mat3x4.Det, Mat3x4.Mat4. cbn. literals. ring.
Qed.

Lemma Mat3x4_Inverse_exact (m : Mat3x4 R) :
  FloatEqual (Mat3x4.Det m) (lit 0) = false ->
  Mat3x4.Mul3x4 m (Mat3x4.Inverse m) = Ident3x4
  /\ Mat3x4.Mul3x4 (Mat3x4.Inverse m) m = Ident3x4.
Proof.
  intros Hd. unfold Mat3x4.Inverse. rewrite Hd.
  apply FloatEqual_zero_apart in Hd.
  destruct m as [a b c d e f g h i tx ty tz].
  remember (Mat3x4.Det _) as det eqn:Ed.
  assert (Hi : det * (1 / det) = 1) by (field; exact Hd).
  unfold Mat3x4.Mul3x4, Mat3x4.Mul, Ident3x4. cbn. literals.
  remember (1 / det) as over eqn:Eo. clear Eo.
  unfold Mat3x4.Det in Ed; cbn in Ed.
  split; apply mat3x4_eq.
  all: try (transitivity (det * over); [rewrite Ed; ring | exact Hi]).
  all: try ring.
  - transitivity (tx * (1 - det * over)); [rewrite Ed; ring | rewrite Hi; ring].
  - transitivity (ty * (1 - det * over)); [rewrite Ed; ring | rewrite Hi; ring].
  - transitivity (tz * (1 - det * over)); [rewrite Ed; ring | rewrite Hi; ring].
Qed.

(** The 4x4 matrix of a [Mat3x4] has the same determinant, so that
    [Mat4.Inverse] makes the same test. *)
Lemma Mat3x4_Inverse_Mat4 (m : Mat3x4 R) :
  FloatEqual (Mat3x4.Det m) (lit 0) = false ->
  Mat3x4.Mat4 (Mat3x4.Inverse m) = Mat4.Inverse (Mat3x4.Mat4 m).
Proof.
  intros Hd.
  assert (Hd4 : FloatEqual (Mat4.Det (Mat3x4.Mat4 m)) (lit 0) = false)
    by now rewrite Mat3x4_Det_Mat4.
  apply (inverse_unique _ Mat4.Mul4 Ident4 Mat4.Inverse
           (fun a => FloatEqual (Mat4.Det a) (lit 0) = false)
           Mat4_Mul4_assoc Mat4_Mul4_Ident Mat4_Inverse_left
           _ _ Hd4).
  rewrite <- Mat3x4_Mat4_Mul3x4.
  destruct (Mat3x4_Inverse_exact m Hd) as [-> _].
  unfold Mat3x4.Mat4, Ident3x4, Ident4. cbn. reflexivity.
Qed.

Lemma Mat2x3_Mat3_Mul2x3 (a b : Mat2x3 R) :
  Mat2x3.Mat3 (Mat2x3.Mul2x3 a b)
  = Mat3.Mul3 (Mat2x3.Mat3 a) (Mat2x3.Mat3 b).
Proof.
  destruct a, b. unfold Mat2x3.Mat3, Mat2x3.Mul2x3, Mat3.Mul3. cbn. literals.
  apply mat3_eq; ring.
Qed.

Lemma Mat2x3_Det_Mat3 (m : Mat2x3 R) :
  Mat3.Det (Mat2x3.Mat3 m) = Mat2x3.Det m.
Proof.
  destruct m. unfold Mat3.Det, Mat2x3.Det, Mat2x3.Mat3. cbn. literals. ring.
Qed.

Lemma Mat2_Inverse_group (m : Mat2 R) :
  FloatEqual (Mat2.Det m) (lit 0) = false ->
  Mat2.Mul2 (Mat2.Inverse m) m = Ident2
  /\ Mat2.Det (Mat2.Inverse m) = / Mat2.Det m
  /\ (FloatEqual (Mat2.Det (Mat2.Inverse m)) (lit 0) = false ->
      Mat2.Inverse (Mat2.Inverse m) = m)
  /\ (forall b : Mat2 R,
        FloatEqual (Mat2.Det b) (lit 0) = false ->
        FloatEqual (Mat2.Det (Mat2.Mul2 m b)) (lit 0) = false ->
        Mat2.Inverse (Mat2.Mul2 m b)
        = Mat2.Mul2 (Mat2.Inverse b) (Mat2.Inverse m)).
Proof.
  intros Hm.
  set (ok := fun a : Mat2 R => FloatEqual (Mat2.Det a) (lit 0) = false).
  assert (Hk : forall a, ok a -> Mat2.Det a <> 0)
    by (intros a Ha; now apply FloatEqual_zero_apart).
  split; [now apply Mat2_Inverse_left|]. split; [|split].
  - exact (det_inv _ Mat2.Mul2 Ident2 Mat2.Inverse Mat2.Det ok
             Mat2_Det_Mul2 Mat2_Det_Ident Hk Mat2_Inverse_exact m Hm).
  - intros Hi.
    exact (inv_inv _ Mat2.Mul2 Ident2 Mat2.Inverse ok
             Mat2_Mul2_assoc Mat2_Mul2_Ident
             Mat2_Inverse_left m Hm Hi).
  - intros b Hb Hmb.
    exact (inv_mul _ Mat2.Mul2 Ident2 Mat2.Inverse ok
             Mat2_Mul2_assoc Mat2_Mul2_Ident
             Mat2_Inverse_exact Mat2_Inverse_left m b Hm Hb Hmb).
Qed.

Lemma Mat3_Inverse_group (m : Mat3 R) :
  FloatEqual (Mat3.Det m) (lit 0) = false ->
  Mat3.Mul3 (Mat3.Inverse m) m = Ident3
  /\ Mat3.Det (Mat3.Inverse m) = / Mat3.Det m
  /\ (FloatEqual (Mat3.Det (Mat3.Inverse m)) (lit 0) = false ->
      Mat3.Inverse (Mat3.Inverse m) = m)
  /\ (forall b : Mat3 R,
        FloatEqual (Mat3.Det b) (lit 0) = false ->
        FloatEqual (Mat3.Det (Mat3.Mul3 m b)) (lit 0) = false ->
        Mat3.Inverse (Mat3.Mul3 m b)
        = Mat3.Mul3 (Mat3.Inverse b) (Mat3.Inverse m)).
Proof.
  intros Hm.
  set (ok := fun a : Mat3 R => FloatEqual (Mat3.Det a) (lit 0) = false).
  assert (Hk : forall a, ok a -> Mat3.Det a <> 0)
    by (intros a Ha; now apply FloatEqual_zero_apart).
  split; [now apply Mat3_Inverse_left|]. split; [|split].
  - exact (det_inv _ Mat3.Mul3 Ident3 Mat3.Inverse Mat3.Det ok
             Mat3_Det_Mul3 Mat3_Det_Ident Hk Mat3_Inverse_exact m Hm).
  - intros Hi.
    exact (inv_inv _ Mat3.Mul3 Ident3 Mat3.Inverse ok
             Mat3_Mul3_assoc Mat3_Mul3_Ident
             Mat3_Inverse_left m Hm Hi).
  - intros b Hb Hmb.
    exact (inv_mul _ Mat3.Mul3 Ident3 Mat3.Inverse ok
             Mat3_Mul3_assoc Mat3_Mul3_Ident
             Mat3_Inverse_exact Mat3_Inverse_left m b Hm Hb Hmb).
Qed.

Lemma Mat4_Inverse_group (m : Mat4 R) :
  FloatEqual (Mat4.Det m) (lit 0) = false ->
  Mat4.Mul4 (Mat4.Inverse m) m = Ident4
  /\ Mat4.Det (Mat4.Inverse m) = / Mat4.Det m
  /\ (FloatEqual (Mat4.Det (Mat4.Inverse m)) (lit 0) = false ->
      Mat4.Inverse (Mat4.Inverse m) = m)
  /\ (forall b : Mat4 R,
        FloatEqual (Mat4.Det b) (lit 0) = false ->
        FloatEqual (Mat4.Det (Mat4.Mul4 m b)) (lit 0) = false ->
        Mat4.Inverse (Mat4.Mul4 m b)
        = Mat4.Mul4 (Mat4.Inverse b) (Mat4.Inverse m)).
Proof.
  intros Hm.
  set (ok := fun a : Mat4 R => FloatEqual (Mat4.Det a) (lit 0) = false).
  assert (Hk : forall a, ok a -> Mat4.Det a <> 0)
    by (intros a Ha; now apply FloatEqual_zero_apart).
  split; [now apply Mat4_Inverse_left|]. split; [|split].
  - exact (det_inv _ Mat4.Mul4 Ident4 Mat4.Inverse Mat4.Det ok
             Mat4_Det_Mul4 Mat4_Det_Ident Hk Mat4_Inverse_exact m Hm).
  - intros Hi.
    exact (inv_inv _ Mat4.Mul4 Ident4 Mat4.Inverse ok
             Mat4_Mul4_assoc Mat4_Mul4_Ident
             Mat4_Inverse_left m Hm Hi).
  - intros b Hb Hmb.
    exact (inv_mul _ Mat4.Mul4 Ident4 Mat4.Inverse ok
             Mat4_Mul4_assoc Mat4_Mul4_Ident
             Mat4_Inverse_exact Mat4_Inverse_left m b Hm Hb Hmb).
Qed.

Lemma Mat2x3_Mul2x3_Ident (m : Mat2x3 R) :
  Mat2x3.Mul2x3 m Ident2x3 = m /\ Mat2x3.Mul2x3 Ident2x3 m = m.
Proof.
  destruct m. unfold Mat2x3.Mul2x3, Ident2x3. cbn. literals.
  split; apply mat2x3_eq; ring.
Qed.

Lemma Mat3x4_Mul3x4_Ident (m : Mat3x4 R) :
  Mat3x4.Mul3x4 m Ident3x4 = m /\ Mat3x4.Mul3x4 Ident3x4 m = m.
Proof.
  destruct m. unfold Mat3x4.Mul3x4, Ident3x4. cbn. literals.
  split; apply mat3x4_eq; ring.
Qed.

Lemma Mat3x4_Mul4x1_point (m : Mat3x4 R) (v : Vec3 R) :
  Mat3x4.Mul4x1 m (vec4 v.[0] v.[1] v.[2] 1) = Mat3x4.Mul3x1 m v.
Proof.
  destruct m, v. unfold Mat3x4.Mul4x1, Mat3x4.Mul3x1. cbn. 
  apply vec3_eq; ring.
Qed.

(** X11.  In exact arithmetic [m.Mul2With(&m)] leaves the square of [m]
    only for special matrices: it reads [m[0]] and [m[2]] after it has
    overwritten them, so the result is [m * m] exactly when [m[1]] is
    zero or the first row of [m * m] is the first row of [m]. *)
Theorem Mul2With_on_the_receiver (m : Mat2 R) :
  Mat2.Mul2With m Receiver = Mat2.Mul2 m m
  <-> m.[1] = 0
      \/ ((Mat2.Mul2 m m).[0] = m.[0] /\ (Mat2.Mul2 m m).[2] = m.[2]).
Proof.
  destruct m as [a b c d]. unfold Mat2.Mul2With, Mat2.Mul2. cbn.
  split.
  - intros E. injection E as E1 E3.
    destruct (Req_dec_T b 0) as [Hb | Hb]; [now left | right].
    split; apply Rmult_eq_reg_l with b; trivial; nra.
  - intros [-> | [E0 E2]]; apply mat2_eq; try ring.
    + rewrite E0. ring.
    + rewrite E2. ring.
Qed.

(** X12.  In exact arithmetic the matrix products [Mul2], [Mul3] and
    [Mul4] are associative, with [Ident2], [Ident3] and [Ident4] as
    neutral elements on both sides. *)
Theorem matrix_product_is_a_monoid :
  (forall a b c : Mat2 R,
     Mat2.Mul2 (Mat2.Mul2 a b) c = Mat2.Mul2 a (Mat2.Mul2 b c))
  /\ (forall a b c : Mat3 R,
        Mat3.Mul3 (Mat3.Mul3 a b) c = Mat3.Mul3 a (Mat3.Mul3 b c))
  /\ (forall a b c : Mat4 R,
        Mat4.Mul4 (Mat4.Mul4 a b) c = Mat4.Mul4 a (Mat4.Mul4 b c))
  /\ (forall m : Mat2 R, Mat2.Mul2 m Ident2 = m /\ Mat2.Mul2 Ident2 m = m)
  /\ (forall m : Mat3 R, Mat3.Mul3 m Ident3 = m /\ Mat3.Mul3 Ident3 m = m)
  /\ (forall m : Mat4 R, Mat4.Mul4 m Ident4 = m /\ Mat4.Mul4 Ident4 m = m).
Proof.
  repeat match goal with |- _ /\ _ => split end.
  - exact Mat2_Mul2_assoc.
  - exact Mat3_Mul3_assoc.
  - exact Mat4_Mul4_assoc.
  - exact Mat2_Mul2_Ident.
  - exact Mat3_Mul3_Ident.
  - exact Mat4_Mul4_Ident.
Qed.

(** X13.  In exact arithmetic [Det] is multiplicative: the determinant
    of a product is the product of the determinants, and the determinant
    of the identity is one. *)
Theorem Det_is_multiplicative :
  (forall a b : Mat2 R, Mat2.Det (Mat2.Mul2 a b) = Mat2.Det a * Mat2.Det b)
  /\ (forall a b : Mat3 R,
        Mat3.Det (Mat3.Mul3 a b) = Mat3.Det a * Mat3.Det b)
  /\ (forall a b : Mat4 R,
        Mat4.Det (Mat4.Mul4 a b) = Mat4.Det a * Mat4.Det b)
  /\ Mat2.Det (@Ident2 R _) = 1
  /\ Mat3.Det (@Ident3 R _) = 1
  /\ Mat4.Det (@Ident4 R _) = 1.
Proof.
  repeat match goal with |- _ /\ _ => split end.
  - exact Mat2_Det_Mul2.
  - exact Mat3_Det_Mul3.
  - exact Mat4_Det_Mul4.
  - exact Mat2_Det_Ident.
  - exact Mat3_Det_Ident.
  - exact Mat4_Det_Ident.
Qed.

(** X15.  Over the real numbers, for a matrix [m] whose determinant
    passes the test of [Inverse] (it is not [FloatEqual] to zero):
    [Inverse] is also a left inverse, and the determinant of
    [Inverse(m)] is the reciprocal of the determinant of [m].  Where the
    determinant of [Inverse(m)] passes the test as well, [Inverse] of
    [Inverse(m)] is [m]; and where the determinants of [b] and of the
    product [m * b] pass it, the inverse of the product is the product
    of the inverses in reverse order. *)
Theorem Inverse_algebra :
  (forall m : Mat2 R, FloatEqual (Mat2.Det m) (lit 0) = false ->
     Mat2.Mul2 (Mat2.Inverse m) m = Ident2
     /\ Mat2.Det (Mat2.Inverse m) = / Mat2.Det m
     /\ (FloatEqual (Mat2.Det (Mat2.Inverse m)) (lit 0) = false ->
         Mat2.Inverse (Mat2.Inverse m) = m)
     /\ (forall b : Mat2 R,
           FloatEqual (Mat2.Det b) (lit 0) = false ->
           FloatEqual (Mat2.Det (Mat2.Mul2 m b)) (lit 0) = false ->
           Mat2.Inverse (Mat2.Mul2 m b)
           = Mat2.Mul2 (Mat2.Inverse b) (Mat2.Inverse m)))
  /\ (forall m : Mat3 R, FloatEqual (Mat3.Det m) (lit 0) = false ->
        Mat3.Mul3 (Mat3.Inverse m) m = Ident3
        /\ Mat3.Det (Mat3.Inverse m) = / Mat3.Det m
        /\ (FloatEqual (Mat3.Det (Mat3.Inverse m)) (lit 0) = false ->
            Mat3.Inverse (Mat3.Inverse m) = m)
        /\ (forall b : Mat3 R,
              FloatEqual (Mat3.Det b) (lit 0) = false ->
              FloatEqual (Mat3.Det (Mat3.Mul3 m b)) (lit 0) = false ->
              Mat3.Inverse (Mat3.Mul3 m b)
              = Mat3.Mul3 (Mat3.Inverse b) (Mat3.Inverse m)))
  /\ (forall m : Mat4 R, FloatEqual (Mat4.Det m) (lit 0) = false ->
        Mat4.Mul4 (Mat4.Inverse m) m = Ident4
        /\ Mat4.Det (Mat4.Inverse m) = / Mat4.Det m
        /\ (FloatEqual (Mat4.Det (Mat4.Inverse m)) (lit 0) = false ->
            Mat4.Inverse (Mat4.Inverse m) = m)
        /\ (forall b : Mat4 R,
              FloatEqual (Mat4.Det b) (lit 0) = false ->
              FloatEqual (Mat4.Det (Mat4.Mul4 m b)) (lit 0) = false ->
              Mat4.Inverse (Mat4.Mul4 m b)
              = Mat4.Mul4 (Mat4.Inverse b) (Mat4.Inverse m))).
Proof.
  split; [exact Mat2_Inverse_group|].
  split; [exact Mat3_Inverse_group | exact Mat4_Inverse_group].
Qed.

(** X16.  In exact arithmetic [Transposed] reverses products,
    [(a * b)^T = b^T * a^T], and keeps the determinant; transposing twice
    gives the matrix back. *)
Theorem Transposed_reverses_products :
  (forall a b : Mat2 R,
     Mat2.Transposed (Mat2.Mul2 a b)
     = Mat2.Mul2 (Mat2.Transposed b) (Mat2.Transposed a))
  /\ (forall a b : Mat3 R,
        Mat3.Transposed (Mat3.Mul3 a b)
        = Mat3.Mul3 (Mat3.Transposed b) (Mat3.Transposed a))
  /\ (forall a b : Mat4 R,
        Mat4.Transposed (Mat4.Mul4 a b)
        = Mat4.Mul4 (Mat4.Transposed b) (Mat4.Transposed a))
  /\ (forall m : Mat2 R, Mat2.Det (Mat2.Transposed m) = Mat2.Det m)
  /\ (forall m : Mat3 R, Mat3.Det (Mat3.Transposed m) = Mat3.Det m)
  /\ (forall m : Mat4 R, Mat4.Det (Mat4.Transposed m) = Mat4.Det m)
  /\ (forall m : Mat2 R, Mat2.Transposed (Mat2.Transposed m) = m)
  /\ (forall m : Mat3 R, Mat3.Transposed (Mat3.Transposed m) = m)
  /\ (forall m : Mat4 R, Mat4.Transposed (Mat4.Transposed m) = m).
Proof.
  repeat match goal with |- _ /\ _ => split end.
  - exact Mat2_Transposed_Mul2.
  - exact Mat3_Transposed_Mul3.
  - exact Mat4_Transposed_Mul4.
  - exact (proj1 Det_Transposed).
  - exact (proj1 (proj2 Det_Transposed)).
  - exact (proj2 (proj2 Det_Transposed)).
  - intros m. destruct m. reflexivity.
  - intros m. destruct m. reflexivity.
  - intros m. destruct m. reflexivity.
Qed.

(** X17.  In exact arithmetic the matrix product is composition:
    multiplying a vector by [a * b] is multiplying it by [b], then by
    [a], for [Mul3x1], [Mul4x1] and the affine [Mat3x4.Mul3x1];
    [Mul3x1Transpose] multiplies by the transpose; and the affine
    [Mat3x4.Mul3x1] is [Mul4x1] of the point with last coordinate
    one. *)
Theorem matrix_vector_products_compose :
  (forall (a b : Mat3 R) (v : Vec3 R),
     Mat3.Mul3x1 (Mat3.Mul3 a b) v = Mat3.Mul3x1 a (Mat3.Mul3x1 b v))
  /\ (forall (a b : Mat4 R) (v : Vec4 R),
        Mat4.Mul4x1 (Mat4.Mul4 a b) v = Mat4.Mul4x1 a (Mat4.Mul4x1 b v))
  /\ (forall (a b : Mat3x4 R) (v : Vec3 R),
        Mat3x4.Mul3x1 (Mat3x4.Mul3x4 a b) v
        = Mat3x4.Mul3x1 a (Mat3x4.Mul3x1 b v))
  /\ (forall (m : Mat3 R) (v : Vec3 R),
        Mat3.Mul3x1Transpose m v = Mat3.Mul3x1 (Mat3.Transposed m) v)
  /\ (forall (m : Mat3x4 R) (v : Vec3 R),
        Mat3x4.Mul4x1 m (vec4 v.[0] v.[1] v.[2] 1) = Mat3x4.Mul3x1 m v).
Proof.
  repeat match goal with |- _ /\ _ => split end.
  - exact Mat3_Mul3x1_Mul3.
  - exact Mat4_Mul4x1_Mul4.
  - exact Mat3x4_Mul3x1_Mul3x4.
  - intros m v. destruct m. reflexivity.
  - exact Mat3x4_Mul4x1_point.
Qed.

(** X18.  In exact arithmetic the widening conversions [Mat2.Mat3],
    [Mat2.Mat4] and [Mat3.Mat4] preserve products and determinants: the
    wide matrix of a product is the product of the wide matrices. *)
Theorem widening_preserves_products :
  (forall a b : Mat2 R,
     Mat2.Mat3 (Mat2.Mul2 a b) = Mat3.Mul3 (Mat2.Mat3 a) (Mat2.Mat3 b))
  /\ (forall a b : Mat2 R,
        Mat2.Mat4 (Mat2.Mul2 a b) = Mat4.Mul4 (Mat2.Mat4 a) (Mat2.Mat4 b))
  /\ (forall a b : Mat3 R,
        Mat3.Mat4 (Mat3.Mul3 a b) = Mat4.Mul4 (Mat3.Mat4 a) (Mat3.Mat4 b))
  /\ (forall m : Mat2 R, Mat3.Det (Mat2.Mat3 m) = Mat2.Det m)
  /\ (forall m : Mat2 R, Mat4.Det (Mat2.Mat4 m) = Mat2.Det m)
  /\ (forall m : Mat3 R, Mat4.Det (Mat3.Mat4 m) = Mat3.Det m).
Proof.
  repeat match goal with |- _ /\ _ => split end.
  - exact Mat2_Mat3_Mul2.
  - exact Mat2_Mat4_Mul2.
  - exact Mat3_Mat4_Mul3.
  - exact (proj1 Det_embedding).
  - exact (proj1 (proj2 Det_embedding)).
  - exact (proj2 (proj2 Det_embedding)).
Qed.

(** X19.  In exact arithmetic a [Mat3x4] behaves as the 4x4 matrix with
    last row [0 0 0 1] that [Mat4] makes of it: [Mul3x4] is [Mul4] of
    the two 4x4 matrices, [Mul4] by such a matrix is [Mul3x4], [Det] is
    the 4x4 determinant, and [Ident3x4] is neutral. *)
Theorem Mat3x4_is_the_affine_Mat4 :
  (forall a b : Mat3x4 R,
     Mat3x4.Mat4 (Mat3x4.Mul3x4 a b)
     = Mat4.Mul4 (Mat3x4.Mat4 a) (Mat3x4.Mat4 b))
  /\ (forall a b : Mat3x4 R,
        Mat3x4.Mul4 a (Mat3x4.Mat4 b) = Mat3x4.Mul3x4 a b)
  /\ (forall m : Mat3x4 R, Mat4.Det (Mat3x4.Mat4 m) = Mat3x4.Det m)
  /\ (forall m : Mat3x4 R,
        Mat3x4.Mul3x4 m Ident3x4 = m /\ Mat3x4.Mul3x4 Ident3x4 m = m)
  /\ Mat3x4.Mat4 (@Ident3x4 R _) = Ident4.
Proof.
  repeat match goal with |- _ /\ _ => split end.
  - exact Mat3x4_Mat4_Mul3x4.
  - exact Mat3x4_Mul4_Mat4.
  - exact Mat3x4_Det_Mat4.
  - exact Mat3x4_Mul3x4_Ident.
  - reflexivity.
Qed.

(** X20.  Over the real numbers, [Mat3x4.Inverse] of a matrix whose
    determinant passes its test (it is not [FloatEqual] to zero) is the
    inverse of the matrix on both sides, and it is the inverse that
    [Mat4.Inverse] computes for the 4x4 matrix. *)
Theorem Mat3x4_Inverse_is_the_inverse (m : Mat3x4 R) :
  FloatEqual (Mat3x4.Det m) (lit 0) = false ->
  Mat3x4.Mul3x4 m (Mat3x4.Inverse m) = Ident3x4
  /\ Mat3x4.Mul3x4 (Mat3x4.Inverse m) m = Ident3x4
  /\ Mat3x4.Mat4 (Mat3x4.Inverse m) = Mat4.Inverse (Mat3x4.Mat4 m).
Proof.
  intros Hd. destruct (Mat3x4_Inverse_exact m Hd) as [Hr Hl].
  split; [exact Hr|]. split; [exact Hl|].
  now apply Mat3x4_Inverse_Mat4.
Qed.

(** X21.  In exact arithmetic [Mul2x3] and [Det] treat a [Mat2x3] as the
    3x3 matrix with last row [0 0 1] that [Mat3] makes of it, and
    [Ident2x3] is neutral. *)
Theorem Mat2x3_is_the_affine_Mat3 :
  (forall a b : Mat2x3 R,
     Mat2x3.Mat3 (Mat2x3.Mul2x3 a b)
     = Mat3.Mul3 (Mat2x3.Mat3 a) (Mat2x3.Mat3 b))
  /\ (forall m : Mat2x3 R, Mat3.Det (Mat2x3.Mat3 m) = Mat2x3.Det m)
  /\ (forall m : Mat2x3 R,
        Mat2x3.Mul2x3 m Ident2x3 = m /\ Mat2x3.Mul2x3 Ident2x3 m = m)
  /\ Mat2x3.Mat3 (@Ident2x3 R _) = Ident3.
Proof.
  repeat match goal with |- _ /\ _ => split end.
  - exact Mat2x3_Mat3_Mul2x3.
  - exact Mat2x3_Det_Mat3.
  - exact Mat2x3_Mul2x3_Ident.
  - reflexivity.
Qed.

(** *** Quaternions and rotations over the reals *)

Lemma Quaternion_Mul_assoc (a b c : Quaternion R) :
  Quaternion.Mul (Quaternion.Mul a b) c = Quaternion.Mul a (Quaternion.Mul b c).
Proof.
  destruct a as [w1 [x1 y1 z1]], b as [w2 [x2 y2 z2]], c as [w3 [x3 y3 z3]].
  kernel. apply quat_eq; ring.
Qed.

Lemma Quaternion_Mul_QuatIdent (q : Quaternion R) :
  Quaternion.Mul q Quaternion.QuatIdent = q
  /\ Quaternion.Mul Quaternion.QuatIdent q = q.
Proof.
  destruct q as [w [x y z]]. kernel. split; apply quat_eq; ring.
Qed.

Lemma Dot_Mul (a b : Quaternion R) :
  Quaternion.Dot (Quaternion.Mul a b) (Quaternion.Mul a b)
  = Quaternion.Dot a a * Quaternion.Dot b b.
Proof.
  destruct a as [w1 [x1 y1 z1]], b as [w2 [x2 y2 z2]]. kernel. ring.
Qed.

Lemma Conjugated_Mul (a b : Quaternion R) :
  Quaternion.Conjugated (Quaternion.Mul a b)
  = Quaternion.Mul (Quaternion.Conjugated b) (Quaternion.Conjugated a).
Proof.
  destruct a as [w1 [x1 y1 z1]], b as [w2 [x2 y2 z2]].
  kernel. apply quat_eq; ring.
Qed.

Lemma Conjugated_Conjugated (q : Quaternion R) :
  Quaternion.Conjugated (Quaternion.Conjugated q) = q.
Proof. destruct q as [w [x y z]]. kernel. apply quat_eq; ring. Qed.

Lemma Mul_Conjugated (q : Quaternion R) :
  Quaternion.Mul q (Quaternion.Conjugated q)
  = quat (Quaternion.Dot q q) (vec3 0 0 0).
Proof. destruct q as [w [x y z]]. kernel. apply quat_eq; ring. Qed.

Lemma Mat3_Mul3x1_Rotate (q : Quaternion R) (v : Vec3 R) :
  Mat3.Mul3x1 (Quaternion.Mat3 q) v = Quaternion.Rotate q v.
Proof.
  destruct q as [w [x y z]], v as [a b c].
  unfold Mat3.Mul3x1, Quaternion.Mat3, Quaternion.Rotate. kernel.
  apply vec3_eq; ring.
Qed.

Lemma Mat4_Mul_units (q1 q2 : Quaternion R) :
  unit q1 -> unit q2 ->
  Quaternion.Mat4 (Quaternion.Mul q1 q2)
  = Mat4.Mul4 (Quaternion.Mat4 q1) (Quaternion.Mat4 q2).
Proof.
  intros H1 H2. apply unit_exact in H1, H2.
  destruct q1 as [w1 [x1 y1 z1]], q2 as [w2 [x2 y2 z2]]. cbn in H1, H2.
  unfold Quaternion.Mat4, Mat4.Mul4. kernel.
  apply mat4_eq; try ring.
  all: nsatz.
Qed.

Lemma Mat3_of_unit_orthogonal (q : Quaternion R) :
  unit q ->
  Mat3.Mul3 (Mat3.Transposed (Quaternion.Mat3 q)) (Quaternion.Mat3 q) = Ident3
  /\ Mat3.Mul3 (Quaternion.Mat3 q) (Mat3.Transposed (Quaternion.Mat3 q)) = Ident3
  /\ Mat3.Det (Quaternion.Mat3 q) = 1.
Proof.
  intros Hq. apply unit_exact in Hq.
  destruct q as [w [x y z]]. cbn in Hq.
  unfold Mat3.Mul3, Mat3.Transposed, Mat3.Det, Quaternion.Mat3, Ident3.
  cbn. literals.
  split; [|split]; [apply mat3_eq | apply mat3_eq |]; nsatz.
Qed.

Lemma Rotate_Mul (q1 q2 : Quaternion R) (v : Vec3 R) :
  unit q1 -> unit q2 ->
  Quaternion.Rotate (Quaternion.Mul q1 q2) v
  = Quaternion.Rotate q1 (Quaternion.Rotate q2 v).
Proof.
  intros H1 H2. apply unit_exact in H1, H2.
  destruct q1 as [w1 [x1 y1 z1]], q2 as [w2 [x2 y2 z2]], v as [a b c].
  cbn in H1, H2. unfold Quaternion.Rotate. kernel.
  apply vec3_eq; nsatz.
Qed.

Lemma Rotate_Dot (q : Quaternion R) (u v : Vec3 R) :
  unit q ->
  Vec3.Dot (Quaternion.Rotate q u) (Quaternion.Rotate q v) = Vec3.Dot u v.
Proof.
  intros Hq. apply unit_exact in Hq.
  destruct q as [w [x y z]], u as [a b c], v as [d e f].
  cbn in Hq. unfold Quaternion.Rotate. kernel. nsatz.
Qed.

Lemma QuatRotate_unit (angle : R) (axis : Vec3 R) :
  Vec3.Dot axis axis = 1 -> unit (Quaternion.QuatRotate angle axis).
Proof.
  intros Ha. apply unit_exact. destruct axis as [x y z].
  revert Ha. unfold Quaternion.QuatRotate. kernel. intros Ha.
  pose proof (sin2_cos2 (angle * / 2)) as E. unfold Rsqr in E.
  set (s := sin _) in *. set (c := cos _) in *.
  nsatz.
Qed.

Lemma Rotate_axis (angle : R) (axis : Vec3 R) :
  Quaternion.Rotate (Quaternion.QuatRotate angle axis) axis = axis.
Proof.
  destruct axis as [x y z]. unfold Quaternion.Rotate, Quaternion.QuatRotate.
  kernel. apply vec3_eq; ring.
Qed.

Lemma QuatRotate_add (a b : R) (axis : Vec3 R) :
  Vec3.Dot axis axis = 1 ->
  Quaternion.Mul (Quaternion.QuatRotate a axis) (Quaternion.QuatRotate b axis)
  = Quaternion.QuatRotate (a + b) axis.
Proof.
  intros Ha. destruct axis as [x y z].
  revert Ha. unfold Quaternion.QuatRotate. kernel. intros Ha.
  replace ((a + b) * / 2) with (a * / 2 + b * / 2) by lra.
  rewrite sin_plus, cos_plus.
  set (sa := sin (a * / 2)). set (ca := cos (a * / 2)).
  set (sb := sin (b * / 2)). set (cb := cos (b * / 2)).
  apply quat_eq; try ring.
  transitivity (ca * cb - sa * sb * (x * x + y * y + z * z));
    [ring | rewrite Ha; ring].
Qed.

Lemma SetOrientationAndPos_Transform (m : Mat3x4 R) (q : Quaternion R)
  (p v : Vec3 R) :
  Mat3x4.Transform (Mat3x4.SetOrientationAndPos m q p) v
  = Vec3.Add (Quaternion.Rotate q v) p
  /\ Mat3x4.TransformDirection (Mat3x4.SetOrientationAndPos m q p) v
     = Quaternion.Rotate q v.
Proof.
  destruct q as [w [x y z]], p as [px py pz], v as [a b c].
  unfold Mat3x4.Transform, Mat3x4.Mul3x1, Mat3x4.TransformDirection,
    Mat3x4.SetOrientationAndPos, Quaternion.Rotate. kernel.
  split; apply vec3_eq; ring.
Qed.

Lemma sqrt_4sq (t : R) : sqrt (4 * (t * t)) = 2 * Rabs t.
Proof.
  replace (4 * (t * t)) with (Rsqr (2 * t)) by (unfold Rsqr; ring).
  rewrite sqrt_Rsqr_abs, Rabs_mult, (Rabs_right 2) by lra. reflexivity.
Qed.

Lemma Rabs_cases (t : R) : t <> 0 ->
  (0 < t /\ Rabs t = t) \/ (t < 0 /\ Rabs t = - t).
Proof.
  intros Ht. destruct (Rlt_dec 0 t) as [Hp | Hn].
  - left. split; [exact Hp | apply Rabs_right; lra].
  - right. split; [lra | apply Rabs_left; lra].
Qed.


Lemma unit_QuatIdent : unit (@Quaternion.QuatIdent R _).
Proof. apply unit_Dot. kernel. ring. Qed.

Lemma unit_Mul (q1 q2 : Quaternion R) :
  unit q1 -> unit q2 -> unit (Quaternion.Mul q1 q2).
Proof.
  intros H1 H2. apply unit_Dot in H1, H2. apply unit_Dot.
  rewrite Dot_Mul, H1, H2. ring.
Qed.

Lemma Dot_X_axis : Vec3.Dot (@X_axis R _) X_axis = 1.
Proof. unfold X_axis. kernel. ring. Qed.

Lemma Dot_Y_axis : Vec3.Dot (@Y_axis R _) Y_axis = 1.
Proof. unfold Y_axis. kernel. ring. Qed.

Lemma Dot_Z_axis : Vec3.Dot (@Z_axis R _) Z_axis = 1.
Proof. unfold Z_axis. kernel. ring. Qed.

Lemma unit_euler (a1 a2 a3 : R) (A B C : Vec3 R) :
  Vec3.Dot A A = 1 -> Vec3.Dot B B = 1 -> Vec3.Dot C C = 1 ->
  unit (euler a1 a2 a3 A B C).
Proof.
  intros HA HB HC. unfold euler.
  apply unit_Mul; [apply unit_Mul|]; now apply QuatRotate_unit.
Qed.

Section Euler.
Variables a1 a2 a3 : R.

Ltac euler :=
  unfold Quaternion.AnglesToQuat, euler, Quaternion.QuatRotate,
    Quaternion.Sincos, X_axis, Y_axis, Z_axis;
  cbn [Z.eqb XYX XYZ XZX XZY YXY YXZ YZY YZX ZYZ ZYX ZXZ ZXY Pos.eqb];
  f_equal; kernel; unfold Rdiv;
  set (s0 := sin (a1 * / 2)); set (c0 := cos (a1 * / 2));
  set (s1 := sin (a2 * / 2)); set (c1 := cos (a2 * / 2));
  set (s2 := sin (a3 * / 2)); set (c2 := cos (a3 * / 2));
  apply quat_eq; ring.

Lemma AnglesToQuat_XYX :
  Quaternion.AnglesToQuat a1 a2 a3 XYX
  = Return (euler a1 a2 a3 X_axis Y_axis X_axis).
Proof. euler. Qed.

Lemma AnglesToQuat_XYZ :
  Quaternion.AnglesToQuat a1 a2 a3 XYZ
  = Return (euler a1 a2 a3 X_axis Y_axis Z_axis).
Proof. euler. Qed.

Lemma AnglesToQuat_XZX :
  Quaternion.AnglesToQuat a1 a2 a3 XZX
  = Return (euler a1 a2 a3 X_axis Z_axis X_axis).
Proof. euler. Qed.

Lemma AnglesToQuat_XZY :
  Quaternion.AnglesToQuat a1 a2 a3 XZY
  = Return (euler a1 a2 a3 X_axis Z_axis Y_axis).
Proof. euler. Qed.

Lemma AnglesToQuat_YXY :
  Quaternion.AnglesToQuat a1 a2 a3 YXY
  = Return (euler a1 a2 a3 Y_axis X_axis Y_axis).
Proof. euler. Qed.

Lemma AnglesToQuat_YXZ :
  Quaternion.AnglesToQuat a1 a2 a3 YXZ
  = Return (euler a1 a2 a3 Y_axis X_axis Z_axis).
Proof. euler. Qed.

Lemma AnglesToQuat_YZY :
  Quaternion.AnglesToQuat a1 a2 a3 YZY
  = Return (euler a1 a2 a3 Y_axis Z_axis Y_axis).
Proof. euler. Qed.

Lemma AnglesToQuat_YZX :
  Quaternion.AnglesToQuat a1 a2 a3 YZX
  = Return (euler a1 a2 a3 Y_axis Z_axis X_axis).
Proof. euler. Qed.

Lemma AnglesToQuat_ZYZ :
  Quaternion.AnglesToQuat a1 a2 a3 ZYZ
  = Return (euler a1 a2 a3 Z_axis Y_axis Z_axis).
Proof. euler. Qed.

Lemma AnglesToQuat_ZYX :
  Quaternion.AnglesToQuat a1 a2 a3 ZYX
  = Return (euler a1 a2 a3 Z_axis Y_axis X_axis).
Proof. euler. Qed.

Lemma AnglesToQuat_ZXZ :
  Quaternion.AnglesToQuat a1 a2 a3 ZXZ
  = Return (euler a1 a2 a3 Z_axis X_axis Z_axis).
Proof. euler. Qed.

Lemma AnglesToQuat_ZXY :
  Quaternion.AnglesToQuat a1 a2 a3 ZXY
  = Return (euler a1 a2 a3 Z_axis X_axis Y_axis).
Proof. euler. Qed.

Lemma AnglesToQuat_unit (order : RotationOrder) (q : Quaternion R) :
  Quaternion.AnglesToQuat a1 a2 a3 order = Return q -> unit q.
Proof.
  intros E.
  destruct (order_cases order) as [Hin | Hne].
  - unfold valid_orders in Hin. cbn [In] in Hin.
    pose proof Dot_X_axis. pose proof Dot_Y_axis. pose proof Dot_Z_axis.
    destruct Hin as [<- | Hin];
      [rewrite AnglesToQuat_XYX in E; injection E as <-; now apply unit_euler|].
    destruct Hin as [<- | Hin];
      [rewrite AnglesToQuat_XYZ in E; injection E as <-; now apply unit_euler|].
    destruct Hin as [<- | Hin];
      [rewrite AnglesToQuat_XZX in E; injection E as <-; now apply unit_euler|].
    destruct Hin as [<- | Hin];
      [rewrite AnglesToQuat_XZY in E; injection E as <-; now apply unit_euler|].
    destruct Hin as [<- | Hin];
      [rewrite AnglesToQuat_YXY in E; injection E as <-; now apply unit_euler|].
    destruct Hin as [<- | Hin];
      [rewrite AnglesToQuat_YXZ in E; injection E as <-; now apply unit_euler|].
    destruct Hin as [<- | Hin];
      [rewrite AnglesToQuat_YZY in E; injection E as <-; now apply unit_euler|].
    destruct Hin as [<- | Hin];
      [rewrite AnglesToQuat_YZX in E; injection E as <-; now apply unit_euler|].
    destruct Hin as [<- | Hin];
      [rewrite AnglesToQuat_ZYZ in E; injection E as <-; now apply unit_euler|].
    destruct Hin as [<- | Hin];
      [rewrite AnglesToQuat_ZYX in E; injection E as <-; now apply unit_euler|].
    destruct Hin as [<- | Hin];
      [rewrite AnglesToQuat_ZXZ in E; injection E as <-; now apply unit_euler|].
    destruct Hin as [<- | Hin];
      [rewrite AnglesToQuat_ZXY in E; injection E as <-; now apply unit_euler|].
    contradiction.
  - exfalso. revert E. unfold Quaternion.AnglesToQuat, Quaternion.Sincos.
    destruct Hne as (E1 & E2 & E3 & E4 & E5 & E6 & E7 & E8 & E9 & E10 & E11 & E12).
    rewrite E1, E2, E3, E4, E5, E6, E7, E8, E9, E10, E11, E12. discriminate.
Qed.

End Euler.

(** X22.  In exact arithmetic the quaternion product [Mul] is
    associative with [QuatIdent] as neutral element on both sides, the
    squared norm of a product is the product of the squared norms,
    [Conjugated] reverses products and undoes itself, and a quaternion
    times its conjugate is its squared norm. *)
Theorem Quaternion_Mul_algebra :
  (forall a b c : Quaternion R,
     Quaternion.Mul (Quaternion.Mul a b) c
     = Quaternion.Mul a (Quaternion.Mul b c))
  /\ (forall q : Quaternion R,
        Quaternion.Mul q Quaternion.QuatIdent = q
        /\ Quaternion.Mul Quaternion.QuatIdent q = q)
  /\ (forall a b : Quaternion R,
        Quaternion.Dot (Quaternion.Mul a b) (Quaternion.Mul a b)
        = Quaternion.Dot a a * Quaternion.Dot b b)
  /\ (forall a b : Quaternion R,
        Quaternion.Conjugated (Quaternion.Mul a b)
        = Quaternion.Mul (Quaternion.Conjugated b) (Quaternion.Conjugated a))
  /\ (forall q : Quaternion R,
        Quaternion.Conjugated (Quaternion.Conjugated q) = q)
  /\ (forall q : Quaternion R,
        Quaternion.Mul q (Quaternion.Conjugated q)
        = quat (Quaternion.Dot q q) (vec3 0 0 0)).
Proof.
  repeat match goal with |- _ /\ _ => split end.
  - exact Quaternion_Mul_assoc.
  - exact Quaternion_Mul_QuatIdent.
  - exact Dot_Mul.
  - exact Conjugated_Mul.
  - exact Conjugated_Conjugated.
  - exact Mul_Conjugated.
Qed.

(** X23.  In exact arithmetic [Inverse] of a quaternion other than zero
    is its inverse on both sides: the products with it are
    [QuatIdent]. *)
Theorem Quaternion_Inverse_is_the_inverse (q : Quaternion R) :
  Quaternion.Dot q q <> 0 ->
  Quaternion.Mul q (Quaternion.Inverse q) = Quaternion.QuatIdent
  /\ Quaternion.Mul (Quaternion.Inverse q) q = Quaternion.QuatIdent.
Proof.
  intros Hq. unfold Quaternion.Inverse.
  destruct q as [w [x y z]]. revert Hq. kernel. intros Hq.
  split; apply quat_eq; field; exact Hq.
Qed.

(** X24.  In exact arithmetic [Rotate] is the product with the rotation
    matrix, for every quaternion: [q.Mat3().Mul3x1(v) = q.Rotate(v)];
    and the [Mat3x4] that [SetOrientationAndPos(q, p)] leaves transforms
    a point to [q.Rotate(v) + p] and a direction to [q.Rotate(v)]. *)
Theorem Rotate_is_the_rotation_matrix
  (q : Quaternion R) (m : Mat3x4 R) (p v : Vec3 R) :
  Mat3.Mul3x1 (Quaternion.Mat3 q) v = Quaternion.Rotate q v
  /\ Mat3x4.Transform (Mat3x4.SetOrientationAndPos m q p) v
     = Vec3.Add (Quaternion.Rotate q v) p
  /\ Mat3x4.TransformDirection (Mat3x4.SetOrientationAndPos m q p) v
     = Quaternion.Rotate q v.
Proof.
  split; [apply Mat3_Mul3x1_Rotate | apply SetOrientationAndPos_Transform].
Qed.

(** X25.  In exact arithmetic the rotation matrix of a unit quaternion
    is orthogonal with determinant one, and [Rotate] by a unit
    quaternion keeps dot products, hence lengths and angles. *)
Theorem unit_quaternion_rotates (q : Quaternion R) :
  unit q ->
  Mat3.Mul3 (Mat3.Transposed (Quaternion.Mat3 q)) (Quaternion.Mat3 q) = Ident3
  /\ Mat3.Mul3 (Quaternion.Mat3 q) (Mat3.Transposed (Quaternion.Mat3 q))
     = Ident3
  /\ Mat3.Det (Quaternion.Mat3 q) = 1
  /\ (forall u v : Vec3 R,
        Vec3.Dot (Quaternion.Rotate q u) (Quaternion.Rotate q v)
        = Vec3.Dot u v).
Proof.
  intros Hq. destruct (Mat3_of_unit_orthogonal q Hq) as (H1 & H2 & H3).
  repeat split; trivial. intros u v. now apply Rotate_Dot.
Qed.

(** X26.  In exact arithmetic the product of two unit quaternions is a
    unit quaternion and stands for the composition of the two rotations,
    the right factor applied first: its rotation matrix is the product
    of the two rotation matrices, and [Rotate] by it is [Rotate] by the
    right factor, then by the left. *)
Theorem unit_quaternions_compose (q1 q2 : Quaternion R) :
  unit q1 -> unit q2 ->
  unit (Quaternion.Mul q1 q2)
  /\ Quaternion.Mat4 (Quaternion.Mul q1 q2)
     = Mat4.Mul4 (Quaternion.Mat4 q1) (Quaternion.Mat4 q2)
  /\ (forall v : Vec3 R,
        Quaternion.Rotate (Quaternion.Mul q1 q2) v
        = Quaternion.Rotate q1 (Quaternion.Rotate q2 v)).
Proof.
  intros H1 H2. split; [now apply unit_Mul|].
  split; [now apply Mat4_Mul_units|].
  intros v. now apply Rotate_Mul.
Qed.

(** X27.  In exact arithmetic [Mat4ToQuat] inverts [Mat4] up to sign:
    from the rotation matrix of a unit quaternion [q] it returns [q] or
    [-q], which stand for the same rotation. *)
Theorem Mat4ToQuat_inverts_Mat4_up_to_sign (q : Quaternion R) :
  unit q ->
  Mat4ToQuat (Quaternion.Mat4 q) = q
  \/ Mat4ToQuat (Quaternion.Mat4 q) = Quaternion.Scale q (lit (-1)).
Proof.
  intros Hq. apply unit_exact in Hq.
  destruct q as [w [x y z]]. cbn in Hq.
  unfold Mat4ToQuat, Quaternion.Mat4, Quaternion.Scale.
  cbn -[Rmult Rplus Rminus Rdiv sqrt]. literals.
  change (@lit R _ 0.25) with (Q2R 0.25).
  replace (Q2R 0.25) with (/ 4) by (unfold Q2R; cbn; lra).
  change (@ltb R R_scalar) with Exact.ltb.
  destruct (Exact.ltb 0 _) eqn:Etr.
  { apply ltb_true in Etr.
    replace (1 - 2 * y * y - 2 * z * z + (1 - 2 * x * x - 2 * z * z)
             + (1 - 2 * x * x - 2 * y * y) + 1) with (4 * (w * w)) by nra.
    rewrite sqrt_4sq.
    assert (Hw : w <> 0) by (intros ->; nra).
    destruct (Rabs_cases w Hw) as [[Hs ->] | [Hs ->]];
      [left | right]; apply quat_eq; field; lra. }
  apply ltb_false in Etr.
  destruct (Exact.ltb (1 - 2 * x * x - 2 * z * z) _) eqn:E05.
  { destruct (Exact.ltb (1 - 2 * x * x - 2 * y * y) _) eqn:E010; cbn [andb].
    { apply ltb_true in E05.
      replace (1 + (1 - 2 * y * y - 2 * z * z) - (1 - 2 * x * x - 2 * z * z)
               - (1 - 2 * x * x - 2 * y * y)) with (4 * (x * x)) by ring.
      rewrite sqrt_4sq.
      assert (Hx : x <> 0) by (intros ->; nra).
      destruct (Rabs_cases x Hx) as [[Hs ->] | [Hs ->]];
        [left | right]; apply quat_eq; field; lra. }
    apply ltb_false in E010.
    destruct (Exact.ltb (1 - 2 * x * x - 2 * y * y) _) eqn:E510.
    { apply ltb_true in E510.
      replace (1 + (1 - 2 * x * x - 2 * z * z) - (1 - 2 * y * y - 2 * z * z)
               - (1 - 2 * x * x - 2 * y * y)) with (4 * (y * y)) by ring.
      rewrite sqrt_4sq.
      assert (Hy : y <> 0) by (intros ->; nra).
      destruct (Rabs_cases y Hy) as [[Hs ->] | [Hs ->]];
        [left | right]; apply quat_eq; field; lra. }
    apply ltb_false in E510. apply ltb_true in E05.
    replace (1 + (1 - 2 * x * x - 2 * y * y) - (1 - 2 * y * y - 2 * z * z)
             - (1 - 2 * x * x - 2 * z * z)) with (4 * (z * z)) by ring.
    rewrite sqrt_4sq.
    assert (Hz : z <> 0) by (intros ->; nra).
    destruct (Rabs_cases z Hz) as [[Hs ->] | [Hs ->]];
      [left | right]; apply quat_eq; field; lra. }
  cbn [andb]. apply ltb_false in E05.
  destruct (Exact.ltb (1 - 2 * x * x - 2 * y * y) _) eqn:E510.
  { apply ltb_true in E510.
    replace (1 + (1 - 2 * x * x - 2 * z * z) - (1 - 2 * y * y - 2 * z * z)
             - (1 - 2 * x * x - 2 * y * y)) with (4 * (y * y)) by ring.
    rewrite sqrt_4sq.
    assert (Hy : y <> 0) by (intros ->; nra).
    destruct (Rabs_cases y Hy) as [[Hs ->] | [Hs ->]];
      [left | right]; apply quat_eq; field; lra. }
  apply ltb_false in E510.
  replace (1 + (1 - 2 * x * x - 2 * y * y) - (1 - 2 * y * y - 2 * z * z)
           - (1 - 2 * x * x - 2 * z * z)) with (4 * (z * z)) by ring.
  rewrite sqrt_4sq.
  assert (Hz : z <> 0) by (intros ->; nra).
  destruct (Rabs_cases z Hz) as [[Hs ->] | [Hs ->]];
    [left | right]; apply quat_eq; field; lra.
Qed.

(** X28.  In exact arithmetic [AnglesToQuat] returns, for each of the
    twelve orders, the product of the three axis rotations that
    [QuatRotate] makes, by the first angle about the first axis the
    order names, then the second, then the third, multiplied from left
    to right; whatever it returns is a unit quaternion. *)
Theorem AnglesToQuat_is_a_product_of_axis_rotations (a1 a2 a3 : R) :
  Quaternion.AnglesToQuat a1 a2 a3 XYX
  = Return (euler a1 a2 a3 X_axis Y_axis X_axis)
  /\ Quaternion.AnglesToQuat a1 a2 a3 XYZ
     = Return (euler a1 a2 a3 X_axis Y_axis Z_axis)
  /\ Quaternion.AnglesToQuat a1 a2 a3 XZX
     = Return (euler a1 a2 a3 X_axis Z_axis X_axis)
  /\ Quaternion.AnglesToQuat a1 a2 a3 XZY
     = Return (euler a1 a2 a3 X_axis Z_axis Y_axis)
  /\ Quaternion.AnglesToQuat a1 a2 a3 YXY
     = Return (euler a1 a2 a3 Y_axis X_axis Y_axis)
  /\ Quaternion.AnglesToQuat a1 a2 a3 YXZ
     = Return (euler a1 a2 a3 Y_axis X_axis Z_axis)
  /\ Quaternion.AnglesToQuat a1 a2 a3 YZY
     = Return (euler a1 a2 a3 Y_axis Z_axis Y_axis)
  /\ Quaternion.AnglesToQuat a1 a2 a3 YZX
     = Return (euler a1 a2 a3 Y_axis Z_axis X_axis)
  /\ Quaternion.AnglesToQuat a1 a2 a3 ZYZ
     = Return (euler a1 a2 a3 Z_axis Y_axis Z_axis)
  /\ Quaternion.AnglesToQuat a1 a2 a3 ZYX
     = Return (euler a1 a2 a3 Z_axis Y_axis X_axis)
  /\ Quaternion.AnglesToQuat a1 a2 a3 ZXZ
     = Return (euler a1 a2 a3 Z_axis X_axis Z_axis)
  /\ Quaternion.AnglesToQuat a1 a2 a3 ZXY
     = Return (euler a1 a2 a3 Z_axis X_axis Y_axis)
  /\ (forall (order : RotationOrder) (q : Quaternion R),
        Quaternion.AnglesToQuat a1 a2 a3 order = Return q -> unit q).
Proof.
  repeat match goal with |- _ /\ _ => split end.
  - apply AnglesToQuat_XYX.
  - apply AnglesToQuat_XYZ.
  - apply AnglesToQuat_XZX.
  - apply AnglesToQuat_XZY.
  - apply AnglesToQuat_YXY.
  - apply AnglesToQuat_YXZ.
  - apply AnglesToQuat_YZY.
  - apply AnglesToQuat_YZX.
  - apply AnglesToQuat_ZYZ.
  - apply AnglesToQuat_ZYX.
  - apply AnglesToQuat_ZXZ.
  - apply AnglesToQuat_ZXY.
  - apply AnglesToQuat_unit.
Qed.

(** X29.  In exact arithmetic [QuatRotate] about an axis of length one
    returns a unit quaternion, rotations about the same axis multiply by
    adding their angles, and the rotation leaves its axis where it
    is. *)
Theorem QuatRotate_about_a_unit_axis (axis : Vec3 R) :
  Vec3.Dot axis axis = 1 ->
  (forall angle : R, unit (Quaternion.QuatRotate angle axis))
  /\ (forall a b : R,
        Quaternion.Mul (Quaternion.QuatRotate a axis)
                       (Quaternion.QuatRotate b axis)
        = Quaternion.QuatRotate (a + b) axis)
  /\ (forall angle : R,
        Quaternion.Rotate (Quaternion.QuatRotate angle axis) axis = axis).
Proof.
  intros Ha. split; [|split].
  - intros angle. now apply QuatRotate_unit.
  - intros a b. now apply QuatRotate_add.
  - intros angle. apply Rotate_axis.
Qed.

(** X30.  In exact arithmetic, on the [Mat3x4] that
    [SetOrientationAndPos] leaves for a unit quaternion,
    [TransformInverse] undoes [Transform] and [Transform] undoes
    [TransformInverse], and [TransformInverseDirection] undoes
    [TransformDirection]. *)
Theorem TransformInverse_undoes_Transform
  (m : Mat3x4 R) (q : Quaternion R) (p v : Vec3 R) :
  unit q ->
  let t := Mat3x4.SetOrientationAndPos m q p in
  Mat3x4.TransformInverse t (Mat3x4.Transform t v) = v
  /\ Mat3x4.Transform t (Mat3x4.TransformInverse t v) = v
  /\ Mat3x4.TransformInverseDirection t (Mat3x4.TransformDirection t v) = v.
Proof.
  intros Hq. apply unit_exact in Hq. cbv zeta.
  destruct q as [w [x y z]], p as [px py pz], v as [a b c]. cbn in Hq.
  unfold Mat3x4.Transform, Mat3x4.Mul3x1, Mat3x4.TransformInverse,
    Mat3x4.TransformDirection, Mat3x4.TransformInverseDirection,
    Mat3x4.SetOrientationAndPos. kernel.
  split; [|split]; apply vec3_eq; nsatz.
Qed.

(** *** The rotation of a node over the reals *)

Lemma MulWith_Mul (a b : Quaternion R) :
  Quaternion.MulWith a b = Quaternion.Mul a b.
Proof.
  destruct a as [w [x y z]], b as [w' [x' y' z']].
  kernel. apply quat_eq; ring.
Qed.

Lemma RotateAroundAxis_unit (n : Node R) (axis : Vec3 R) (angle : R) :
  Vec3.Dot axis axis = 1 -> unit (rotation n) ->
  unit (rotation (Node.RotateAroundAxis n axis angle)).
Proof.
  intros Ha Hn. unfold Node.RotateAroundAxis. cbn [rotation Node.with_rotation
    Node.with_transformValid].
  rewrite MulWith_Mul. apply unit_Mul; [exact Hn|].
  now apply QuatRotate_unit.
Qed.

Lemma call_keeps_unit (n : Node R) (c : Call R) :
  keeps_unit c -> unit (rotation n) -> unit (rotation (call n c)).
Proof.
  intros Hc Hn.
  destruct c as [m|]; [destruct m|]; cbn [call mutate keeps_unit] in Hc |- *.
  - exact Hn.
  - exact Hn.
  - exact Hn.
  - exact Hn.
  - exact Hn.
  - exact Hc.
  - change (@lit R _ 1) with (Q2R 1) in Hc. rewrite lit_1 in Hc.
    now apply RotateAroundAxis_unit.
  - unfold Node.RotateX. cbn [rotation Node.with_transformValid].
    exact (RotateAroundAxis_unit n X_axis angle Dot_X_axis Hn).
  - unfold Node.RotateY. cbn [rotation Node.with_transformValid].
    exact (RotateAroundAxis_unit n Y_axis angle Dot_Y_axis Hn).
  - unfold Node.RotateZ. cbn [rotation Node.with_transformValid].
    exact (RotateAroundAxis_unit n Z_axis angle Dot_Z_axis Hn).
  - exact Hn.
  - exact Hn.
  - exact Hn.
  - exact Hn.
  - exact Hn.
  - unfold Node.getTransform.
    destruct (transformValid n); exact Hn.
Qed.

(** X14.  In exact arithmetic the rotation of a node stays a unit
    quaternion: from a node whose rotation is a unit (a new node's is),
    no sequence of mutator calls and transform queries leads to another
    one, unless it sets a rotation that is not a unit or turns about an
    axis whose length is not one.  Two turns about the same axis of
    length one leave the rotation that one turn by the sum of the angles
    leaves. *)
Theorem Node_rotation_stays_unit :
  (forall (cs : list (Call R)) (n : Node R),
     Forall keeps_unit cs -> unit (rotation n) -> unit (rotation (run cs n)))
  /\ (forall (n : Node R) (axis : Vec3 R) (a b : R),
        Vec3.Dot axis axis = 1 ->
        rotation (Node.RotateAroundAxis (Node.RotateAroundAxis n axis a)
                                        axis b)
        = rotation (Node.RotateAroundAxis n axis (a + b))).
Proof.
  split.
  - intros cs. induction cs as [|c cs IH]; intros n Hcs Hn; [exact Hn|].
    inversion Hcs as [|c' cs' Hc Hcs']; subst.
    cbn [run fold_left]. apply IH; [exact Hcs'|].
    now apply call_keeps_unit.
  - intros n axis a b Ha. unfold Node.RotateAroundAxis.
    cbn [rotation Node.with_rotation Node.with_transformValid].
    rewrite !MulWith_Mul, Quaternion_Mul_assoc.
    now rewrite QuatRotate_add.
Qed.

(** *** Instances of the theorems of this section *)

(** C4 at the matrix [2 * I]. *)
Lemma Inverse_is_inverse_witness :
  FloatEqual (Mat2.Det (mat2 2 0 0 2)) (lit 0) = false
  /\ Mat2.Mul2 (mat2 2 0 0 2) (Mat2.Inverse (mat2 2 0 0 2)) = Ident2.
Proof.
  assert (Hd : FloatEqual (Mat2.Det (mat2 2 0 0 2)) (lit 0) = false).
  { apply FloatEqual_zero. unfold Mat2.Det. cbn.
    rewrite Epsilon_value, Rabs_right; lra. }
  split; [exact Hd|].
  exact (proj1 Inverse_is_inverse_in_exact_arithmetic (mat2 2 0 0 2) Hd).
Defined.


(** C8 for the half-turn about the first axis and the second axis. *)
Lemma Rotate_is_sandwich_witness :
  unit (quat 0 (vec3 1 0 0))
  /\ Quaternion.Rotate (quat 0 (vec3 1 0 0)) (vec3 0 1 0)
     = sandwich (quat 0 (vec3 1 0 0)) (vec3 0 1 0).
Proof.
  assert (H1 : unit (quat 0 (vec3 1 0 0))) by (apply unit_Dot; kernel; ring).
  split; [exact H1|].
  exact (Rotate_is_sandwich_in_exact_arithmetic _ (vec3 0 1 0) H1).
Defined.

(** X15 at the matrices [2 * I] and [3 * I]. *)
Lemma Inverse_algebra_witness :
  FloatEqual (Mat2.Det (mat2 2 0 0 2)) (lit 0) = false
  /\ FloatEqual (Mat2.Det (Mat2.Inverse (mat2 2 0 0 2))) (lit 0) = false
  /\ FloatEqual (Mat2.Det (mat2 3 0 0 3)) (lit 0) = false
  /\ FloatEqual (Mat2.Det (Mat2.Mul2 (mat2 2 0 0 2) (mat2 3 0 0 3))) (lit 0)
     = false
  /\ Mat2.Mul2 (Mat2.Inverse (mat2 2 0 0 2)) (mat2 2 0 0 2) = Ident2
  /\ Mat2.Det (Mat2.Inverse (mat2 2 0 0 2)) = / Mat2.Det (mat2 2 0 0 2)
  /\ Mat2.Inverse (Mat2.Inverse (mat2 2 0 0 2)) = mat2 2 0 0 2
  /\ Mat2.Inverse (Mat2.Mul2 (mat2 2 0 0 2) (mat2 3 0 0 3))
     = Mat2.Mul2 (Mat2.Inverse (mat2 3 0 0 3)) (Mat2.Inverse (mat2 2 0 0 2)).
Proof.
  assert (H2 : FloatEqual (Mat2.Det (mat2 2 0 0 2)) (lit 0) = false).
  { apply FloatEqual_zero. unfold Mat2.Det. cbn.
    rewrite Epsilon_value, Rabs_right; lra. }
  assert (H3 : FloatEqual (Mat2.Det (mat2 3 0 0 3)) (lit 0) = false).
  { apply FloatEqual_zero. unfold Mat2.Det. cbn.
    rewrite Epsilon_value, Rabs_right; lra. }
  assert (H6 : FloatEqual (Mat2.Det (Mat2.Mul2 (mat2 2 0 0 2) (mat2 3 0 0 3)))
                          (lit 0) = false).
  { apply FloatEqual_zero. unfold Mat2.Det, Mat2.Mul2. cbn.
    rewrite Epsilon_value, Rabs_right; lra. }
  destruct (proj1 Inverse_algebra (mat2 2 0 0 2) H2) as (Hl & Hd & Hi & Hp).
  assert (H4 : FloatEqual (Mat2.Det (Mat2.Inverse (mat2 2 0 0 2))) (lit 0)
               = false).
  { apply FloatEqual_zero. rewrite Hd. unfold Mat2.Det. cbn.
    rewrite Epsilon_value, Rabs_right; lra. }
  split; [exact H2|]. split; [exact H4|]. split; [exact H3|].
  split; [exact H6|].
  split; [exact Hl|]. split; [exact Hd|]. split; [exact (Hi H4)|].
  exact (Hp (mat2 3 0 0 3) H3 H6).
Defined.

(** X20 at the scaling by two followed by a translation. *)
Lemma Mat3x4_Inverse_is_the_inverse_witness :
  FloatEqual (Mat3x4.Det (mat3x4 2 0 0 0 2 0 0 0 2 1 1 1)) (lit 0) = false
  /\ Mat3x4.Mul3x4 (mat3x4 2 0 0 0 2 0 0 0 2 1 1 1)
                   (Mat3x4.Inverse (mat3x4 2 0 0 0 2 0 0 0 2 1 1 1))
     = Ident3x4.
Proof.
  assert (Hd : FloatEqual (Mat3x4.Det (mat3x4 2 0 0 0 2 0 0 0 2 1 1 1))
                          (lit 0) = false).
  { apply FloatEqual_zero. unfold Mat3x4.Det. cbn.
    rewrite Epsilon_value, Rabs_right; lra. }
  split; [exact Hd|].
  exact (proj1 (Mat3x4_Inverse_is_the_inverse _ Hd)).
Defined.

(** X23 at the quaternion [2i]. *)
Lemma Quaternion_Inverse_is_the_inverse_witness :
  Quaternion.Dot (quat 0 (vec3 2 0 0)) (quat 0 (vec3 2 0 0)) <> 0
  /\ Quaternion.Mul (quat 0 (vec3 2 0 0))
                    (Quaternion.Inverse (quat 0 (vec3 2 0 0)))
     = Quaternion.QuatIdent.
Proof.
  assert (Hq : Quaternion.Dot (quat 0 (vec3 2 0 0)) (quat 0 (vec3 2 0 0)) <> 0)
    by (kernel; lra).
  split; [exact Hq|].
  exact (proj1 (Quaternion_Inverse_is_the_inverse _ Hq)).
Defined.

(** X25 for the half-turn about the first axis. *)
Lemma unit_quaternion_rotates_witness :
  unit (quat 0 (vec3 1 0 0))
  /\ Mat3.Det (Quaternion.Mat3 (quat 0 (vec3 1 0 0))) = 1.
Proof.
  assert (H1 : unit (quat 0 (vec3 1 0 0))) by (apply unit_Dot; kernel; ring).
  split; [exact H1|].
  exact (proj1 (proj2 (proj2 (unit_quaternion_rotates _ H1)))).
Defined.

(** X26 for the half-turns about the first and the second axis. *)
Lemma unit_quaternions_compose_witness :
  unit (quat 0 (vec3 1 0 0)) /\ unit (quat 0 (vec3 0 1 0))
  /\ Quaternion.Mat4 (Quaternion.Mul (quat 0 (vec3 1 0 0))
                                     (quat 0 (vec3 0 1 0)))
     = Mat4.Mul4 (Quaternion.Mat4 (quat 0 (vec3 1 0 0)))
                 (Quaternion.Mat4 (quat 0 (vec3 0 1 0))).
Proof.
  assert (H1 : unit (quat 0 (vec3 1 0 0))) by (apply unit_Dot; kernel; ring).
  assert (H2 : unit (quat 0 (vec3 0 1 0))) by (apply unit_Dot; kernel; ring).
  split; [exact H1|]. split; [exact H2|].
  exact (proj1 (proj2 (unit_quaternions_compose _ _ H1 H2))).
Defined.

(** X27 for the half-turn about the first axis. *)
Lemma Mat4ToQuat_inverts_Mat4_up_to_sign_witness :
  unit (quat 0 (vec3 1 0 0))
  /\ (Mat4ToQuat (Quaternion.Mat4 (quat 0 (vec3 1 0 0)))
      = quat 0 (vec3 1 0 0)
      \/ Mat4ToQuat (Quaternion.Mat4 (quat 0 (vec3 1 0 0)))
         = Quaternion.Scale (quat 0 (vec3 1 0 0)) (lit (-1))).
Proof.
  assert (H1 : unit (quat 0 (vec3 1 0 0))) by (apply unit_Dot; kernel; ring).
  split; [exact H1|].
  exact (Mat4ToQuat_inverts_Mat4_up_to_sign _ H1).
Defined.

(** X28 for the order [XYZ] and the angles one, two and three. *)
Lemma AnglesToQuat_is_a_product_of_axis_rotations_witness :
  Quaternion.AnglesToQuat 1 2 3 XYZ
  = Return (euler 1 2 3 X_axis Y_axis Z_axis)
  /\ unit (euler 1 2 3 X_axis Y_axis Z_axis).
Proof.
  destruct (AnglesToQuat_is_a_product_of_axis_rotations 1 2 3)
    as (_ & E & _ & _ & _ & _ & _ & _ & _ & _ & _ & _ & Hu).
  split; [exact E|]. exact (Hu XYZ _ E).
Defined.

(** X29 about the first axis. *)
Lemma QuatRotate_about_a_unit_axis_witness :
  Vec3.Dot (vec3 1 0 0) (vec3 1 0 0) = 1
  /\ unit (Quaternion.QuatRotate PI (vec3 1 0 0)).
Proof.
  assert (Ha : Vec3.Dot (vec3 1 0 0) (vec3 1 0 0) = 1) by (kernel; ring).
  split; [exact Ha|].
  exact (proj1 (QuatRotate_about_a_unit_axis _ Ha) PI).
Defined.

(** X30 for the half-turn about the first axis and a translation. *)
Lemma TransformInverse_undoes_Transform_witness :
  unit (quat 0 (vec3 1 0 0))
  /\ Mat3x4.TransformInverse
       (Mat3x4.SetOrientationAndPos Mat3x4.Zero (quat 0 (vec3 1 0 0))
                                    (vec3 1 2 3))
       (Mat3x4.Transform
          (Mat3x4.SetOrientationAndPos Mat3x4.Zero (quat 0 (vec3 1 0 0))
                                       (vec3 1 2 3))
          (vec3 4 5 6))
     = vec3 4 5 6.
Proof.
  assert (H1 : unit (quat 0 (vec3 1 0 0))) by (apply unit_Dot; kernel; ring).
  split; [exact H1|].
  exact (proj1 (TransformInverse_undoes_Transform Mat3x4.Zero _ (vec3 1 2 3)
                  (vec3 4 5 6) H1)).
Defined.

(** X14 for a new node turned by a half-turn about the first axis,
    queried, and moved. *)
Lemma Node_rotation_stays_unit_witness :
  Forall keeps_unit [Mutate (RotateX PI); Query; Mutate (TranslateX 1)]
  /\ unit (rotation (@Node.NewNode R _))
  /\ unit (rotation (run [Mutate (RotateX PI); Query; Mutate (TranslateX 1)]
                         Node.NewNode)).
Proof.
  assert (Hc : Forall keeps_unit
                 [Mutate (RotateX PI); Query; Mutate (TranslateX 1)])
    by (repeat constructor).
  assert (Hn : unit (rotation (@Node.NewNode R _)))
    by (apply unit_Dot; kernel; ring).
  split; [exact Hc|]. split; [exact Hn|].
  exact (proj1 Node_rotation_stays_unit _ _ Hc Hn).
Defined.

End ExactArithmetic.

(** ** binary32: the code run on concrete inputs *)

Section Binary32.

(** The code on small inputs.  A translation by [1] along the first axis
    and a scale by [2] compose to a matrix that scales before it
    translates, as [TestTransform] of node_test.go expects; the
    elementary functions are not called, whatever they are. *)
Example localTransform_translate_scale `{Elementary B32.t} :
  localTransform
    (run [Mutate (TranslateX (lit 1)); Mutate (ScaleX (lit 2));
          Mutate (ScaleY (lit 2)); Mutate (ScaleZ (lit 2))]
         (Node.NewNode (F := B32.t)))
  = mat4 (lit 2) (lit 0) (lit 0) (lit 0)
         (lit 0) (lit 2) (lit 0) (lit 0)
         (lit 0) (lit 0) (lit 2) (lit 0)
         (lit 1) (lit 0) (lit 0) (lit 1).
Proof. vm_compute. reflexivity. Qed.

Example Mat2_Inverse_regular :
  Mat2.Inverse (mat2 (lit 1) (lit 2) (lit 3) (lit 4) : Mat2 B32.t)
  = mat2 (lit (-2)) (lit 1) (lit 1.5) (lit (-0.5))
  /\ Mat2.Mul2 (mat2 (lit 1) (lit 2) (lit 3) (lit 4) : Mat2 B32.t)
               (Mat2.Inverse (mat2 (lit 1) (lit 2) (lit 3) (lit 4)))
     = Ident2.
Proof. vm_compute. split; reflexivity. Qed.

Example Mat2_Inverse_singular :
  Mat2.Inverse (mat2 (lit 1) (lit 2) (lit 2) (lit 4) : Mat2 B32.t)
  = mat2 (lit 0) (lit 0) (lit 0) (lit 0).
Proof. vm_compute. reflexivity. Qed.

Example Mat4_Inverse_translation :
  Mat4.Inverse (Translation (vec3 (lit 1) (lit 2) (lit 3)) : Mat4 B32.t)
  = mat4 (lit 1) (lit 0) (lit 0) (lit 0)
         (lit 0) (lit 1) (lit 0) (lit 0)
         (lit 0) (lit 0) (lit 1) (lit 0)
         (lit (-1)) (lit (-2)) (lit (-3)) (lit 1).
Proof. vm_compute. reflexivity. Qed.

(** C4 as worded fails in binary32: the determinant of [2^64 * I]
    overflows to [+Inf], which is not numerically zero, the cofactors are
    scaled by [1 / +Inf = 0], and the product with the inverse is the
    zero matrix. *)
Lemma inverse_roundtrip_fails_in_binary32 :
  ~ inverse_roundtrip (F := B32.t) (1 # 1000000).
Proof.
  intros [H2 _].
  specialize (H2 (mat2 (B32.of_Z (2 ^ 64)) (lit 0) (lit 0) (B32.of_Z (2 ^ 64)))).
  assert (Hd : FloatEqual
                 (Mat2.Det (mat2 (B32.of_Z (2 ^ 64)) (lit 0) (lit 0)
                                 (B32.of_Z (2 ^ 64)))) (lit 0) = false)
    by (vm_compute; reflexivity).
  destruct (H2 Hd) as [H0 _]. vm_compute in H0. discriminate H0.
Qed.

(** No overflow is needed: a matrix of entries near [1000] and
    determinant [498] has a product with its inverse that is off by more
    than [1e-4]. *)
Example inverse_roundtrip_ill_conditioned :
  let m : Mat2 B32.t := mat2 (lit 1000) (lit 999) (lit 998) (lit 997.5) in
  FloatEqual (Mat2.Det m) (lit 0) = false
  /\ Mat2.Det m = lit 498
  /\ B32.withinb (1 # 10000) (Mat2.Mul2 m (Mat2.Inverse m)).[1] (lit 0)
     = false.
Proof. vm_compute. repeat split. Qed.

(** C6.  [Mat2x3.Inverse] on the shear [[1 1 0] [0 1 0]]: the determinant
    is [1], the code returns the identity (its third element is
    [-m1[1]], not [-m1[2]]), and the product with the argument is the
    argument again, not the identity. *)
Theorem Mat2x3_Inverse_of_shear :
  let m : Mat2x3 B32.t :=
    mat2x3 (lit 1) (lit 0) (lit 1) (lit 1) (lit 0) (lit 0) in
  FloatEqual (Mat2x3.Det m) (lit 0) = false
  /\ Mat2x3.Inverse m
     = mat2x3 (lit 1) (- lit 0)%S (- lit 0)%S (lit 1) (lit 0) (lit 0)
  /\ Mat2x3.Mat3 (Mat2x3.Mul2x3 m (Mat2x3.Inverse m)) = Mat2x3.Mat3 m
  /\ ~ Mat3_within (1 # 2) (Mat2x3.Mat3 (Mat2x3.Mul2x3 m (Mat2x3.Inverse m)))
                   Ident3.
Proof.
  cbv zeta. repeat split; try (vm_compute; reflexivity).
  intros (_ & _ & _ & H3 & _). vm_compute in H3. discriminate H3.
Qed.

(** So the affine inverse fails on the shear. *)
Lemma affine_inverse_fails_on_shear : ~ affine_inverse (F := B32.t) (1 # 2).
Proof.
  intros Hc.
  specialize
    (Hc (mat2x3 (lit 1) (lit 0) (lit 1) (lit 1) (lit 0) (lit 0))).
  assert (Hd : FloatEqual
                 (Mat2x3.Det
                    (mat2x3 (lit 1) (lit 0) (lit 1) (lit 1) (lit 0) (lit 0)
                     : Mat2x3 B32.t)) (lit 0) = false)
    by (vm_compute; reflexivity).
  destruct (Hc Hd) as (_ & _ & _ & H3 & _). vm_compute in H3. discriminate H3.
Qed.

(** C8 as worded fails in binary32: for the half-turn about the first
    axis and the vector [(0, 2^127, 0)], [Rotate] doubles the cross
    product and overflows to [-Inf], the sandwich product returns
    [-2^127]. *)
Lemma rotate_is_sandwich_fails_in_binary32 :
  ~ rotate_is_sandwich (F := B32.t) (1 # 1000000).
Proof.
  intros Hc.
  specialize (Hc (quat (lit 0) (vec3 (lit 1) (lit 0) (lit 0)))
                 (vec3 (lit 0) (B32.of_Z (2 ^ 127)) (lit 0))).
  assert (Hu : unit (quat (lit 0) (vec3 (lit 1) (lit 0) (lit 0))
                     : Quaternion B32.t))
    by (vm_compute; reflexivity).
  destruct (Hc Hu) as (_ & H1 & _). vm_compute in H1. discriminate H1.
Qed.

(** C10.  The pointers [GetPosition], [GetRotation] and [GetScale] return
    alias the node's fields: a store through one changes the field and
    leaves the validity flag as it was.  So a node can be made
    incoherent: after a query on a new node, a store of [(1, 0, 0)]
    through [GetPosition] leaves the cache valid, and the next query
    returns the old matrix, which is not the composition of the node's
    position, rotation and scale. *)
Theorem accessor_pointers_bypass_invalidation :
  (forall (n : Node B32.t) (v : Vec3 B32.t),
     let n' := Node.store (Node.GetPosition n) v n in
     position n' = v /\ transformValid n' = transformValid n
     /\ transform n' = transform n)
  /\ (forall (n : Node B32.t) (q : Quaternion B32.t),
        let n' := Node.store (Node.GetRotation n) q n in
        rotation n' = q /\ transformValid n' = transformValid n
        /\ transform n' = transform n)
  /\ (forall (n : Node B32.t) (v : Vec3 B32.t),
        let n' := Node.store (Node.GetScale n) v n in
        scale n' = v /\ transformValid n' = transformValid n
        /\ transform n' = transform n)
  /\ (let n0 : Node B32.t := fst (Node.getTransform Node.NewNode) in
      let n1 := Node.store (Node.GetPosition n0)
                           (vec3 (lit 1) (lit 0) (lit 0)) n0 in
      coherent n0
      /\ transformValid n1 = true
      /\ localTransform n1 = localTransform n0
      /\ localTransform n1
         <> TRS (position n1) (rotation n1) (scale n1)
      /\ ~ coherent n1).
Proof.
  split; [intros n v; cbv zeta; repeat split|].
  split; [intros n q; cbv zeta; repeat split|].
  split; [intros n v; cbv zeta; repeat split|].
  cbv zeta. split; [apply coherent_query, coherent_NewNode|].
  split; [vm_compute; reflexivity|]. split; [vm_compute; reflexivity|].
  split.
  - vm_compute. intros E. discriminate E.
  - intros Hco. unfold coherent in Hco.
    assert (Hv : transformValid
                   (Node.store
                      (Node.GetPosition (fst (Node.getTransform Node.NewNode)))
                      (vec3 (lit 1) (lit 0) (lit 0))
                      (fst (Node.getTransform (Node.NewNode (F := B32.t)))))
                 = true) by (vm_compute; reflexivity).
    specialize (Hco Hv). vm_compute in Hco. discriminate Hco.
Qed.

End Binary32.
